(** * RPi-MCP23S17: the register-port driver of the MCP23S17 GPIO expander

    A shallow embedding of [RPiMCP23S17/MCP23S17.py] and
    [RPiMCP23S17/virtual_pin.py].  Python integers are [Z]; the bit
    operators [&], [|], [~], [<<], [>>] are [Z.land], [Z.lor], [Z.lnot],
    [Z.shiftl], [Z.shiftr].  A method is a state transformer over the
    attributes of the handle; an exception leaves the attributes as they
    were when it was raised, and the caller sees both. *)

From Stdlib Require Import ZArith List Bool Lia.
Import ListNotations.
Open Scope Z_scope.

(** ** Exceptions and outcomes *)

Inductive exn : Type :=
| NotInitialized          (* RPiMCP23S17.errors.NotInitialized *)
| AssertionError          (* a failed [assert] *)
| ValueError              (* [1 << n] with a negative [n] *)
| TypeError               (* [with None:], or a call with a missing argument *)
| IndexError              (* [data[2]] on a response shorter than three bytes *)
| AttributeError          (* an attribute that was never assigned is read *)
| NotImplementedError
| TransportError (code : Z). (* whatever the bus exchange raised *)

(** [Blocked]: the call does not return, the thread waits for a lock that
    is held.  It is not an exception and nothing can observe it from the
    same thread. *)
Inductive outcome (A : Type) : Type :=
| Ok (a : A)
| Raise (e : exn)
| Blocked.
Arguments Ok {A} a.
Arguments Raise {A} e.
Arguments Blocked {A}.

Definition M (S A : Type) : Type := S -> outcome A * S.

Definition ret {S A} (a : A) : M S A := fun s => (Ok a, s).

Definition bind {S A C} (m : M S A) (k : A -> M S C) : M S C :=
  fun s =>
    match m s with
    | (Ok a, s') => k a s'
    | (Raise e, s') => (Raise e, s')
    | (Blocked, s') => (Blocked, s')
    end.

Definition raise {S A} (e : exn) : M S A := fun s => (Raise e, s).
Definition gets {S A} (f : S -> A) : M S A := fun s => (Ok (f s), s).
Definition modify {S} (f : S -> S) : M S unit := fun s => (Ok tt, f s).

(** [assert c] *)
Definition assert {S} (c : bool) : M S unit :=
  if c then ret tt else raise AssertionError.

Declare Scope py_scope.
Delimit Scope py_scope with py.
Notation "x <- m ;; k" := (bind m (fun x => k))
  (at level 61, m at next level, right associativity) : py_scope.
Notation "m ;; k" := (bind m (fun _ => k))
  (at level 61, right associativity) : py_scope.
Open Scope py_scope.

(** [for x in l: body x] *)
Fixpoint for_each {S} (l : list Z) (body : Z -> M S unit) : M S unit :=
  match l with
  | [] => ret tt
  | x :: rest => body x ;; for_each rest body
  end.

(** [range(lo, hi)] *)
Definition range (lo hi : Z) : list Z :=
  map (fun i => lo + Z.of_nat i) (seq 0 (Z.to_nat (hi - lo))).

(** [a << n]: Python raises [ValueError] on a negative shift count. *)
Definition lshift {S} (a n : Z) : M S Z :=
  if n <? 0 then raise ValueError else ret (Z.shiftl a n).

(** ** The bus transport ([spidev.SpiDev])

    The transport is a collaborator of the driver: a [mode] attribute that
    can be read and assigned, the exchange [xfer2] which may raise, and
    [close]. *)

Inductive reply : Type :=
| Bytes (resp : list Z)
| Fault (code : Z).

Class SpiDev (B : Type) : Type := {
  spi_mode : B -> Z;
  spi_set_mode : Z -> B -> B;
  spi_xfer2 : list Z -> B -> reply * B;
  spi_close : B -> B
}.

(** ** The auxiliary pins ([gpio.Pin]) and the lock ([threading.Lock]) *)

Inductive PinDirection : Type := PinOutput | PinInput.

Record Pin : Type := {
  pin_direction : option PinDirection;
  pin_value : bool;
  pin_handler : option Z          (* the edge a callback is attached to *)
}.

Definition Pin_set_output (p : Pin) : Pin :=
  {| pin_direction := Some PinOutput; pin_value := pin_value p;
     pin_handler := pin_handler p |}.
Definition Pin_set_input (p : Pin) : Pin :=
  {| pin_direction := Some PinInput; pin_value := pin_value p;
     pin_handler := pin_handler p |}.
Definition Pin_set_value (v : bool) (p : Pin) : Pin :=
  {| pin_direction := pin_direction p; pin_value := v;
     pin_handler := pin_handler p |}.
Definition Pin_on_interrupt (edge : Z) (p : Pin) : Pin :=
  {| pin_direction := pin_direction p; pin_value := pin_value p;
     pin_handler := Some edge |}.

Inductive Mutex : Type := Unlocked | Locked.

Module MCP23S17.

Definition N_PINS := 16.
Definition PULLUP_ENABLED := 0.
Definition PULLUP_DISABLED := 1.

Definition DIR_INPUT := 0.
Definition DIR_OUTPUT := 1.

Definition LEVEL_LOW := 0.
Definition LEVEL_HIGH := 1.

Definition MCP23S17_IODIRA := 0x00.
Definition MCP23S17_IODIRB := 0x01.
Definition MCP23S17_IPOLA := 0x2.
Definition MCP23S17_IPOLB := 0x3.
Definition MCP23S17_GPIOA := 0x12.
Definition MCP23S17_GPIOB := 0x13.
Definition MCP23S17_OLATA := 0x14.
Definition MCP23S17_OLATB := 0x15.
Definition MCP23S17_IOCON := 0x0A.
Definition MCP23S17_GPPUA := 0x0C.
Definition MCP23S17_GPPUB := 0x0D.

Definition IOCON_UNUSED := 0x01.
Definition IOCON_INTPOL := 0x02.
Definition IOCON_ODR := 0x04.
Definition IOCON_HAEN := 0x08.
Definition IOCON_DISSLW := 0x10.
Definition IOCON_SEQOP := 0x20.
Definition IOCON_MIRROR := 0x40.
Definition IOCON_BANK_MODE := 0x80.

Definition IOCON_INIT := 0x28.

Definition MCP23S17_CMD_WRITE := 0x40.
Definition MCP23S17_CMD_READ := 0x41.

(** The attributes of a device handle.  [_spi] holds the state of the bus
    the handle refers to, [lock] the state of the lock it was given
    ([None] is the constructor's default).  [_spimode] is read by
    [_writeRegister] and [_readRegister] and assigned nowhere in the class:
    it is [None] until somebody outside the class assigns it, and reading
    it then raises [AttributeError]. *)
Record handle (B : Type) : Type := mkHandle {
  device_id : Z;
  _GPIOA : Z;
  _GPIOB : Z;
  _IODIRA : Z;
  _IODIRB : Z;
  _GPPUA : Z;
  _GPPUB : Z;
  reset_pin : option Pin;
  int_pins : list (option Pin);
  int_level : Z;
  lock : option Mutex;
  _spi : B;
  _spimode : option Z;
  isInitialized : bool
}.
Arguments mkHandle {B}.
Arguments device_id {B}.
Arguments _GPIOA {B}.
Arguments _GPIOB {B}.
Arguments _IODIRA {B}.
Arguments _IODIRB {B}.
Arguments _GPPUA {B}.
Arguments _GPPUB {B}.
Arguments reset_pin {B}.
Arguments int_pins {B}.
Arguments int_level {B}.
Arguments lock {B}.
Arguments _spi {B}.
Arguments _spimode {B}.
Arguments isInitialized {B}.

Section Driver.
Context {B : Type} `{SpiDev B}.

Abbreviation handle := (handle B).

(** Attribute assignment, one definition per attribute that is assigned. *)
Definition set_GPIOA (v : Z) (d : handle) : handle :=
  mkHandle (device_id d) v (_GPIOB d) (_IODIRA d) (_IODIRB d) (_GPPUA d)
    (_GPPUB d) (reset_pin d) (int_pins d) (int_level d) (lock d) (_spi d)
    (_spimode d) (isInitialized d).
Definition set_GPIOB (v : Z) (d : handle) : handle :=
  mkHandle (device_id d) (_GPIOA d) v (_IODIRA d) (_IODIRB d) (_GPPUA d)
    (_GPPUB d) (reset_pin d) (int_pins d) (int_level d) (lock d) (_spi d)
    (_spimode d) (isInitialized d).
Definition set_IODIRA (v : Z) (d : handle) : handle :=
  mkHandle (device_id d) (_GPIOA d) (_GPIOB d) v (_IODIRB d) (_GPPUA d)
    (_GPPUB d) (reset_pin d) (int_pins d) (int_level d) (lock d) (_spi d)
    (_spimode d) (isInitialized d).
Definition set_IODIRB (v : Z) (d : handle) : handle :=
  mkHandle (device_id d) (_GPIOA d) (_GPIOB d) (_IODIRA d) v (_GPPUA d)
    (_GPPUB d) (reset_pin d) (int_pins d) (int_level d) (lock d) (_spi d)
    (_spimode d) (isInitialized d).
Definition set_GPPUA (v : Z) (d : handle) : handle :=
  mkHandle (device_id d) (_GPIOA d) (_GPIOB d) (_IODIRA d) (_IODIRB d) v
    (_GPPUB d) (reset_pin d) (int_pins d) (int_level d) (lock d) (_spi d)
    (_spimode d) (isInitialized d).
Definition set_GPPUB (v : Z) (d : handle) : handle :=
  mkHandle (device_id d) (_GPIOA d) (_GPIOB d) (_IODIRA d) (_IODIRB d)
    (_GPPUA d) v (reset_pin d) (int_pins d) (int_level d) (lock d) (_spi d)
    (_spimode d) (isInitialized d).
Definition set_reset_pin (v : option Pin) (d : handle) : handle :=
  mkHandle (device_id d) (_GPIOA d) (_GPIOB d) (_IODIRA d) (_IODIRB d)
    (_GPPUA d) (_GPPUB d) v (int_pins d) (int_level d) (lock d) (_spi d)
    (_spimode d) (isInitialized d).
Definition set_int_pins (v : list (option Pin)) (d : handle) : handle :=
  mkHandle (device_id d) (_GPIOA d) (_GPIOB d) (_IODIRA d) (_IODIRB d)
    (_GPPUA d) (_GPPUB d) (reset_pin d) v (int_level d) (lock d) (_spi d)
    (_spimode d) (isInitialized d).
Definition set_lock (v : option Mutex) (d : handle) : handle :=
  mkHandle (device_id d) (_GPIOA d) (_GPIOB d) (_IODIRA d) (_IODIRB d)
    (_GPPUA d) (_GPPUB d) (reset_pin d) (int_pins d) (int_level d) v (_spi d)
    (_spimode d) (isInitialized d).
Definition set_spi (v : B) (d : handle) : handle :=
  mkHandle (device_id d) (_GPIOA d) (_GPIOB d) (_IODIRA d) (_IODIRB d)
    (_GPPUA d) (_GPPUB d) (reset_pin d) (int_pins d) (int_level d) (lock d) v
    (_spimode d) (isInitialized d).
Definition set_isInitialized (v : bool) (d : handle) : handle :=
  mkHandle (device_id d) (_GPIOA d) (_GPIOB d) (_IODIRA d) (_IODIRB d)
    (_GPPUA d) (_GPPUB d) (reset_pin d) (int_pins d) (int_level d) (lock d)
    (_spi d) (_spimode d) v.

(** [mcp._spimode = mode], which no method of the class does: a subclass
    or a caller has to. *)
Definition set_spimode (v : option Z) (d : handle) : handle :=
  mkHandle (device_id d) (_GPIOA d) (_GPIOB d) (_IODIRA d) (_IODIRB d)
    (_GPPUA d) (_GPPUB d) (reset_pin d) (int_pins d) (int_level d) (lock d)
    (_spi d) v (isInitialized d).

(** [__init__]: every cached byte starts at 0, the handle is not
    initialized, and [_spimode] is not assigned. *)
Definition __init__ (spi : B) (reset intA intB : option Pin) (level : Z)
    (lk : option Mutex) (id : Z) : handle :=
  mkHandle id 0 0 0 0 0 0 reset [intA; intB] level lk spi None false.

(** [self._spimode] *)
Definition get_spimode : M handle Z :=
  fun d =>
    match _spimode d with
    | Some mode => (Ok mode, d)
    | None => (Raise AttributeError, d)
    end.

(** *** The transport, as the handle uses it *)

(** [self._spi.xfer2(frame)] *)
Definition xfer2 (frame : list Z) : M handle (list Z) :=
  fun d =>
    match spi_xfer2 frame (_spi d) with
    | (Bytes resp, b) => (Ok resp, set_spi b d)
    | (Fault code, b) => (Raise (TransportError code), set_spi b d)
    end.

Definition _setSpiMode (mode : Z) : M handle unit :=
  cur <- gets (fun d => spi_mode (_spi d)) ;;
  if negb (cur =? mode) then
    modify (fun d => set_spi (spi_set_mode mode (_spi d)) d) ;;
    _ <- xfer2 [0] ;;
    ret tt
  else ret tt.

(** [with self.lock: body]: the lock is released when the body returns and
    when it raises. *)
Definition with_lock {A} (body : M handle A) : M handle A :=
  fun d =>
    match lock d with
    | None => (Raise TypeError, d)
    | Some Locked => (Blocked, d)
    | Some Unlocked =>
        match body (set_lock (Some Locked) d) with
        | (Blocked, d') => (Blocked, d')
        | (r, d') => (r, set_lock (Some Unlocked) d')
        end
    end.

(** The decorator [lock]. *)
Definition locked {A} (f : M handle A) : M handle A :=
  init <- gets isInitialized ;;
  if negb init then raise NotInitialized
  else
    res <- with_lock f ;;
    ret res.

Definition _writeRegister (register value : Z) : M handle unit :=
  locked (
    id <- gets device_id ;;
    let command := Z.lor MCP23S17_CMD_WRITE (Z.shiftl id 1) in
    mode <- get_spimode ;;
    _setSpiMode mode ;;
    _ <- xfer2 [command; register; value] ;;
    ret tt).

Definition _readRegister (register : Z) : M handle Z :=
  locked (
    id <- gets device_id ;;
    let command := Z.lor MCP23S17_CMD_READ (Z.shiftl id 1) in
    mode <- get_spimode ;;
    _setSpiMode mode ;;
    data <- xfer2 [command; register; 0] ;;
    match nth_error data 2 with
    | Some v => ret v
    | None => raise IndexError
    end).

Definition _readRegisterWord (register : Z) : M handle Z :=
  init <- gets isInitialized ;;
  assert init ;;
  b0 <- _readRegister register ;;
  b1 <- _readRegister (register + 1) ;;
  ret (Z.lor (Z.shiftl b1 8) b0).

Definition _writeRegisterWord (register data : Z) : M handle unit :=
  init <- gets isInitialized ;;
  assert init ;;
  _writeRegister register (Z.land data 0xFF) ;;
  _writeRegister (register + 1) (Z.shiftr data 8).

(** [_setupGPIO]: the reset line, when there is one, becomes an output
    driven high; [zip("AB", self.int_pins)] pairs the two channel letters
    with the interrupt lines, and each line that is there becomes an input
    with a callback attached to the edge [int_level]. *)
Fixpoint setup_int_pins (channels : list Z) (pins : list (option Pin))
    (edge : Z) : list (option Pin) :=
  match channels, pins with
  | _ :: channels', pin :: pins' =>
      option_map (fun p => Pin_on_interrupt edge (Pin_set_input p)) pin
        :: setup_int_pins channels' pins' edge
  | _, _ => pins
  end.

Definition _setupGPIO : M handle unit :=
  modify (fun d =>
    set_reset_pin
      (option_map (fun p => Pin_set_value true (Pin_set_output p))
         (reset_pin d)) d) ;;
  modify (fun d =>
    (* ord("A"), ord("B") *)
    set_int_pins (setup_int_pins [65; 66] (int_pins d) (int_level d)) d).

Definition setPullupMode (pin mode : Z) : M handle unit :=
  assert (pin <? 16) ;;
  assert ((mode =? PULLUP_ENABLED) || (mode =? PULLUP_DISABLED)) ;;
  init <- gets isInitialized ;;
  assert init ;;
  sel <- (if pin <? 8
          then data <- gets _GPPUA ;; ret (MCP23S17_GPPUA, data, pin)
          else data <- gets _GPPUB ;;
               ret (MCP23S17_GPPUB, data, Z.land pin 0x07)) ;;
  let '(register, data, noshifts) := sel in
  bit <- lshift 1 noshifts ;;
  let data := if mode =? PULLUP_ENABLED
              then Z.lor data bit
              else Z.land data (Z.lnot bit) in
  _writeRegister register data ;;
  if pin <? 8 then modify (set_GPPUA data) else modify (set_GPPUB data).

Definition setDirection (pin direction : Z) : M handle unit :=
  assert (pin <? 16) ;;
  assert ((direction =? DIR_INPUT) || (direction =? DIR_OUTPUT)) ;;
  init <- gets isInitialized ;;
  assert init ;;
  sel <- (if pin <? 8
          then data <- gets _IODIRA ;; ret (MCP23S17_IODIRA, data, pin)
          else data <- gets _IODIRB ;;
               ret (MCP23S17_IODIRB, data, Z.land pin 0x07)) ;;
  let '(register, data, noshifts) := sel in
  bit <- lshift 1 noshifts ;;
  let data := if direction =? DIR_INPUT
              then Z.lor data bit
              else Z.land data (Z.lnot bit) in
  _writeRegister register data ;;
  if pin <? 8 then modify (set_IODIRA data) else modify (set_IODIRB data).

Definition digitalRead (pin : Z) : M handle Z :=
  init <- gets isInitialized ;;
  assert init ;;
  assert (pin <? 16) ;;
  if pin <? 8 then
    v <- _readRegister MCP23S17_GPIOA ;;
    modify (set_GPIOA v) ;;
    data <- gets _GPIOA ;;
    bit <- lshift 1 pin ;;
    if negb (Z.land data bit =? 0) then ret LEVEL_HIGH else ret LEVEL_LOW
  else
    v <- _readRegister MCP23S17_GPIOB ;;
    modify (set_GPIOB v) ;;
    let pin := Z.land pin 0x07 in
    data <- gets _GPIOB ;;
    bit <- lshift 1 pin ;;
    if negb (Z.land data bit =? 0) then ret LEVEL_HIGH else ret LEVEL_LOW.

Definition digitalWrite (pin level : Z) : M handle unit :=
  init <- gets isInitialized ;;
  assert init ;;
  assert (pin <? 16) ;;
  assert ((level =? LEVEL_HIGH) || (level =? LEVEL_LOW)) ;;
  sel <- (if pin <? 8
          then data <- gets _GPIOA ;; ret (MCP23S17_GPIOA, data, pin)
          else data <- gets _GPIOB ;;
               ret (MCP23S17_GPIOB, data, Z.land pin 0x07)) ;;
  let '(register, data, noshifts) := sel in
  bit <- lshift 1 noshifts ;;
  let data := if level =? LEVEL_HIGH
              then Z.lor data bit
              else Z.land data (Z.lnot bit) in
  _writeRegister register data ;;
  if pin <? 8 then modify (set_GPIOA data) else modify (set_GPIOB data).

Definition writeGPIO (data : Z) : M handle unit :=
  init <- gets isInitialized ;;
  assert init ;;
  modify (set_GPIOA (Z.land data 0xFF)) ;;
  modify (set_GPIOB (Z.shiftr data 8)) ;;
  _writeRegisterWord MCP23S17_GPIOA data.

Definition readGPIO : M handle Z :=
  init <- gets isInitialized ;;
  assert init ;;
  data <- _readRegisterWord MCP23S17_GPIOA ;;
  modify (set_GPIOA (Z.land data 0xFF)) ;;
  modify (set_GPIOB (Z.shiftr data 8)) ;;
  ret data.

Definition setInterrupt (pin mode : Z) : M handle unit :=
  raise NotImplementedError.

Definition on_interrupt (channel : Z) : M handle unit :=
  raise NotImplementedError.

Definition open : M handle unit :=
  _setupGPIO ;;
  modify (set_isInitialized true) ;;
  _writeRegister MCP23S17_IOCON IOCON_INIT ;;
  for_each (range 0 15) (fun index =>
    setDirection index DIR_INPUT ;;
    setPullupMode index PULLUP_ENABLED).

Definition close : M handle unit :=
  modify (fun d => set_spi (spi_close (_spi d)) d) ;;
  modify (set_isInitialized false).

Definition __enter__ : M handle unit := open.
Definition __exit__ : M handle unit := close.

(** A call of [mcp.digitalWrite] with positional arguments only: the
    method binds [pin] and [level], and any other number of arguments is a
    [TypeError] raised before the body runs. *)
Definition call_digitalWrite (args : list Z) : M handle unit :=
  match args with
  | [pin; level] => digitalWrite pin level
  | _ => raise TypeError
  end.

End Driver.
End MCP23S17.

(** ** The virtual pin: a device handle and a pin index

    The handle a virtual pin refers to is the state its methods run in:
    [mcp[i]] shares the device, it does not copy it. *)
Module VirtualPin.
Import MCP23S17.

Definition INPUT := 0.
Definition OUTPUT := 1.

Record t : Type := mk { pin_id : Z; _callback : option Z }.

Section Methods.
Context {B : Type} `{SpiDev B}.

(** [gpio.decorators.assert_input] and [assert_output] are not part of
    these sources.  They are taken as parameters: a decorated method runs
    when the check passes and fails an assertion when it does not. *)
Variable input_check output_check : t -> handle B -> bool.

Definition assert_input {A} (self : t) (f : M (handle B) A)
    : M (handle B) A :=
  pass <- gets (input_check self) ;; assert pass ;; f.
Definition assert_output {A} (self : t) (f : M (handle B) A)
    : M (handle B) A :=
  pass <- gets (output_check self) ;; assert pass ;; f.

(** [MCP23S17.__getitem__] *)
Definition __getitem__ (item : Z) : t := mk item None.

Definition setup (self : t) (mode : Z) : M (handle B) unit :=
  setDirection (pin_id self) mode.

Definition value (self : t) : M (handle B) Z :=
  assert_input self (digitalRead (pin_id self)).

(** The setter of [value]: [self.mcp.digitalWrite(value)]. *)
Definition set_value (self : t) (value : Z) : M (handle B) unit :=
  assert_output self (call_digitalWrite [value]).

Definition on_interrupt (self : t) (event callback : Z)
    : M (handle B) t :=
  assert_input self (
    setInterrupt (pin_id self) event ;;
    ret (mk (pin_id self) (Some callback))).

End Methods.
End VirtualPin.

(** ** Transports to run the driver on

    [EchoChip] keeps a register file: a write frame stores its third byte
    at the register its second byte names, a read frame answers with the
    byte stored there.  Bit 0 of the command byte tells the two apart, as
    on the device.  [Recorder] wraps a transport and keeps the list of the
    calls made to it.  [Flaky] wraps a transport and makes the exchanges
    its script marks raise. *)

Record EchoChip : Type := {
  chip_mode : Z;
  chip_regs : Z -> Z;
  chip_closed : bool
}.

Definition chip_store (reg v : Z) (c : EchoChip) : EchoChip :=
  {| chip_mode := chip_mode c;
     chip_regs := fun r => if r =? reg then v else chip_regs c r;
     chip_closed := chip_closed c |}.

Definition chip_xfer2 (frame : list Z) (c : EchoChip) : reply * EchoChip :=
  match frame with
  | [cmd; reg; v] =>
      if Z.testbit cmd 0
      then (Bytes [0; 0; chip_regs c reg], c)
      else (Bytes [0; 0; 0], chip_store reg v c)
  | _ => (Bytes (map (fun _ => 0) frame), c)
  end.

#[export] Instance EchoChip_SpiDev : SpiDev EchoChip := {
  spi_mode := chip_mode;
  spi_set_mode := fun m c =>
    {| chip_mode := m; chip_regs := chip_regs c;
       chip_closed := chip_closed c |};
  spi_xfer2 := chip_xfer2;
  spi_close := fun c =>
    {| chip_mode := chip_mode c; chip_regs := chip_regs c;
       chip_closed := true |}
}.

(** A chip after reset: every register reads 0. *)
Definition blank_chip (mode : Z) : EchoChip :=
  {| chip_mode := mode; chip_regs := fun _ => 0; chip_closed := false |}.

Inductive call : Type :=
| SetMode (mode : Z)
| Xfer2 (frame : list Z)
| Close.

Record Recorder (B : Type) : Type := mkRecorder {
  rec_inner : B;
  calls : list call
}.
Arguments mkRecorder {B}.
Arguments rec_inner {B}.
Arguments calls {B}.

#[export] Instance Recorder_SpiDev {B} `{SpiDev B} : SpiDev (Recorder B) := {
  spi_mode := fun r => spi_mode (rec_inner r);
  spi_set_mode := fun m r =>
    mkRecorder (spi_set_mode m (rec_inner r)) (calls r ++ [SetMode m]);
  spi_xfer2 := fun frame r =>
    let '(rep, b) := spi_xfer2 frame (rec_inner r) in
    (rep, mkRecorder b (calls r ++ [Xfer2 frame]));
  spi_close := fun r =>
    mkRecorder (spi_close (rec_inner r)) (calls r ++ [Close])
}.

Record Flaky (B : Type) : Type := mkFlaky {
  flaky_inner : B;
  script : list bool      (* one entry per exchange to come: [true] raises *)
}.
Arguments mkFlaky {B}.
Arguments flaky_inner {B}.
Arguments script {B}.

(** errno [EIO] *)
Definition EIO := 5.

#[export] Instance Flaky_SpiDev {B} `{SpiDev B} : SpiDev (Flaky B) := {
  spi_mode := fun f => spi_mode (flaky_inner f);
  spi_set_mode := fun m f =>
    mkFlaky (spi_set_mode m (flaky_inner f)) (script f);
  spi_xfer2 := fun frame f =>
    match script f with
    | true :: rest => (Fault EIO, mkFlaky (flaky_inner f) rest)
    | false :: rest =>
        let '(rep, b) := spi_xfer2 frame (flaky_inner f) in
        (rep, mkFlaky b rest)
    | [] =>
        let '(rep, b) := spi_xfer2 frame (flaky_inner f) in
        (rep, mkFlaky b [])
    end;
  spi_close := fun f => mkFlaky (spi_close (flaky_inner f)) (script f)
}.

(** ** Handles to run the driver on

    Device address 2 on a bus left in mode 3 by another device, no
    auxiliary pin, a lock that is free.  [fresh_handle] and
    [built_recorded_handle] are what the constructor builds; the others
    have had [_spimode] assigned 0 from outside the class. *)

Definition fresh_handle : MCP23S17.handle EchoChip :=
  MCP23S17.__init__ (blank_chip 3) None None None 0 (Some Unlocked) 2.

Definition built_recorded_handle : MCP23S17.handle (Recorder EchoChip) :=
  MCP23S17.__init__ (mkRecorder (blank_chip 3) []) None None None 0
    (Some Unlocked) 2.

Definition tuned_handle : MCP23S17.handle EchoChip :=
  MCP23S17.set_spimode (Some 0) fresh_handle.

Definition recorded_handle : MCP23S17.handle (Recorder EchoChip) :=
  MCP23S17.set_spimode (Some 0) built_recorded_handle.

(** The fifth exchange on this bus raises, the others do not. *)
Definition flaky_handle : MCP23S17.handle (Flaky EchoChip) :=
  MCP23S17.set_spimode (Some 0)
    (MCP23S17.__init__
       (mkFlaky (blank_chip 3) [false; false; false; false; true])
       None None None 0 (Some Unlocked) 2).

(** The first exchange on this bus raises. *)
Definition broken_handle : MCP23S17.handle (Flaky EchoChip) :=
  MCP23S17.set_isInitialized true
    (MCP23S17.set_spimode (Some 0)
       (MCP23S17.__init__ (mkFlaky (blank_chip 0) [true]) None None None 0
          (Some Unlocked) 2)).

(** The handles above once opened. *)
Definition opened_handle : MCP23S17.handle EchoChip :=
  snd (MCP23S17.open tuned_handle).

Definition opened_recorded_handle : MCP23S17.handle (Recorder EchoChip) :=
  snd (MCP23S17.open recorded_handle).

(** What [open] leaves of the handle the constructor built. *)
Definition half_opened_handle : MCP23S17.handle (Recorder EchoChip) :=
  snd (MCP23S17.open built_recorded_handle).

(** The same over the echoing device alone. *)
Definition stalled_handle : MCP23S17.handle EchoChip :=
  snd (MCP23S17.open fresh_handle).

(** A transport that answers every exchange with no byte at all. *)
Record ShortBus : Type := { short_mode : Z }.

#[export] Instance ShortBus_SpiDev : SpiDev ShortBus := {
  spi_mode := short_mode;
  spi_set_mode := fun m _ => {| short_mode := m |};
  spi_xfer2 := fun _ b => (Bytes [], b);
  spi_close := fun b => b
}.

Definition short_handle : MCP23S17.handle ShortBus :=
  MCP23S17.set_isInitialized true
    (MCP23S17.set_spimode (Some 0)
       (MCP23S17.__init__ {| short_mode := 0 |} None None None 0
          (Some Unlocked) 2)).

(** A handle built with the constructor's default for the lock. *)
Definition lockless_handle : MCP23S17.handle EchoChip :=
  MCP23S17.__init__ (blank_chip 3) None None None 0 None 2.

(** The fifth exchange raises, on a recorded bus. *)
Definition flaky_recorded_handle
    : MCP23S17.handle (Recorder (Flaky EchoChip)) :=
  MCP23S17.set_spimode (Some 0)
    (MCP23S17.__init__
       (mkRecorder
          (mkFlaky (blank_chip 3) [false; false; false; false; true]) [])
       None None None 0 (Some Unlocked) 2).

(** The second exchange raises. *)
Definition half_broken_handle : MCP23S17.handle (Flaky EchoChip) :=
  MCP23S17.set_isInitialized true
    (MCP23S17.set_spimode (Some 0)
       (MCP23S17.__init__ (mkFlaky (blank_chip 0) [false; true]) None None
          None 0 (Some Unlocked) 2)).

(** A handle with a reset line and the interrupt line of bank A, callbacks
    on edge 2. *)
Definition idle_pin : Pin :=
  {| pin_direction := None; pin_value := false; pin_handler := None |}.

Definition wired_handle : MCP23S17.handle EchoChip :=
  MCP23S17.__init__ (blank_chip 3) (Some idle_pin) (Some idle_pin) None 2
    (Some Unlocked) 2.

(** ** What the claims speak of *)

Section Contracts.
Import MCP23S17.
Context {B : Type} `{SpiDev B}.

(** One register transaction as the bus sees it: the mode is put right
    first, with the dummy exchange, and then the frame is exchanged. *)
Definition transact (mode : Z) (frame : list Z) (b : B) : reply * B :=
  if spi_mode b =? mode then spi_xfer2 frame b
  else
    match spi_xfer2 [0] (spi_set_mode mode b) with
    | (Bytes _, b1) => spi_xfer2 frame b1
    | (Fault code, b1) => (Fault code, b1)
    end.

(** A transport whose exchange never raises and answers with as many bytes
    as it was sent. *)
Definition Reliable : Prop :=
  forall frame b, exists resp b',
    spi_xfer2 frame b = (Bytes resp, b') /\ length resp = length frame.

(** A transport that echoes: [stored b r] is the byte a read of register
    [r] answers with, a write frame of a byte replaces it, and nothing else
    changes it. *)
Definition Echoes (stored : B -> Z -> Z) : Prop :=
  (forall m b r, stored (spi_set_mode m b) r = stored b r) /\
  (forall b, exists resp b',
      spi_xfer2 [0] b = (Bytes resp, b') /\
      forall r, stored b' r = stored b r) /\
  (forall cmd reg v b,
      Z.testbit cmd 0 = false -> 0 <= v < 256 ->
      exists resp b',
        spi_xfer2 [cmd; reg; v] b = (Bytes resp, b') /\
        stored b' reg = v /\
        forall r, r <> reg -> stored b' r = stored b r) /\
  (forall cmd reg b,
      Z.testbit cmd 0 = true ->
      exists x y b',
        spi_xfer2 [cmd; reg; 0] b = (Bytes [x; y; stored b reg], b') /\
        forall r, stored b' r = stored b r).

(** The mapping of section 4.2 of the specification: a pin belongs to a
    bank and has a bit offset in it, whatever the register family. *)
Inductive Bank : Type := BankA | BankB.
Inductive Family : Type := Direction | Pullup | Data.

Definition bank (pin : Z) : Bank := if pin <? 8 then BankA else BankB.
Definition offset (pin : Z) : Z := if pin <? 8 then pin else Z.land pin 0x07.

Definition other (k : Bank) : Bank :=
  match k with BankA => BankB | BankB => BankA end.

Definition register (f : Family) (k : Bank) : Z :=
  match f, k with
  | Direction, BankA => MCP23S17_IODIRA
  | Direction, BankB => MCP23S17_IODIRB
  | Pullup, BankA => MCP23S17_GPPUA
  | Pullup, BankB => MCP23S17_GPPUB
  | Data, BankA => MCP23S17_GPIOA
  | Data, BankB => MCP23S17_GPIOB
  end.

Definition cached (f : Family) (k : Bank) (d : handle B) : Z :=
  match f, k with
  | Direction, BankA => _IODIRA d
  | Direction, BankB => _IODIRB d
  | Pullup, BankA => _GPPUA d
  | Pullup, BankB => _GPPUB d
  | Data, BankA => _GPIOA d
  | Data, BankB => _GPIOB d
  end.

Definition store (f : Family) (k : Bank) (v : Z) (d : handle B) : handle B :=
  match f, k with
  | Direction, BankA => set_IODIRA v d
  | Direction, BankB => set_IODIRB v d
  | Pullup, BankA => set_GPPUA v d
  | Pullup, BankB => set_GPPUB v d
  | Data, BankA => set_GPIOA v d
  | Data, BankB => set_GPIOB v d
  end.

(** The mode value of each family that sets the bit; the other clears it. *)
Definition setting (f : Family) : Z :=
  match f with
  | Direction => DIR_INPUT
  | Pullup => PULLUP_ENABLED
  | Data => LEVEL_HIGH
  end.

Definition with_bit (set : bool) (byte off : Z) : Z :=
  if set then Z.lor byte (Z.shiftl 1 off)
  else Z.land byte (Z.lnot (Z.shiftl 1 off)).

Definition mutator (f : Family) : Z -> Z -> M (handle B) unit :=
  match f with
  | Direction => setDirection
  | Pullup => setPullupMode
  | Data => digitalWrite
  end.

(** The bit-level mutator as section 4.3 words it, on the mapping above:
    take the cached byte of the pin's bank, set or clear the bit at the
    pin's offset, write the byte to the bank's register, then store it. *)
Definition mapped_mutator (f : Family) (pin mode : Z) : M (handle B) unit :=
  byte <- gets (cached f (bank pin)) ;;
  let byte' := with_bit (mode =? setting f) byte (offset pin) in
  _writeRegister (register f (bank pin)) byte' ;;
  modify (store f (bank pin) byte').

(** The command bytes of a handle. *)
Definition write_command (d : handle B) : Z :=
  Z.lor MCP23S17_CMD_WRITE (Z.shiftl (device_id d) 1).
Definition read_command (d : handle B) : Z :=
  Z.lor MCP23S17_CMD_READ (Z.shiftl (device_id d) 1).

(** The operations a caller can ask of a handle, and their call.  An
    operation that returns nothing answers [None]. *)
Inductive operation : Type :=
| SetDirection (pin direction : Z)
| SetPullupMode (pin mode : Z)
| DigitalRead (pin : Z)
| DigitalWrite (pin level : Z)
| WriteGPIO (data : Z)
| ReadGPIO
| ReadRegisterWord (register : Z)
| WriteRegisterWord (register data : Z)
| ReadRegister (register : Z)
| WriteRegister (register value : Z).

Definition perform (o : operation) : M (handle B) (option Z) :=
  match o with
  | SetDirection pin direction => setDirection pin direction ;; ret None
  | SetPullupMode pin mode => setPullupMode pin mode ;; ret None
  | DigitalRead pin => v <- digitalRead pin ;; ret (Some v)
  | DigitalWrite pin level => digitalWrite pin level ;; ret None
  | WriteGPIO data => writeGPIO data ;; ret None
  | ReadGPIO => v <- readGPIO ;; ret (Some v)
  | ReadRegisterWord r => v <- _readRegisterWord r ;; ret (Some v)
  | WriteRegisterWord r data => _writeRegisterWord r data ;; ret None
  | ReadRegister r => v <- _readRegister r ;; ret (Some v)
  | WriteRegister r v => _writeRegister r v ;; ret None
  end.

(** The arguments the operations document: a pin in 0..15, a mode that is
    one of the two constants of its family. *)
Definition well_formed (o : operation) : Prop :=
  match o with
  | SetDirection pin m | SetPullupMode pin m | DigitalWrite pin m =>
      0 <= pin <= 15 /\ (m = 0 \/ m = 1)
  | DigitalRead pin => 0 <= pin <= 15
  | _ => True
  end.

(** What stops an operation on a handle that is not initialized: the
    decorator of the two register transactions raises [NotInitialized],
    every other operation fails an [assert]. *)
Definition rejection (o : operation) : exn :=
  match o with
  | ReadRegister _ | WriteRegister _ _ => NotInitialized
  | _ => AssertionError
  end.

(** [agree d d']: [d'] is [d] up to the state of the bus and of the lock,
    the two collaborators a register transaction acts on. *)
Definition agree (d d' : handle B) : Prop :=
  device_id d' = device_id d /\
  _GPIOA d' = _GPIOA d /\ _GPIOB d' = _GPIOB d /\
  _IODIRA d' = _IODIRA d /\ _IODIRB d' = _IODIRB d /\
  _GPPUA d' = _GPPUA d /\ _GPPUB d' = _GPPUB d /\
  reset_pin d' = reset_pin d /\ int_pins d' = int_pins d /\
  int_level d' = int_level d /\ _spimode d' = _spimode d /\
  isInitialized d' = isInitialized d.

(** A handle that is initialized, whose lock is there and free, and
    whose [_spimode] has been assigned [sm]. *)
Definition ready (sm : Z) (d : handle B) : Prop :=
  isInitialized d = true /\ lock d = Some Unlocked /\ _spimode d = Some sm.

Definition Bank_eqb (k k' : Bank) : bool :=
  match k, k' with
  | BankA, BankA | BankB, BankB => true
  | _, _ => false
  end.

(** The bits of bank [k] that belong to the pins of [pins]. *)
Definition mask (pins : list Z) (k : Bank) : Z :=
  fold_right
    (fun pin acc =>
       if Bank_eqb (bank pin) k then Z.lor (Z.shiftl 1 (offset pin)) acc
       else acc)
    0 pins.

(** The two errors a guard of initialization raises. *)
Definition guard_error (e0 : exn) : Prop :=
  e0 = NotInitialized \/ e0 = AssertionError.

(** A computation that, on an initialized handle, leaves the handle
    initialized whatever its outcome, and does not raise [e0]. *)
Definition gets_past (e0 : exn) {A} (m : M (handle B) A) : Prop :=
  forall d, isInitialized d = true ->
    isInitialized (snd (m d)) = true /\ fst (m d) <> Raise e0.

End Contracts.

(** ** Further contracts *)

Section MoreContracts.
Import MCP23S17.
Context {B : Type} `{SpiDev B}.

Definition is_byte (v : Z) : Prop := 0 <= v < 256.

(** [with mcp: body], Python's statement on the two methods [__enter__]
    and [__exit__]: the body runs when [__enter__] has returned, [__exit__]
    runs when the body has returned and when it has raised, and as
    [__exit__] returns [None] what the body raised is raised again.  When
    [__enter__] raises, [__exit__] is not called. *)
Definition scoped {A} (body : M (handle B) A) : M (handle B) A :=
  fun d =>
    match __enter__ d with
    | (Ok _, d1) =>
        match body d1 with
        | (Blocked, d2) => (Blocked, d2)
        | (r, d2) =>
            match __exit__ d2 with
            | (Ok _, d3) => (r, d3)
            | (Raise e, d3) => (Raise e, d3)
            | (Blocked, d3) => (Blocked, d3)
            end
        end
    | (Raise e, d1) => (Raise e, d1)
    | (Blocked, d1) => (Blocked, d1)
    end.

(** The registers of family [f] on the device hold the cached bytes. *)
Definition coherent (stored : B -> Z -> Z) (f : Family) (d : handle B)
    : Prop :=
  forall k, stored (_spi d) (register f k) = cached f k d.

(** A computation that, started with the lock free, ends with the lock
    free whatever its outcome, and does not wait on it. *)
Definition releases_lock {A} (m : M (handle B) A) : Prop :=
  forall d, lock d = Some Unlocked ->
    lock (snd (m d)) = Some Unlocked /\ fst (m d) <> Blocked.

Definition Family_eqb (f f' : Family) : bool :=
  match f, f' with
  | Direction, Direction | Pullup, Pullup | Data, Data => true
  | _, _ => false
  end.

(** A transport whose mode is what was last assigned to it. *)
Definition KeepsMode : Prop :=
  (forall m b, spi_mode (spi_set_mode m b) = m) /\
  (forall frame b, spi_mode (snd (spi_xfer2 frame b)) = spi_mode b).

(** The calls a transaction adds when the bus is not in the required
    mode yet. *)
Definition settling (mode : Z) (b : B) : list call :=
  if spi_mode b =? mode then [] else [SetMode mode; Xfer2 [0]].

(** A computation that adds calls to a recorded bus, none of them
    [close]. *)
Definition bus_only {A} (m : M (handle (Recorder B)) A) : Prop :=
  forall d, exists added,
    calls (_spi (snd (m d))) = calls (_spi d) ++ added /\
    ~ In Close added.

(** A computation that leaves the attribute [_spimode] as it is:
    unassigned when it was, and with its value when it had one. *)
Definition keeps_spimode {A} (m : M (handle B) A) : Prop :=
  forall d, _spimode (snd (m d)) = _spimode d.

(** A computation that leaves the auxiliary pins as they are. *)
Definition keeps_pins {A} (m : M (handle B) A) : Prop :=
  forall d,
    reset_pin (snd (m d)) = reset_pin d /\ int_pins (snd (m d)) = int_pins d.

End MoreContracts.

(** * Proofs *)

(** Unfolding of the monad's operations in the goal. *)
Ltac run :=
  cbv beta iota delta [bind ret raise gets modify assert negb fst snd].

Section Transactions.
Import MCP23S17.
Context {B : Type} `{SpiDev B}.
Implicit Types d : handle B.

Lemma agree_refl d : agree d d.
Proof. unfold agree; repeat split. Qed.

Lemma agree_trans d1 d2 d3 : agree d1 d2 -> agree d2 d3 -> agree d1 d3.
Proof. unfold agree; intuition congruence. Qed.

Lemma agree_set_spi d b : agree d (set_spi b d).
Proof. unfold agree; repeat split. Qed.

Lemma agree_set_lock d l : agree d (set_lock l d).
Proof. unfold agree; repeat split. Qed.

Lemma unlock_after_exchange d b :
  lock d = Some Unlocked ->
  set_lock (Some Unlocked) (set_spi b (set_lock (Some Locked) d)) = set_spi b d.
Proof. destruct d; cbn; intros ->; reflexivity. Qed.

Lemma xfer2_agree frame d : agree d (snd (xfer2 frame d)).
Proof.
  unfold xfer2. destruct (spi_xfer2 frame (_spi d)) as [[resp|code] b];
    apply agree_set_spi.
Qed.

Lemma _setSpiMode_run mode d :
  _setSpiMode mode d =
    if spi_mode (_spi d) =? mode then (Ok tt, d)
    else
      match spi_xfer2 [0] (spi_set_mode mode (_spi d)) with
      | (Bytes _, b) => (Ok tt, set_spi b d)
      | (Fault code, b) => (Raise (TransportError code), set_spi b d)
      end.
Proof.
  unfold _setSpiMode, xfer2; run.
  destruct (spi_mode (_spi d) =? mode); cbn; [reflexivity|].
  destruct (spi_xfer2 [0] (spi_set_mode mode (_spi d))) as [[resp|code] b];
    reflexivity.
Qed.

(** The body of a register transaction, lock and guard aside. *)
Lemma exchange_run mode frame d :
  (_setSpiMode mode ;; xfer2 frame) d =
    match transact mode frame (_spi d) with
    | (Bytes resp, b) => (Ok resp, set_spi b d)
    | (Fault code, b) => (Raise (TransportError code), set_spi b d)
    end.
Proof.
  unfold bind at 1. rewrite _setSpiMode_run. unfold transact, xfer2.
  destruct (spi_mode (_spi d) =? mode).
  - destruct (spi_xfer2 frame (_spi d)) as [[resp|code] b]; reflexivity.
  - destruct (spi_xfer2 [0] (spi_set_mode mode (_spi d)))
      as [[resp0|code0] b0]; [|reflexivity].
    cbn. destruct (spi_xfer2 frame b0) as [[resp|code] b]; reflexivity.
Qed.

Lemma write_body_run register value d :
  (id <- gets device_id ;;
   let command := Z.lor MCP23S17_CMD_WRITE (Z.shiftl id 1) in
   mode <- get_spimode ;;
   _setSpiMode mode ;;
   _ <- xfer2 [command; register; value] ;;
   ret tt) d =
    match _spimode d with
    | None => (Raise AttributeError, d)
    | Some sm =>
        match transact sm [write_command d; register; value] (_spi d) with
        | (Bytes _, b) => (Ok tt, set_spi b d)
        | (Fault code, b) => (Raise (TransportError code), set_spi b d)
        end
    end.
Proof.
  unfold bind at 1, gets at 1. cbv beta iota zeta.
  unfold bind at 1, get_spimode at 1.
  destruct (_spimode d) as [sm|]; [|reflexivity]. cbv beta iota.
  pose proof (exchange_run sm [write_command d; register; value] d) as E.
  unfold bind in E. unfold write_command in *. run.
  destruct (_setSpiMode sm d) as [[[]|e|] d1].
  - destruct (xfer2 _ d1) as [[resp|e|] d2];
      destruct (transact _ _ _) as [[resp'|code'] b']; inversion E; subst;
      reflexivity.
  - destruct (transact _ _ _) as [[resp'|code'] b']; inversion E; subst.
    reflexivity.
  - destruct (transact _ _ _) as [[resp'|code'] b']; inversion E.
Qed.

Lemma read_body_run register d :
  (id <- gets device_id ;;
   let command := Z.lor MCP23S17_CMD_READ (Z.shiftl id 1) in
   mode <- get_spimode ;;
   _setSpiMode mode ;;
   data <- xfer2 [command; register; 0] ;;
   match nth_error data 2 with
   | Some v => ret v
   | None => raise IndexError
   end) d =
    match _spimode d with
    | None => (Raise AttributeError, d)
    | Some sm =>
        match transact sm [read_command d; register; 0] (_spi d) with
        | (Bytes resp, b) =>
            match nth_error resp 2 with
            | Some v => (Ok v, set_spi b d)
            | None => (Raise IndexError, set_spi b d)
            end
        | (Fault code, b) => (Raise (TransportError code), set_spi b d)
        end
    end.
Proof.
  unfold bind at 1, gets at 1. cbv beta iota zeta.
  unfold bind at 1, get_spimode at 1.
  destruct (_spimode d) as [sm|]; [|reflexivity]. cbv beta iota.
  pose proof (exchange_run sm [read_command d; register; 0] d) as E.
  unfold bind in E. unfold read_command in *. run.
  destruct (_setSpiMode sm d) as [[[]|e|] d1].
  - destruct (xfer2 _ d1) as [[resp|e|] d2];
      destruct (transact _ _ _) as [[resp'|code'] b']; inversion E; subst;
      try reflexivity.
    destruct (nth_error resp' 2); reflexivity.
  - destruct (transact _ _ _) as [[resp'|code'] b']; inversion E; subst.
    reflexivity.
  - destruct (transact _ _ _) as [[resp'|code'] b']; inversion E.
Qed.

Lemma _writeRegister_run {sm} register value d :
  isInitialized d = true -> lock d = Some Unlocked ->
  _spimode d = Some sm ->
  _writeRegister register value d =
    match transact sm [write_command d; register; value] (_spi d) with
    | (Bytes _, b) => (Ok tt, set_spi b d)
    | (Fault code, b) => (Raise (TransportError code), set_spi b d)
    end.
Proof.
  intros Hi Hl Hm. unfold _writeRegister, locked.
  unfold bind at 1, gets at 1. rewrite Hi. cbv beta iota delta [negb].
  unfold bind at 1, with_lock. rewrite Hl, write_body_run.
  change (_spimode (set_lock (Some Locked) d)) with (_spimode d).
  change (write_command (set_lock (Some Locked) d)) with (write_command d).
  change (_spi (set_lock (Some Locked) d)) with (_spi d).
  rewrite Hm.
  destruct (transact _ _ _) as [[resp|code] b];
    rewrite unlock_after_exchange by assumption; reflexivity.
Qed.

Lemma _readRegister_run {sm} register d :
  isInitialized d = true -> lock d = Some Unlocked ->
  _spimode d = Some sm ->
  _readRegister register d =
    match transact sm [read_command d; register; 0] (_spi d) with
    | (Bytes resp, b) =>
        match nth_error resp 2 with
        | Some v => (Ok v, set_spi b d)
        | None => (Raise IndexError, set_spi b d)
        end
    | (Fault code, b) => (Raise (TransportError code), set_spi b d)
    end.
Proof.
  intros Hi Hl Hm. unfold _readRegister, locked.
  unfold bind at 1, gets at 1. rewrite Hi. cbv beta iota delta [negb].
  unfold bind at 1, with_lock. rewrite Hl, read_body_run.
  change (_spimode (set_lock (Some Locked) d)) with (_spimode d).
  change (read_command (set_lock (Some Locked) d)) with (read_command d).
  change (_spi (set_lock (Some Locked) d)) with (_spi d).
  rewrite Hm.
  destruct (transact _ _ _) as [[resp|code] b];
    [destruct (nth_error resp 2)|];
    rewrite unlock_after_exchange by assumption; reflexivity.
Qed.

Lemma unlock_after_raise d :
  lock d = Some Unlocked ->
  set_lock (Some Unlocked) (set_lock (Some Locked) d) = d.
Proof. destruct d; cbn; intros ->; reflexivity. Qed.

(** [_spimode] never assigned: the attribute is read inside the [with]
    block, [AttributeError] is raised there, the lock is released and the
    bus has not been used. *)
Lemma _writeRegister_unassigned register value d :
  isInitialized d = true -> lock d = Some Unlocked -> _spimode d = None ->
  _writeRegister register value d = (Raise AttributeError, d).
Proof.
  intros Hi Hl Hm. unfold _writeRegister, locked.
  unfold bind at 1, gets at 1. rewrite Hi. cbv beta iota delta [negb].
  unfold bind at 1, with_lock. rewrite Hl, write_body_run.
  change (_spimode (set_lock (Some Locked) d)) with (_spimode d).
  rewrite Hm, unlock_after_raise by assumption. reflexivity.
Qed.

Lemma _readRegister_unassigned register d :
  isInitialized d = true -> lock d = Some Unlocked -> _spimode d = None ->
  _readRegister register d = (Raise AttributeError, d).
Proof.
  intros Hi Hl Hm. unfold _readRegister, locked.
  unfold bind at 1, gets at 1. rewrite Hi. cbv beta iota delta [negb].
  unfold bind at 1, with_lock. rewrite Hl, read_body_run.
  change (_spimode (set_lock (Some Locked) d)) with (_spimode d).
  rewrite Hm, unlock_after_raise by assumption. reflexivity.
Qed.



End Transactions.

Section Outcomes.
Import MCP23S17.
Context {B : Type} `{SpiDev B}.
Implicit Types d : handle B.

Lemma transact_reliable mode frame (b : B) :
  Reliable ->
  exists resp b',
    transact mode frame b = (Bytes resp, b') /\ length resp = length frame.
Proof.
  intros HR. unfold transact. destruct (spi_mode b =? mode).
  - apply HR.
  - destruct (HR [0] (spi_set_mode mode b)) as (resp0 & b0 & E0 & _).
    rewrite E0. apply HR.
Qed.

Lemma _writeRegister_ok {sm} register value d :
  Reliable -> ready sm d ->
  exists b', _writeRegister register value d = (Ok tt, set_spi b' d).
Proof.
  intros HR (Hi & Hl & Hm).
  rewrite (_writeRegister_run register value d Hi Hl Hm).
  destruct (transact_reliable sm
              [write_command d; register; value] (_spi d) HR)
    as (resp & b' & E & _).
  rewrite E. exists b'. reflexivity.
Qed.

Lemma _readRegister_ok {sm} register d :
  Reliable -> ready sm d ->
  exists v b', _readRegister register d = (Ok v, set_spi b' d).
Proof.
  intros HR (Hi & Hl & Hm).
  rewrite (_readRegister_run register d Hi Hl Hm).
  destruct (transact_reliable sm
              [read_command d; register; 0] (_spi d) HR)
    as (resp & b' & E & Hlen).
  rewrite E. destruct resp as [|x [|y [|v rest]]]; try discriminate.
  exists v, b'. reflexivity.
Qed.

Lemma ready_set_spi {sm} d b : ready sm d -> ready sm (set_spi b d).
Proof. intros H0; exact H0. Qed.

Lemma ready_store {sm} f k v d : ready sm d -> ready sm (store f k v d).
Proof. intros H0; destruct f, k; exact H0. Qed.

(** A register transaction acts on the bus and on the lock only, whatever
    its outcome. *)
Lemma with_lock_agree {A} (body : M (handle B) A) d :
  (forall d0, agree d0 (snd (body d0))) ->
  agree d (snd (with_lock body d)).
Proof.
  intros Hb. unfold with_lock. destruct (lock d) as [[|]|].
  - pose proof (Hb (set_lock (Some Locked) d)) as Hagree.
    destruct (body (set_lock (Some Locked) d)) as [[a|e|] d']; cbn in *;
      repeat (eapply agree_trans; [|apply agree_set_lock]);
      try (eapply agree_trans; [apply agree_set_lock | exact Hagree]).
  - apply agree_refl.
  - apply agree_refl.
Qed.

Lemma _writeRegister_agree register value d :
  agree d (snd (_writeRegister register value d)).
Proof.
  unfold _writeRegister, locked. unfold bind at 1, gets at 1.
  destruct (isInitialized d); cbv beta iota delta [negb];
    [|apply agree_refl].
  unfold bind at 1.
  match goal with
  | |- context [with_lock ?body d] =>
      assert (Hw : agree d (snd (with_lock body d)))
  end.
  { apply with_lock_agree. intros d0. rewrite write_body_run.
    destruct (_spimode d0); [|apply agree_refl].
    destruct (transact _ _ _) as [[resp|code] b]; apply agree_set_spi. }
  destruct (with_lock _ d) as [[a|e|] d']; exact Hw.
Qed.

Lemma _readRegister_agree register d :
  agree d (snd (_readRegister register d)).
Proof.
  unfold _readRegister, locked. unfold bind at 1, gets at 1.
  destruct (isInitialized d); cbv beta iota delta [negb];
    [|apply agree_refl].
  unfold bind at 1.
  match goal with
  | |- context [with_lock ?body d] =>
      assert (Hw : agree d (snd (with_lock body d)))
  end.
  { apply with_lock_agree. intros d0. rewrite read_body_run.
    destruct (_spimode d0); [|apply agree_refl].
    destruct (transact _ _ _) as [[resp|code] b];
      [destruct (nth_error resp 2)|]; apply agree_set_spi. }
  destruct (with_lock _ d) as [[a|e|] d']; exact Hw.
Qed.

End Outcomes.

Section Mapping.
Import MCP23S17.
Context {B : Type} `{SpiDev B}.
Context {sm : Z}.
Implicit Types d : handle B.

Lemma offset_nonneg pin : 0 <= pin -> 0 <= offset pin.
Proof.
  intros Hp. unfold offset. destruct (pin <? 8); [assumption|].
  apply Z.land_nonneg; left; assumption.
Qed.

Lemma lshift_run (a n : Z) d :
  0 <= n -> lshift a n d = (Ok (Z.shiftl a n), d).
Proof.
  intros Hn. unfold lshift.
  destruct (Z.ltb_spec n 0); [lia | reflexivity].
Qed.

Lemma mode_test (m : Z) :
  m = 0 \/ m = 1 -> ((m =? 0) || (m =? 1))%bool = true.
Proof. intros [-> | ->]; reflexivity. Qed.

Lemma mode_test' (m : Z) :
  m = 0 \/ m = 1 -> ((m =? 1) || (m =? 0))%bool = true.
Proof. intros [-> | ->]; reflexivity. Qed.

Lemma mutator_is_mapped (f : Family) (pin mode : Z) d :
  isInitialized d = true ->
  0 <= pin <= 15 ->
  mode = 0 \/ mode = 1 ->
  mutator f pin mode d = mapped_mutator f pin mode d.
Proof.
  intros Hi Hp Hm.
  assert (Hlt : (pin <? 16) = true) by (apply Z.ltb_lt; lia).
  pose proof (offset_nonneg pin (proj1 Hp)) as Hoff.
  unfold bank, offset in *.
  destruct f; unfold mutator, mapped_mutator, bank, offset,
    setDirection, setPullupMode, digitalWrite, setting,
    DIR_INPUT, DIR_OUTPUT, PULLUP_ENABLED, PULLUP_DISABLED,
    LEVEL_HIGH, LEVEL_LOW;
    repeat (run; rewrite ?Hi, ?Hlt, ?(mode_test mode Hm),
              ?(mode_test' mode Hm));
    destruct (pin <? 8); run; rewrite (lshift_run 1 _ _ Hoff);
    unfold with_bit, register, store, cached;
    destruct (mode =? _); reflexivity.
Qed.

(** C1. For a pin in 0..7 the three bit-level mutators act on bank A with
    the pin as the bit offset, for a pin in 8..15 on bank B with offset
    [pin & 0x07]; and on an initialized handle each of [setDirection],
    [setPullupMode] and [digitalWrite] is the one mutator of its family
    built on that mapping: it writes the bank's register of the family with
    the cached byte changed at that offset, then stores the byte. *)
Theorem bit_mutators_share_the_mapping :
  forall (f : Family) (pin mode : Z) d,
    isInitialized d = true ->
    0 <= pin <= 15 ->
    mode = 0 \/ mode = 1 ->
    (0 <= pin <= 7 -> bank pin = BankA /\ offset pin = pin) /\
    (8 <= pin <= 15 -> bank pin = BankB /\ offset pin = Z.land pin 0x07) /\
    mutator f pin mode d = mapped_mutator f pin mode d.
Proof.
  intros f pin mode d Hi Hp Hm.
  split; [|split].
  - intros Hq. unfold bank, offset.
    destruct (Z.ltb_spec pin 8); [split; reflexivity | lia].
  - intros Hq. unfold bank, offset.
    destruct (Z.ltb_spec pin 8); [lia | split; reflexivity].
  - apply mutator_is_mapped; assumption.
Qed.

(** Whatever the arguments and the state, a bit-level mutator changes the
    handle by a register transaction and, when it returns, by the
    assignment of the cached byte of the pin's bank. *)
Lemma mutator_cases f pin mode d :
  exists d0, agree d d0 /\
    ((fst (mutator f pin mode d) = Ok tt /\
      exists v, snd (mutator f pin mode d) = store f (bank pin) v d0)
     \/ (fst (mutator f pin mode d) <> Ok tt /\
         snd (mutator f pin mode d) = d0)).
Proof.
  destruct f;
    unfold mutator, setDirection, setPullupMode, digitalWrite, lshift, bank;
    repeat (run; match goal with
      | |- context [if ?c then _ else _] => destruct c eqn:?
      end);
    run;
    try (exists d; split;
         [apply agree_refl | right; split; [discriminate | reflexivity]]);
    match goal with
    | |- context [_writeRegister ?r ?v d] =>
        pose proof (_writeRegister_agree r v d) as Ha;
        destruct (_writeRegister r v d) as [[[]|e|] d']
    end;
    cbn [fst snd] in *; exists d'; (split; [exact Ha|]);
    solve [ left; split; [reflexivity | eexists; reflexivity]
          | right; split; [discriminate | reflexivity] ].
Qed.

Lemma agree_store_flag f k v d d0 :
  agree d d0 -> isInitialized (store f k v d0) = isInitialized d.
Proof. intros Ha. destruct f, k; apply Ha. Qed.

Lemma mutator_flag f pin mode d :
  isInitialized (snd (mutator f pin mode d)) = isInitialized d.
Proof.
  destruct (mutator_cases f pin mode d) as (d0 & Ha & [[_ [v E]] | [_ E]]);
    rewrite E; [apply agree_store_flag; exact Ha | apply Ha].
Qed.

(** A bit-level mutator that does not return has not changed the cache. *)
Lemma mutator_failure_keeps_cache f pin mode d :
  fst (mutator f pin mode d) <> Ok tt ->
  agree d (snd (mutator f pin mode d)).
Proof.
  intros Hf.
  destruct (mutator_cases f pin mode d) as (d0 & Ha & [[E _] | [_ E]]);
    [contradiction | rewrite E; exact Ha].
Qed.

Lemma mutator_ok f pin mode d :
  Reliable -> ready sm d -> 0 <= pin <= 15 -> mode = 0 \/ mode = 1 ->
  exists b',
    mutator f pin mode d =
      (Ok tt,
       store f (bank pin)
         (with_bit (mode =? setting f) (cached f (bank pin) d) (offset pin))
         (set_spi b' d)).
Proof.
  intros HR Hr Hp Hm.
  rewrite mutator_is_mapped by (assumption || apply Hr).
  unfold mapped_mutator; run.
  destruct (_writeRegister_ok (register f (bank pin))
              (with_bit (mode =? setting f) (cached f (bank pin) d)
                 (offset pin)) d HR Hr) as (b' & E).
  rewrite E. exists b'. reflexivity.
Qed.

End Mapping.

Section BringUp.
Import MCP23S17.
Context {B : Type} `{SpiDev B}.
Context {sm : Z}.
Implicit Types d : handle B.

Lemma _setupGPIO_run d :
  _setupGPIO d =
    (Ok tt,
     set_int_pins (setup_int_pins [65; 66] (int_pins d) (int_level d))
       (set_reset_pin
          (option_map (fun p => Pin_set_value true (Pin_set_output p))
             (reset_pin d)) d)).
Proof. reflexivity. Qed.

(** One turn of the loop of [open]. *)
Lemma bring_up_pin index d :
  Reliable -> ready sm d -> 0 <= index <= 15 ->
  exists d',
    (setDirection index DIR_INPUT ;; setPullupMode index PULLUP_ENABLED) d
      = (Ok tt, d') /\
    ready sm d' /\
    forall k,
      cached Direction k d' =
        (if Bank_eqb (bank index) k
         then Z.lor (cached Direction k d) (Z.shiftl 1 (offset index))
         else cached Direction k d) /\
      cached Pullup k d' =
        (if Bank_eqb (bank index) k
         then Z.lor (cached Pullup k d) (Z.shiftl 1 (offset index))
         else cached Pullup k d) /\
      cached Data k d' = cached Data k d.
Proof.
  intros HR Hr Hp.
  destruct (mutator_ok Direction index DIR_INPUT d HR Hr Hp) as (b1 & E1);
    [left; reflexivity|].
  cbn [mutator] in E1. unfold bind. rewrite E1.
  match type of E1 with _ = (_, ?s) => set (d1 := s) in * end.
  assert (Hr1 : ready sm d1) by (apply ready_store, ready_set_spi, Hr).
  destruct (mutator_ok Pullup index PULLUP_ENABLED d1 HR Hr1 Hp)
    as (b2 & E2); [left; reflexivity|].
  cbn [mutator] in E2. rewrite E2.
  eexists; split; [reflexivity|]. split.
  - apply ready_store, ready_set_spi, Hr1.
  - subst d1. intros k. destruct (bank index), k; cbn; repeat split.
Qed.

Lemma mask_cons pin pins k :
  mask (pin :: pins) k =
    if Bank_eqb (bank pin) k
    then Z.lor (Z.shiftl 1 (offset pin)) (mask pins k)
    else mask pins k.
Proof. reflexivity. Qed.

Lemma bring_up_pins pins :
  Reliable ->
  (forall pin, In pin pins -> 0 <= pin <= 15) ->
  forall d, ready sm d ->
  exists d',
    for_each pins (fun index =>
      setDirection index DIR_INPUT ;; setPullupMode index PULLUP_ENABLED) d
      = (Ok tt, d') /\
    ready sm d' /\
    forall k,
      cached Direction k d' = Z.lor (cached Direction k d) (mask pins k) /\
      cached Pullup k d' = Z.lor (cached Pullup k d) (mask pins k) /\
      cached Data k d' = cached Data k d.
Proof.
  intros HR. induction pins as [|pin pins IH]; intros Hin d Hr.
  - exists d. split; [reflexivity|]. split; [exact Hr|].
    intros k. cbn [mask fold_right]. rewrite !Z.lor_0_r. repeat split.
  - destruct (bring_up_pin pin d HR Hr) as (d1 & E1 & Hr1 & Hc1).
    { apply Hin; left; reflexivity. }
    destruct (IH (fun q Hq => Hin q (or_intror Hq)) d1 Hr1)
      as (d' & E & Hr' & Hc).
    exists d'. split.
    + cbn [for_each]. unfold bind at 1. rewrite E1. exact E.
    + split; [exact Hr'|]. intros k.
      destruct (Hc k) as (Hd & Hu & Hg), (Hc1 k) as (Hd1 & Hu1 & Hg1).
      rewrite Hd, Hu, Hg, Hd1, Hu1, Hg1, mask_cons.
      destruct (Bank_eqb (bank pin) k); rewrite ?Z.lor_assoc;
        repeat split.
Qed.

Lemma range_0_15_pins pin : In pin (range 0 15) -> 0 <= pin <= 15.
Proof.
  cbv [range seq map Z.to_nat Z.sub Z.opp Z.add Pos.to_nat Pos.iter_op
       Nat.add Z.of_nat Pos.of_succ_nat Pos.succ In].
  intuition lia.
Qed.

(** [open] on a handle whose lock is free and whose [_spimode] has been
    assigned, over a reliable transport. *)
Lemma open_ok d :
  Reliable -> lock d = Some Unlocked -> _spimode d = Some sm ->
  exists d',
    open d = (Ok tt, d') /\ ready sm d' /\
    forall k,
      cached Direction k d' =
        Z.lor (cached Direction k d) (mask (range 0 15) k) /\
      cached Pullup k d' = Z.lor (cached Pullup k d) (mask (range 0 15) k) /\
      cached Data k d' = cached Data k d.
Proof.
  intros HR Hl Hsm. unfold open, _setupGPIO. run.
  match goal with
  | |- context [_writeRegister _ _ ?s] => set (d0 := s)
  end.
  assert (Hr0 : ready sm d0)
    by (split; [reflexivity | split; [exact Hl | exact Hsm]]).
  destruct (_writeRegister_ok MCP23S17_IOCON IOCON_INIT d0 HR Hr0)
    as (b0 & E0).
  rewrite E0.
  destruct (bring_up_pins (range 0 15) HR range_0_15_pins (set_spi b0 d0))
    as (d' & E & Hr' & Hc); [apply ready_set_spi, Hr0|].
  exists d'. split; [exact E|]. split; [exact Hr'|].
  intros k. destruct (Hc k) as (Hd & Hu & Hg). rewrite Hd, Hu, Hg.
  destruct k; repeat split.
Qed.

Lemma testbit_255 i : 0 <= i <= 7 -> Z.testbit 255 i = true.
Proof.
  intros Hi. change 255 with (Z.ones 8). apply Z.ones_spec_low. lia.
Qed.

Lemma testbit_127 i : 0 <= i <= 6 -> Z.testbit 127 i = true.
Proof.
  intros Hi. change 127 with (Z.ones 7). apply Z.ones_spec_low. lia.
Qed.

(** X26. Once [_spimode] has been assigned, over a reliable transport and
    with the lock free, [open] returns, sets the direction bit (input) and
    the pull-up bit (enabled) of every pin from 0 to 14 and leaves those
    of pin 15 as they were: bank A's direction and pull-up bytes get all
    their bits set, bank B's get bits 0 to 6 set and keep bit 7. *)
Theorem open_initializes_pins_0_to_14 :
  forall d,
    Reliable -> lock d = Some Unlocked -> _spimode d = Some sm ->
    exists d',
      open d = (Ok tt, d') /\
      _IODIRA d' = Z.lor (_IODIRA d) 0xFF /\
      _IODIRB d' = Z.lor (_IODIRB d) 0x7F /\
      _GPPUA d' = Z.lor (_GPPUA d) 0xFF /\
      _GPPUB d' = Z.lor (_GPPUB d) 0x7F /\
      (forall pin, 0 <= pin <= 14 ->
         Z.testbit (cached Direction (bank pin) d') (offset pin) = true /\
         Z.testbit (cached Pullup (bank pin) d') (offset pin) = true) /\
      Z.testbit (cached Direction (bank 15) d') (offset 15) =
        Z.testbit (cached Direction (bank 15) d) (offset 15) /\
      Z.testbit (cached Pullup (bank 15) d') (offset 15) =
        Z.testbit (cached Pullup (bank 15) d) (offset 15).
Proof.
  intros d HR Hl Hsm.
  destruct (open_ok d HR Hl Hsm) as (d' & E & _ & Hc).
  destruct (Hc BankA) as (HdA & HuA & _), (Hc BankB) as (HdB & HuB & _).
  change (mask (range 0 15) BankA) with 255 in *.
  change (mask (range 0 15) BankB) with 127 in *.
  cbn [cached] in *.
  exists d'. repeat split; try assumption.
  - unfold bank, offset. destruct (Z.ltb_spec pin 8); cbn [cached].
    + rewrite HdA, Z.lor_spec, testbit_255 by lia. apply orb_true_r.
    + assert (Hq : Z.land pin 7 = pin - 8).
      { change 7 with (Z.ones 3). rewrite Z.land_ones by lia.
        change (2 ^ 3) with 8.
        rewrite <- (Z.mod_unique pin 8 1 (pin - 8)); [reflexivity|lia|lia]. }
      rewrite HdB, Z.lor_spec, Hq, testbit_127 by lia. apply orb_true_r.
  - unfold bank, offset. destruct (Z.ltb_spec pin 8); cbn [cached].
    + rewrite HuA, Z.lor_spec, testbit_255 by lia. apply orb_true_r.
    + assert (Hq : Z.land pin 7 = pin - 8).
      { change 7 with (Z.ones 3). rewrite Z.land_ones by lia.
        change (2 ^ 3) with 8.
        rewrite <- (Z.mod_unique pin 8 1 (pin - 8)); [reflexivity|lia|lia]. }
      rewrite HuB, Z.lor_spec, Hq, testbit_127 by lia. apply orb_true_r.
  - change (bank 15) with BankB. change (offset 15) with 7. cbn [cached].
    rewrite HdB, Z.lor_spec. apply orb_false_r.
  - change (bank 15) with BankB. change (offset 15) with 7. cbn [cached].
    rewrite HuB, Z.lor_spec. apply orb_false_r.
Qed.

End BringUp.

Section Lifecycle.
Import MCP23S17.
Context {B : Type} `{SpiDev B}.
Context {sm : Z}.
Implicit Types d : handle B.

Lemma close_run d :
  close d =
    (Ok tt, set_isInitialized false (set_spi (spi_close (_spi d)) d)).
Proof. reflexivity. Qed.


Lemma _writeRegisterWord_ok register data d :
  Reliable -> ready sm d ->
  exists b', _writeRegisterWord register data d = (Ok tt, set_spi b' d).
Proof.
  intros HR Hr. unfold _writeRegisterWord. run. rewrite (proj1 Hr).
  destruct (_writeRegister_ok register (Z.land data 255) d HR Hr)
    as (b1 & E1).
  rewrite E1.
  destruct (_writeRegister_ok (register + 1) (Z.shiftr data 8)
              (set_spi b1 d) HR (ready_set_spi d b1 Hr)) as (b2 & E2).
  rewrite E2. exists b2. reflexivity.
Qed.

Lemma _readRegisterWord_ok register d :
  Reliable -> ready sm d ->
  exists v b', _readRegisterWord register d = (Ok v, set_spi b' d).
Proof.
  intros HR Hr. unfold _readRegisterWord. run. rewrite (proj1 Hr).
  destruct (_readRegister_ok register d HR Hr) as (v1 & b1 & E1).
  rewrite E1.
  destruct (_readRegister_ok (register + 1) (set_spi b1 d) HR
              (ready_set_spi d b1 Hr)) as (v2 & b2 & E2).
  rewrite E2. eexists; exists b2. reflexivity.
Qed.

(** On a ready handle over a reliable transport every operation with
    well-formed arguments returns, and leaves the handle ready. *)
Lemma perform_ok (o : operation) d :
  Reliable -> ready sm d -> well_formed o ->
  exists r d', perform o d = (Ok r, d') /\ ready sm d'.
Proof.
  intros HR Hr Hwf. destruct o; cbn [perform well_formed] in *.
  - destruct Hwf as [Hp Hm].
    destruct (mutator_ok Direction pin direction d HR Hr Hp Hm) as (b' & E).
    cbn [mutator] in E. unfold bind. rewrite E.
    eexists; eexists; split; [reflexivity|].
    apply ready_store, ready_set_spi, Hr.
  - destruct Hwf as [Hp Hm].
    destruct (mutator_ok Pullup pin mode d HR Hr Hp Hm) as (b' & E).
    cbn [mutator] in E. unfold bind. rewrite E.
    eexists; eexists; split; [reflexivity|].
    apply ready_store, ready_set_spi, Hr.
  - assert (Hlt : (pin <? 16) = true) by (apply Z.ltb_lt; lia).
    unfold digitalRead. run. rewrite (proj1 Hr), Hlt.
    destruct (pin <? 8).
    + destruct (_readRegister_ok MCP23S17_GPIOA d HR Hr) as (v & b' & E).
      rewrite E; run. rewrite lshift_run by lia.
      destruct (_ =? 0); eexists; eexists; (split; [reflexivity | exact Hr]).
    + destruct (_readRegister_ok MCP23S17_GPIOB d HR Hr) as (v & b' & E).
      rewrite E; run. rewrite lshift_run by (apply Z.land_nonneg; right; lia).
      destruct (_ =? 0); eexists; eexists; (split; [reflexivity | exact Hr]).
  - destruct Hwf as [Hp Hm].
    destruct (mutator_ok Data pin level d HR Hr Hp Hm) as (b' & E).
    cbn [mutator] in E. unfold bind. rewrite E.
    eexists; eexists; split; [reflexivity|].
    apply ready_store, ready_set_spi, Hr.
  - unfold writeGPIO. run. rewrite (proj1 Hr).
    match goal with
    | |- context [_writeRegisterWord ?r ?x ?s] =>
        destruct (_writeRegisterWord_ok r x s HR Hr) as (b' & E)
    end.
    rewrite E. eexists; eexists; split; [reflexivity | exact Hr].
  - unfold readGPIO. run. rewrite (proj1 Hr).
    destruct (_readRegisterWord_ok MCP23S17_GPIOA d HR Hr) as (v & b' & E).
    rewrite E. eexists; eexists; split; [reflexivity | exact Hr].
  - destruct (_readRegisterWord_ok register0 d HR Hr) as (v & b' & E).
    unfold bind. rewrite E.
    eexists; eexists; split; [reflexivity | exact Hr].
  - destruct (_writeRegisterWord_ok register0 data d HR Hr) as (b' & E).
    unfold bind. rewrite E.
    eexists; eexists; split; [reflexivity | exact Hr].
  - destruct (_readRegister_ok register0 d HR Hr) as (v & b' & E).
    unfold bind. rewrite E.
    eexists; eexists; split; [reflexivity | exact Hr].
  - destruct (_writeRegister_ok register0 value d HR Hr) as (b' & E).
    unfold bind. rewrite E.
    eexists; eexists; split; [reflexivity | exact Hr].
Qed.

End Lifecycle.

(** ** Past the guards *)

Section Guards.
Import MCP23S17.
Context {B : Type} `{SpiDev B}.
Implicit Types d : handle B.

Lemma gp_ret e0 {A} (a : A) : gets_past e0 (ret a : M (handle B) A).
Proof. intros d Hi. split; [exact Hi | discriminate]. Qed.

Lemma gp_raise e0 {A} e :
  e <> e0 -> gets_past e0 (raise e : M (handle B) A).
Proof. intros Hne d Hi. split; [exact Hi | cbn; congruence]. Qed.

Lemma gp_gets e0 {A} (f : handle B -> A) : gets_past e0 (gets f).
Proof. intros d Hi. split; [exact Hi | discriminate]. Qed.

Lemma gp_modify e0 (f : handle B -> handle B) :
  (forall d, isInitialized (f d) = isInitialized d) ->
  gets_past e0 (modify f).
Proof. intros Hf d Hi. split; [cbn; rewrite Hf; exact Hi | discriminate]. Qed.

Lemma gp_assert e0 (c : bool) :
  c = true \/ e0 <> AssertionError ->
  gets_past e0 (assert c : M (handle B) unit).
Proof.
  intros Hc d Hi. destruct c; cbn.
  - split; [exact Hi | discriminate].
  - split; [exact Hi|]. destruct Hc as [Hc | Hc]; congruence.
Qed.

Lemma gp_bind e0 {A C} (m : M (handle B) A) (k : A -> M (handle B) C) :
  gets_past e0 m -> (forall a, gets_past e0 (k a)) ->
  gets_past e0 (bind m k).
Proof.
  intros Hm Hk d Hi. unfold bind. destruct (Hm d Hi) as [H1 H2].
  destruct (m d) as [[a|e|] d1]; simpl in *.
  - apply Hk, H1.
  - split; [assumption|]. intros E. apply H2. inversion E. reflexivity.
  - split; [assumption | discriminate].
Qed.

(** [assert self.isInitialized] on an initialized handle. *)
Lemma gp_guard e0 {C} (k : bool -> M (handle B) C) :
  gets_past e0 (k true) ->
  gets_past e0 (init <- gets isInitialized ;; k init).
Proof.
  intros Hk d Hi. unfold bind, gets. rewrite Hi. apply Hk, Hi.
Qed.

Lemma gp_lshift e0 (a n : Z) :
  guard_error e0 -> gets_past e0 (lshift a n : M (handle B) Z).
Proof.
  intros He. unfold lshift. destruct (n <? 0).
  - apply gp_raise. destruct He; congruence.
  - apply gp_ret.
Qed.

Lemma gp_for_each e0 (pins : list Z) (body : Z -> M (handle B) unit) :
  (forall pin, gets_past e0 (body pin)) ->
  gets_past e0 (for_each pins body).
Proof.
  intros Hb. induction pins as [|pin pins IH]; cbn [for_each].
  - apply gp_ret.
  - apply gp_bind; [apply Hb | intros _; exact IH].
Qed.

(** On an initialized handle a register transaction ends in one of: its
    result, [TypeError] (no lock), a wait on the lock, [AttributeError]
    ([_spimode] never assigned), what the bus raised, [IndexError] (a short
    response). *)
Lemma locked_outcome {A} (body : M (handle B) A) d :
  isInitialized d = true ->
  (forall d0, agree d0 (snd (body d0))) ->
  (forall d0 e, fst (body d0) = Raise e ->
     e = IndexError \/ e = AttributeError \/
     exists code, e = TransportError code) ->
  agree d (snd (locked body d)) /\
  forall e, fst (locked body d) = Raise e ->
    e = TypeError \/ e = IndexError \/ e = AttributeError \/
    exists code, e = TransportError code.
Proof.
  intros Hi Hagree Hraise.
  assert (E : locked body d = with_lock body d).
  { unfold locked. unfold bind at 1, gets at 1. rewrite Hi.
    cbv beta iota delta [negb]. unfold bind.
    destruct (with_lock body d) as [[a|e|] d']; reflexivity. }
  rewrite E. split; [apply with_lock_agree, Hagree|].
  unfold with_lock. destruct (lock d) as [[|]|]; cbn; intros e He.
  - specialize (Hraise (set_lock (Some Locked) d)).
    destruct (body (set_lock (Some Locked) d)) as [[a|e'|] d']; cbn in *;
      try discriminate.
    inversion He; subst. right. apply Hraise. reflexivity.
  - discriminate.
  - left. congruence.
Qed.

Lemma _writeRegister_outcome register value d :
  isInitialized d = true ->
  agree d (snd (_writeRegister register value d)) /\
  forall e, fst (_writeRegister register value d) = Raise e ->
    e = TypeError \/ e = IndexError \/ e = AttributeError \/
    exists code, e = TransportError code.
Proof.
  intros Hi. unfold _writeRegister. apply locked_outcome; [exact Hi| |];
    intros d0; rewrite write_body_run;
    (destruct (_spimode d0);
     [destruct (transact _ _ _) as [[resp|code] b]|]); cbn;
    try apply agree_set_spi; try apply agree_refl;
    intros e He; inversion He; subst.
  - right. right. exists code. reflexivity.
  - right. left. reflexivity.
Qed.

Lemma _readRegister_outcome register d :
  isInitialized d = true ->
  agree d (snd (_readRegister register d)) /\
  forall e, fst (_readRegister register d) = Raise e ->
    e = TypeError \/ e = IndexError \/ e = AttributeError \/
    exists code, e = TransportError code.
Proof.
  intros Hi. unfold _readRegister. apply locked_outcome; [exact Hi| |];
    intros d0; rewrite read_body_run;
    (destruct (_spimode d0);
     [destruct (transact _ _ _) as [[resp|code] b];
      [destruct (nth_error resp 2)|]|]); cbn;
    try apply agree_set_spi; try apply agree_refl;
    intros e He; inversion He; subst.
  - left. reflexivity.
  - right. right. exists code. reflexivity.
  - right. left. reflexivity.
Qed.

Lemma gp__writeRegister e0 register value :
  guard_error e0 -> gets_past e0 (_writeRegister register value).
Proof.
  intros He d Hi.
  destruct (_writeRegister_outcome register value d Hi) as [Ha Ho].
  split.
  - destruct Ha as (_&_&_&_&_&_&_&_&_&_&_&Hf). rewrite Hf. exact Hi.
  - intros E. destruct (Ho _ E) as [-> | [-> | [-> | [code ->]]]];
      destruct He; discriminate.
Qed.

Lemma gp__readRegister e0 register :
  guard_error e0 -> gets_past e0 (_readRegister register).
Proof.
  intros He d Hi.
  destruct (_readRegister_outcome register d Hi) as [Ha Ho].
  split.
  - destruct Ha as (_&_&_&_&_&_&_&_&_&_&_&Hf). rewrite Hf. exact Hi.
  - intros E. destruct (Ho _ E) as [-> | [-> | [-> | [code ->]]]];
      destruct He; discriminate.
Qed.

End Guards.

Ltac gp_step He :=
  first
    [ apply gp__writeRegister; exact He
    | apply gp__readRegister; exact He
    | apply gp_lshift; exact He
    | apply gp_guard
    | apply gp_ret
    | apply gp_gets
    | apply gp_modify; intros ?; reflexivity
    | apply gp_assert;
      solve [left; reflexivity | left; assumption | right; discriminate]
    | apply gp_raise; discriminate
    | apply gp_bind; [|intros ?]
    | match goal with
      | |- gets_past _ (if ?c then _ else _) => destruct c
      | |- gets_past _ (match ?x with _ => _ end) => destruct x
      end ].

Section PastTheGuards.
Import MCP23S17.
Context {B : Type} `{SpiDev B}.
Implicit Types d : handle B.

Lemma guard_NotInitialized : guard_error NotInitialized.
Proof. left; reflexivity. Qed.

Lemma guard_AssertionError : guard_error AssertionError.
Proof. right; reflexivity. Qed.

(** No operation on an initialized handle raises [NotInitialized], and
    none leaves the handle uninitialized. *)
Lemma perform_never_NotInitialized (o : operation) :
  gets_past NotInitialized (perform (B := B) o).
Proof.
  pose proof guard_NotInitialized as He.
  destruct o; unfold perform, setDirection, setPullupMode, digitalRead,
    digitalWrite, writeGPIO, readGPIO, _readRegisterWord,
    _writeRegisterWord; repeat gp_step He.
Qed.

(** With well-formed arguments no operation on an initialized handle
    fails an assertion. *)
Lemma perform_never_AssertionError (o : operation) :
  well_formed o -> gets_past AssertionError (perform (B := B) o).
Proof.
  pose proof guard_AssertionError as He. intros Hwf.
  destruct o; cbn [well_formed] in Hwf;
    try match type of Hwf with
        | _ /\ (?m = 0 \/ ?m = 1) =>
            pose proof (mode_test _ (proj2 Hwf)) as Hm0;
            pose proof (mode_test' _ (proj2 Hwf)) as Hm1
        end;
    try (assert (Hlt : (pin <? 16) = true) by (apply Z.ltb_lt; lia));
    unfold perform, setDirection, setPullupMode, digitalRead,
      digitalWrite, writeGPIO, readGPIO, _readRegisterWord,
      _writeRegisterWord; repeat gp_step He.
Qed.

Lemma perform_past_its_guard (o : operation) :
  well_formed o -> gets_past (rejection o) (perform (B := B) o).
Proof.
  intros Hwf. destruct o; cbn [rejection];
    solve [ apply perform_never_AssertionError; exact Hwf
          | apply perform_never_NotInitialized ].
Qed.

(** Whatever its outcome, [open] leaves the handle initialized. *)
Lemma open_leaves_initialized d : isInitialized (snd (open d)) = true.
Proof.
  pose proof guard_NotInitialized as He.
  unfold open. unfold bind at 1. rewrite _setupGPIO_run. cbv beta iota.
  unfold bind at 1, modify at 1. cbv beta iota.
  match goal with
  | |- isInitialized (snd (?m ?s)) = true =>
      cut (gets_past NotInitialized m);
        [intros Hgp; apply Hgp; reflexivity|]
  end.
  apply gp_bind; [apply gp__writeRegister; exact He | intros _].
  apply gp_for_each. intros pin.
  unfold setDirection, setPullupMode. repeat gp_step He.
Qed.

End PastTheGuards.

(** ** The transports of the examples *)

Lemma EchoChip_reliable : Reliable (B := EchoChip).
Proof.
  intros frame c. cbn [spi_xfer2 EchoChip_SpiDev]. unfold chip_xfer2.
  destruct frame as [|cmd [|reg [|v [|w rest]]]];
    try (eexists; eexists; split; [reflexivity|]; cbn [length map];
         rewrite ?length_map; reflexivity).
  destruct (Z.testbit cmd 0); eexists; eexists; split; reflexivity.
Qed.

Lemma Recorder_reliable {B} `{SpiDev B} :
  Reliable (B := B) -> Reliable (B := Recorder B).
Proof.
  intros HR frame r. cbn [spi_xfer2 Recorder_SpiDev].
  destruct (HR frame (rec_inner r)) as (resp & b' & E & Hlen).
  rewrite E. eexists; eexists; split; [reflexivity | exact Hlen].
Qed.

Lemma EchoChip_echoes : Echoes (B := EchoChip) chip_regs.
Proof.
  repeat split.
  - intros c. eexists; eexists; split; [reflexivity|]. reflexivity.
  - intros cmd reg v c Hcmd Hv. cbn [spi_xfer2 EchoChip_SpiDev].
    unfold chip_xfer2. rewrite Hcmd.
    eexists; eexists; split; [reflexivity|]. cbn [chip_store chip_regs].
    split.
    + rewrite Z.eqb_refl. reflexivity.
    + intros r Hr. destruct (Z.eqb_spec r reg); [contradiction|reflexivity].
  - intros cmd reg c Hcmd. cbn [spi_xfer2 EchoChip_SpiDev].
    unfold chip_xfer2. rewrite Hcmd.
    eexists; eexists; eexists; split; reflexivity.
Qed.

(** ** The lifecycle *)

Section LifecycleClaims.
Import MCP23S17.
Context {B : Type} `{SpiDev B}.
Implicit Types d : handle B.


(** C9. When [open] fails, at whichever bring-up transaction, the handle
    is left initialized: no later operation raises [NotInitialized], and
    with well-formed arguments none is stopped by its guard. *)
Theorem failed_open_leaves_handle_initialized :
  forall d e d',
    open d = (Raise e, d') ->
    isInitialized d' = true /\
    forall o : operation,
      fst (perform o d') <> Raise NotInitialized /\
      (well_formed o -> fst (perform o d') <> Raise (rejection o)).
Proof.
  intros d e d' E.
  assert (Hi : isInitialized d' = true).
  { pose proof (open_leaves_initialized d) as Ho. rewrite E in Ho.
    exact Ho. }
  split; [exact Hi|]. intros o. split.
  - apply perform_never_NotInitialized, Hi.
  - intros Hwf. apply perform_past_its_guard; assumption.
Qed.

(** C10. [close] checks nothing: in any state it closes the transport and
    returns with the handle uninitialized and the cached bytes as they
    were. *)
Theorem close_checks_nothing :
  forall d, exists d',
    close d = (Ok tt, d') /\
    _spi d' = spi_close (_spi d) /\
    isInitialized d' = false /\
    forall f k, cached f k d' = cached f k d.
Proof.
  intros d. eexists. split; [apply close_run|].
  split; [reflexivity|]. split; [reflexivity|].
  intros f k; destruct f, k; reflexivity.
Qed.

End LifecycleClaims.



Lemma failed_open_witness :
  MCP23S17.open flaky_handle
    = (Raise (TransportError EIO), snd (MCP23S17.open flaky_handle)) /\
  MCP23S17.isInitialized (snd (MCP23S17.open flaky_handle)) = true /\
  forall o : operation,
    fst (perform o (snd (MCP23S17.open flaky_handle)))
      <> Raise NotInitialized /\
    (well_formed o ->
     fst (perform o (snd (MCP23S17.open flaky_handle)))
       <> Raise (rejection o)).
Proof.
  assert (E : MCP23S17.open flaky_handle
              = (Raise (TransportError EIO), snd (MCP23S17.open flaky_handle)))
    by (vm_compute; reflexivity).
  split; [exact E|].
  exact (failed_open_leaves_handle_initialized flaky_handle _ _ E).
Defined.

(** After that failed [open] a pin can be written. *)
Example write_after_failed_open :
  fst (MCP23S17.digitalWrite 3 MCP23S17.LEVEL_HIGH
         (snd (MCP23S17.open flaky_handle))) = Ok tt.
Proof. vm_compute. reflexivity. Qed.

(** ** The port over an echoing transport *)

Section RoundTrip.
Import MCP23S17.
Context {B : Type} `{SpiDev B}.
Context {sm : Z}.
Variable stored : B -> Z -> Z.
Hypothesis echo : Echoes stored.
Implicit Types d : handle B.

Lemma write_command_bit0 d : Z.testbit (write_command d) 0 = false.
Proof.
  unfold write_command. rewrite Z.lor_spec, Z.shiftl_spec_low by lia.
  reflexivity.
Qed.

Lemma read_command_bit0 d : Z.testbit (read_command d) 0 = true.
Proof. unfold read_command. rewrite Z.lor_spec. reflexivity. Qed.

Lemma transact_echo_write mode cmd reg v (b : B) :
  Z.testbit cmd 0 = false -> 0 <= v < 256 ->
  exists resp b',
    transact mode [cmd; reg; v] b = (Bytes resp, b') /\
    stored b' reg = v /\
    forall r, r <> reg -> stored b' r = stored b r.
Proof.
  destruct echo as (Hmode & Hdummy & Hwrite & _). intros Hcmd Hv.
  unfold transact. destruct (spi_mode b =? mode).
  - apply Hwrite; assumption.
  - destruct (Hdummy (spi_set_mode mode b)) as (resp0 & b0 & E0 & Hs0).
    rewrite E0.
    destruct (Hwrite cmd reg v b0 Hcmd Hv) as (resp & b' & E & Hreg & Hrest).
    exists resp, b'. split; [exact E|]. split; [exact Hreg|].
    intros r Hr. rewrite (Hrest r Hr), Hs0. apply Hmode.
Qed.

Lemma transact_echo_read mode cmd reg (b : B) :
  Z.testbit cmd 0 = true ->
  exists x y b',
    transact mode [cmd; reg; 0] b = (Bytes [x; y; stored b reg], b') /\
    forall r, stored b' r = stored b r.
Proof.
  destruct echo as (Hmode & Hdummy & _ & Hread). intros Hcmd.
  unfold transact. destruct (spi_mode b =? mode).
  - apply Hread; assumption.
  - destruct (Hdummy (spi_set_mode mode b)) as (resp0 & b0 & E0 & Hs0).
    rewrite E0.
    destruct (Hread cmd reg b0 Hcmd) as (x & y & b' & E & Hrest).
    assert (Hb0 : forall r, stored b0 r = stored b r)
      by (intros r; rewrite Hs0; apply Hmode).
    exists x, y, b'. rewrite <- Hb0. split; [exact E|].
    intros r. rewrite Hrest. apply Hb0.
Qed.

Lemma _writeRegister_echo reg v d :
  ready sm d -> 0 <= v < 256 ->
  exists b',
    _writeRegister reg v d = (Ok tt, set_spi b' d) /\
    stored b' reg = v /\
    forall r, r <> reg -> stored b' r = stored (_spi d) r.
Proof.
  intros (Hi & Hl & Hm) Hv. rewrite (_writeRegister_run reg v d Hi Hl Hm).
  destruct (transact_echo_write sm (write_command d) reg v (_spi d)
              (write_command_bit0 d) Hv) as (resp & b' & E & Hreg & Hrest).
  rewrite E. exists b'. repeat split; assumption.
Qed.

Lemma _readRegister_echo reg d :
  ready sm d ->
  exists b',
    _readRegister reg d = (Ok (stored (_spi d) reg), set_spi b' d) /\
    forall r, stored b' r = stored (_spi d) r.
Proof.
  intros (Hi & Hl & Hm). rewrite (_readRegister_run reg d Hi Hl Hm).
  destruct (transact_echo_read sm (read_command d) reg (_spi d)
              (read_command_bit0 d)) as (x & y & b' & E & Hrest).
  rewrite E. exists b'. split; [reflexivity | exact Hrest].
Qed.

Lemma low_byte_range x : 0 <= Z.land x 255 < 256.
Proof.
  change 255 with (Z.ones 8). rewrite Z.land_ones by lia.
  apply Z.mod_pos_bound. reflexivity.
Qed.

Lemma high_byte_range x : 0 <= x < 65536 -> 0 <= Z.shiftr x 8 < 256.
Proof.
  intros Hx. rewrite Z.shiftr_div_pow2 by lia. change (2 ^ 8) with 256.
  split.
  - apply Z.div_pos; lia.
  - apply Z.div_lt_upper_bound; lia.
Qed.

Lemma word_recombine x :
  Z.lor (Z.shiftl (Z.shiftr x 8) 8) (Z.land x 255) = x.
Proof.
  apply Z.bits_inj'. intros n Hn.
  rewrite Z.lor_spec, Z.land_spec. change 255 with (Z.ones 8).
  destruct (Z.ltb_spec n 8).
  - rewrite Z.shiftl_spec_low, Z.ones_spec_low by lia.
    cbn. apply andb_true_r.
  - rewrite Z.shiftl_spec, Z.shiftr_spec, Z.ones_spec_high by lia.
    rewrite andb_false_r, orb_false_r. f_equal. lia.
Qed.

(** X25. Once [_spimode] has been assigned: over a transport that echoes,
    on an initialized handle whose lock is free, [writeGPIO x] followed at
    once by [readGPIO] returns [x], for every 16-bit [x], and leaves the
    low byte of [x] cached for bank A and its high byte for bank B. *)
Theorem write_then_read_round_trip :
  forall d x,
    isInitialized d = true ->
    lock d = Some Unlocked ->
    _spimode d = Some sm ->
    0 <= x < 65536 ->
    exists d1 d2,
      writeGPIO x d = (Ok tt, d1) /\
      readGPIO d1 = (Ok x, d2) /\
      _GPIOA d2 = Z.land x 0xFF /\
      _GPIOB d2 = Z.shiftr x 8.
Proof.
  intros d x Hi Hl Hsm Hx.
  set (d0 := set_GPIOB (Z.shiftr x 8) (set_GPIOA (Z.land x 255) d)).
  assert (Hr0 : ready sm d0) by (repeat split; assumption).
  destruct (_writeRegister_echo MCP23S17_GPIOA (Z.land x 255) d0 Hr0
              (low_byte_range x)) as (b1 & E1 & Ha1 & _).
  destruct (_writeRegister_echo MCP23S17_GPIOB (Z.shiftr x 8)
              (set_spi b1 d0) Hr0 (high_byte_range x Hx))
    as (b2 & E2 & Hb2 & Hrest2).
  set (d1 := set_spi b2 (set_spi b1 d0)) in *.
  assert (Hw : writeGPIO x d = (Ok tt, d1)).
  { unfold writeGPIO, _writeRegisterWord. run. rewrite Hi. run.
    fold d0. change (isInitialized d0) with (isInitialized d). rewrite Hi.
    run. rewrite E1. change (MCP23S17_GPIOA + 1) with MCP23S17_GPIOB.
    rewrite E2. reflexivity. }
  assert (Hr1 : ready sm d1) by (repeat split; assumption).
  destruct (_readRegister_echo MCP23S17_GPIOA d1 Hr1) as (b3 & E3 & Hrest3).
  destruct (_readRegister_echo MCP23S17_GPIOB (set_spi b3 d1) Hr1)
    as (b4 & E4 & _).
  change (_spi d1) with b2 in E3, Hrest3.
  change (_spi (set_spi b3 d1)) with b3 in E4.
  change (_spi (set_spi b1 d0)) with b1 in Hrest2.
  rewrite Hrest2, Ha1 in E3 by discriminate.
  rewrite Hrest3, Hb2 in E4.
  exists d1. eexists. split; [exact Hw|].
  unfold readGPIO, _readRegisterWord.
  repeat (run; change (isInitialized d1) with (isInitialized d); rewrite Hi).
  run. rewrite E3. change (MCP23S17_GPIOA + 1) with MCP23S17_GPIOB.
  rewrite E4, word_recombine. repeat split.
Qed.

End RoundTrip.

Lemma write_then_read_witness :
  MCP23S17.isInitialized opened_handle = true /\
  MCP23S17.lock opened_handle = Some Unlocked /\
  MCP23S17._spimode opened_handle = Some 0 /\
  0 <= 0xBEEF < 65536 /\
  exists d1 d2,
    MCP23S17.writeGPIO 0xBEEF opened_handle = (Ok tt, d1) /\
    MCP23S17.readGPIO d1 = (Ok 0xBEEF, d2) /\
    MCP23S17._GPIOA d2 = Z.land 0xBEEF 0xFF /\
    MCP23S17._GPIOB d2 = Z.shiftr 0xBEEF 8.
Proof.
  split; [vm_compute; reflexivity|]. split; [vm_compute; reflexivity|].
  split; [vm_compute; reflexivity|]. split; [lia|].
  apply (write_then_read_round_trip (sm := 0) chip_regs EchoChip_echoes
           opened_handle 0xBEEF).
  - vm_compute; reflexivity.
  - vm_compute; reflexivity.
  - vm_compute; reflexivity.
  - lia.
Defined.

(** ** What the bus is asked *)

Section Recorded.
Import MCP23S17.
Context {B : Type} `{SpiDev B}.
Implicit Types d : handle (Recorder B).

(** The calls of one register transaction. *)
Lemma transact_recorded mode frame (r : Recorder B) :
  calls (snd (transact mode frame r)) =
    calls r ++
      (if spi_mode (rec_inner r) =? mode then [Xfer2 frame]
       else
         SetMode mode :: Xfer2 [0] ::
           match fst (spi_xfer2 [0] (spi_set_mode mode (rec_inner r))) with
           | Bytes _ => [Xfer2 frame]
           | Fault _ => []
           end).
Proof.
  unfold transact. cbn [spi_mode spi_xfer2 spi_set_mode Recorder_SpiDev
                        rec_inner calls].
  destruct (spi_mode (rec_inner r) =? mode).
  - destruct (spi_xfer2 frame (rec_inner r)) as [rep b]. reflexivity.
  - destruct (spi_xfer2 [0] (spi_set_mode mode (rec_inner r)))
      as [[resp0|code0] b0]; cbn [fst snd rec_inner calls].
    + destruct (spi_xfer2 frame b0) as [rep b]. cbn [snd calls].
      rewrite <- !app_assoc. reflexivity.
    + rewrite <- !app_assoc. reflexivity.
Qed.

Lemma _writeRegister_bus {C} `{SpiDev C} sm register value (d : handle C) :
  isInitialized d = true -> lock d = Some Unlocked -> _spimode d = Some sm ->
  _spi (snd (_writeRegister register value d)) =
    snd (transact sm [write_command d; register; value] (_spi d)).
Proof.
  intros Hi Hl Hm. rewrite (_writeRegister_run register value d Hi Hl Hm).
  destruct (transact _ _ _) as [[resp|code] b]; reflexivity.
Qed.

Lemma _readRegister_bus {C} `{SpiDev C} sm register (d : handle C) :
  isInitialized d = true -> lock d = Some Unlocked -> _spimode d = Some sm ->
  _spi (snd (_readRegister register d)) =
    snd (transact sm [read_command d; register; 0] (_spi d)).
Proof.
  intros Hi Hl Hm. rewrite (_readRegister_run register d Hi Hl Hm).
  destruct (transact _ _ _) as [[resp|code] b];
    [destruct (nth_error resp 2)|]; reflexivity.
Qed.

(** X28. Once [_spimode] has been assigned the mode [sm], on an
    initialized handle whose lock is free: each single-byte register
    transaction, [_writeRegister] and [_readRegister] alike, when
    the mode of the bus is not [sm], assigns the mode, exchanges the one
    dummy byte and then, the dummy exchange done, the three-byte frame;
    when the mode is already [sm] it exchanges the frame and nothing
    else. *)
Theorem mode_is_settled_before_each_transaction :
  forall d sm register value,
    isInitialized d = true ->
    lock d = Some Unlocked ->
    _spimode d = Some sm ->
    (spi_mode (_spi d) <> sm ->
     (exists resp b',
        spi_xfer2 [0] (spi_set_mode sm (rec_inner (_spi d)))
          = (Bytes resp, b')) ->
     calls (_spi (snd (_writeRegister register value d))) =
       calls (_spi d) ++
         [SetMode sm; Xfer2 [0];
          Xfer2 [write_command d; register; value]] /\
     calls (_spi (snd (_readRegister register d))) =
       calls (_spi d) ++
         [SetMode sm; Xfer2 [0];
          Xfer2 [read_command d; register; 0]]) /\
    (spi_mode (_spi d) = sm ->
     calls (_spi (snd (_writeRegister register value d))) =
       calls (_spi d) ++ [Xfer2 [write_command d; register; value]] /\
     calls (_spi (snd (_readRegister register d))) =
       calls (_spi d) ++ [Xfer2 [read_command d; register; 0]]).
Proof.
  intros d sm register value Hi Hl Hm.
  rewrite (_writeRegister_bus sm register value d Hi Hl Hm),
          (_readRegister_bus sm register d Hi Hl Hm).
  rewrite !transact_recorded.
  change (spi_mode (_spi d)) with (spi_mode (rec_inner (_spi d))).
  split.
  - intros Hne (resp & b' & E). rewrite E.
    destruct (Z.eqb_spec (spi_mode (rec_inner (_spi d))) sm);
      [contradiction|]. split; reflexivity.
  - intros Heq. rewrite Heq, Z.eqb_refl. split; reflexivity.
Qed.

Lemma testbit_one_hot off i :
  0 <= off -> Z.testbit (Z.shiftl 1 off) i = (i =? off).
Proof.
  intros Hoff. rewrite Z.shiftl_1_l, Z.pow2_bits_eqb by assumption.
  apply Z.eqb_sym.
Qed.

Lemma with_bit_spec (set : bool) byte off i :
  0 <= off -> 0 <= i ->
  Z.testbit (with_bit set byte off) i =
    if i =? off then set else Z.testbit byte i.
Proof.
  intros Hoff Hi. unfold with_bit. destruct set.
  - rewrite Z.lor_spec, testbit_one_hot by assumption.
    destruct (i =? off); [apply orb_true_r | apply orb_false_r].
  - rewrite Z.land_spec, Z.lnot_spec, testbit_one_hot by assumption.
    destruct (i =? off); [apply andb_false_r | apply andb_true_r].
Qed.

(** X27. Once [_spimode] has been assigned, over a reliable transport, on
    an initialized handle whose lock is free: [digitalWrite] on a pin from
    0 to 15 returns and, whatever the cached bytes, the cached byte of the
    pin's bank changes at the pin's offset only, where it becomes 1 for
    [LEVEL_HIGH] and 0 for [LEVEL_LOW]; the byte of the other bank is as
    before; and the byte sent to the bank's data register, in the last
    frame exchanged, is the new cached byte. *)
Theorem digitalWrite_changes_one_bit :
  forall d sm pin level,
    Reliable (B := B) ->
    isInitialized d = true ->
    lock d = Some Unlocked ->
    _spimode d = Some sm ->
    0 <= pin <= 15 ->
    level = LEVEL_HIGH \/ level = LEVEL_LOW ->
    exists d' earlier,
      digitalWrite pin level d = (Ok tt, d') /\
      (forall i, 0 <= i ->
         Z.testbit (cached Data (bank pin) d') i =
           if i =? offset pin then level =? LEVEL_HIGH
           else Z.testbit (cached Data (bank pin) d) i) /\
      cached Data (other (bank pin)) d' = cached Data (other (bank pin)) d /\
      calls (_spi d') =
        earlier ++
          [Xfer2 [write_command d; register Data (bank pin);
                  cached Data (bank pin) d']].
Proof.
  intros d sm pin level HR Hi Hl Hsm Hp Hlevel.
  assert (Hm : level = 0 \/ level = 1)
    by (destruct Hlevel as [-> | ->]; [right | left]; reflexivity).
  pose proof (mutator_is_mapped Data pin level d Hi Hp Hm) as Hmap.
  cbn [mutator] in Hmap. unfold mapped_mutator in Hmap.
  set (byte' := with_bit (level =? setting Data) (cached Data (bank pin) d)
                  (offset pin)) in *.
  pose proof (_writeRegister_bus sm (register Data (bank pin)) byte' d
                Hi Hl Hsm) as Hbus.
  apply (f_equal calls) in Hbus. rewrite transact_recorded in Hbus.
  destruct (_writeRegister_ok (register Data (bank pin)) byte' d
              (Recorder_reliable HR) (conj Hi (conj Hl Hsm))) as (b' & E).
  rewrite E in Hbus. cbn [snd] in Hbus.
  change (_spi (set_spi b' d)) with b' in Hbus.
  assert (Hd' : digitalWrite pin level d
                = (Ok tt, store Data (bank pin) byte' (set_spi b' d))).
  { rewrite Hmap. run. fold byte'. rewrite E. reflexivity. }
  assert (Hlast : exists earlier,
            calls b' =
              earlier ++ [Xfer2 [write_command d; register Data (bank pin);
                                 byte']]).
  { rewrite Hbus. destruct (spi_mode (rec_inner (_spi d)) =? sm).
    - exists (calls (_spi d)). reflexivity.
    - destruct (HR [0] (spi_set_mode sm (rec_inner (_spi d))))
        as (resp0 & b0 & E0 & _).
      rewrite E0. cbn [fst].
      exists (calls (_spi d) ++ [SetMode sm; Xfer2 [0]]).
      rewrite <- app_assoc. reflexivity. }
  destruct Hlast as (earlier & Hcalls).
  exists (store Data (bank pin) byte' (set_spi b' d)), earlier.
  split; [exact Hd'|].
  assert (Hnew : cached Data (bank pin)
                   (store Data (bank pin) byte' (set_spi b' d)) = byte')
    by (destruct (bank pin); reflexivity).
  split; [|split].
  - intros i Hi0. rewrite Hnew. unfold byte'.
    apply with_bit_spec; [apply offset_nonneg; lia | assumption].
  - destruct (bank pin); reflexivity.
  - rewrite Hnew. destruct (bank pin); exact Hcalls.
Qed.

End Recorded.

(** ** Failures and the cache *)

Section Failures.
Import MCP23S17.
Context {B : Type} `{SpiDev B}.
Implicit Types d : handle B.

Lemma _writeRegisterWord_agree register data d :
  agree d (snd (_writeRegisterWord register data d)).
Proof.
  unfold _writeRegisterWord. run. destruct (isInitialized d); run;
    [|apply agree_refl].
  pose proof (_writeRegister_agree register (Z.land data 255) d) as H1.
  destruct (_writeRegister register (Z.land data 255) d) as [[[]|e|] d1];
    cbn [snd] in *; try exact H1.
  eapply agree_trans; [exact H1|]. apply _writeRegister_agree.
Qed.

(** [writeGPIO] assigns the two cached bytes before it writes: they hold
    the new value whatever becomes of the write. *)
Lemma writeGPIO_caches_first data d :
  isInitialized d = true ->
  _GPIOA (snd (writeGPIO data d)) = Z.land data 0xFF /\
  _GPIOB (snd (writeGPIO data d)) = Z.shiftr data 8.
Proof.
  intros Hi. unfold writeGPIO. run. rewrite Hi. run.
  match goal with
  | |- context [_writeRegisterWord ?r ?x ?s] =>
      pose proof (_writeRegisterWord_agree r x s) as Ha
  end.
  destruct Ha as (_ & Ha & Hb & _). split; assumption.
Qed.

(** The three bit-level mutators write first: when one of them does not
    return, the cached bytes are what they were. *)
Lemma bit_mutator_failure_keeps_cache f pin mode d :
  fst (mutator f pin mode d) <> Ok tt ->
  forall f' k, cached f' k (snd (mutator f pin mode d)) = cached f' k d.
Proof.
  intros Hf f' k.
  pose proof (mutator_failure_keeps_cache f pin mode d Hf) as Ha.
  destruct Ha as (_ & ? & ? & ? & ? & ? & ? & _).
  destruct f', k; assumption.
Qed.

End Failures.

(** C3 at [writeGPIO]: the first byte transaction raises, and the cache
    holds the bytes that were not written. *)
Theorem writeGPIO_failure_leaves_new_bytes_cached :
  fst (MCP23S17.writeGPIO 0x1234 broken_handle)
    = Raise (TransportError EIO) /\
  MCP23S17._GPIOA broken_handle = 0 /\
  MCP23S17._GPIOB broken_handle = 0 /\
  MCP23S17._GPIOA (snd (MCP23S17.writeGPIO 0x1234 broken_handle)) = 0x34 /\
  MCP23S17._GPIOB (snd (MCP23S17.writeGPIO 0x1234 broken_handle)) = 0x12.
Proof. vm_compute. repeat split. Qed.

(** On the same handle [digitalWrite] fails and leaves the cache alone. *)
Example digitalWrite_failure_keeps_cache :
  fst (MCP23S17.digitalWrite 3 MCP23S17.LEVEL_HIGH broken_handle)
    = Raise (TransportError EIO) /\
  MCP23S17._GPIOA
    (snd (MCP23S17.digitalWrite 3 MCP23S17.LEVEL_HIGH broken_handle)) = 0.
Proof. vm_compute. repeat split. Qed.

(** ** The virtual pin *)

Section VirtualPinClaims.
Import MCP23S17.
Context {B : Type} `{SpiDev B}.
Implicit Types d : handle B.

(** The setter of [value] calls [digitalWrite] with the level alone: the
    call raises [TypeError] (or the decorator fails its assertion), and
    neither the bus nor the cache is touched. *)
Lemma set_value_never_writes
    (output_check : VirtualPin.t -> handle B -> bool) (self : VirtualPin.t)
    (value : Z) d :
  VirtualPin.set_value output_check self value d =
    (Raise (if output_check self d then TypeError else AssertionError), d).
Proof.
  unfold VirtualPin.set_value, VirtualPin.assert_output, call_digitalWrite.
  run. destruct (output_check self d); reflexivity.
Qed.

End VirtualPinClaims.

(** C7 at pin 3 of an opened handle: [mcp[3].value = 1] raises and changes
    nothing, where [mcp.digitalWrite(3, 1)] returns with bit 3 of bank A
    set. *)
Theorem virtual_pin_write_is_not_digitalWrite :
  VirtualPin.set_value (fun _ _ => true) (VirtualPin.__getitem__ 3) 1
    opened_handle = (Raise TypeError, opened_handle) /\
  fst (MCP23S17.digitalWrite 3 1 opened_handle) = Ok tt /\
  MCP23S17._GPIOA opened_handle = 0 /\
  MCP23S17._GPIOA (snd (MCP23S17.digitalWrite 3 1 opened_handle)) = 8.
Proof.
  split; [apply set_value_never_writes|]. vm_compute. repeat split.
Qed.

(** ** The mode that is never assigned

    [__init__] assigns thirteen attributes, [_spimode] is not one of them,
    and no method assigns it.  The two register transactions read it
    inside the [with] block: on the handle the constructor builds they
    raise [AttributeError] there, before the bus is used. *)

Section Unassigned.
Import MCP23S17.
Context {B : Type} `{SpiDev B}.
Implicit Types d : handle B.

Lemma __init___leaves_spimode_unassigned
    (spi : B) reset intA intB level lk id :
  _spimode (__init__ spi reset intA intB level lk id) = None.
Proof. reflexivity. Qed.

(** [open] on a handle whose [_spimode] is unassigned: the flag is set,
    the IOCON write raises, and nothing else has changed. *)
Lemma open_unassigned d :
  lock d = Some Unlocked -> _spimode d = None ->
  exists d',
    open d = (Raise AttributeError, d') /\
    isInitialized d' = true /\
    lock d' = Some Unlocked /\
    _spimode d' = None /\
    _spi d' = _spi d /\
    forall f k, cached f k d' = cached f k d.
Proof.
  intros Hl Hm. unfold open, _setupGPIO. run.
  match goal with
  | |- context [_writeRegister _ _ ?s] => set (d0 := s)
  end.
  rewrite (_writeRegister_unassigned MCP23S17_IOCON IOCON_INIT d0 eq_refl
             Hl Hm).
  exists d0. split; [reflexivity|]. split; [reflexivity|].
  split; [exact Hl|]. split; [exact Hm|]. split; [reflexivity|].
  intros f k; destruct f, k; reflexivity.
Qed.

(** Every operation with well-formed arguments, on an initialized handle
    whose [_spimode] is unassigned: it raises [AttributeError] and the bus
    is as it was. *)
Lemma perform_unassigned (o : operation) d :
  isInitialized d = true -> lock d = Some Unlocked -> _spimode d = None ->
  well_formed o ->
  fst (perform o d) = Raise AttributeError /\
  _spi (snd (perform o d)) = _spi d.
Proof.
  intros Hi Hl Hm Hwf.
  assert (Hmut : forall f pin mode,
            0 <= pin <= 15 -> mode = 0 \/ mode = 1 ->
            mutator f pin mode d = (Raise AttributeError, d)).
  { intros f pin mode Hp Hmode.
    rewrite mutator_is_mapped by assumption.
    unfold mapped_mutator. run.
    rewrite _writeRegister_unassigned by assumption. reflexivity. }
  destruct o; cbn [perform well_formed] in *.
  - destruct Hwf as [Hp Hmode]. unfold bind.
    change (setDirection pin direction d)
      with (mutator Direction pin direction d).
    rewrite (Hmut Direction pin direction Hp Hmode). split; reflexivity.
  - destruct Hwf as [Hp Hmode]. unfold bind.
    change (setPullupMode pin mode d) with (mutator Pullup pin mode d).
    rewrite (Hmut Pullup pin mode Hp Hmode). split; reflexivity.
  - assert (Hlt : (pin <? 16) = true) by (apply Z.ltb_lt; lia).
    unfold digitalRead. run. rewrite Hi, Hlt.
    destruct (pin <? 8);
      rewrite _readRegister_unassigned by assumption; split; reflexivity.
  - destruct Hwf as [Hp Hmode]. unfold bind.
    change (digitalWrite pin level d) with (mutator Data pin level d).
    rewrite (Hmut Data pin level Hp Hmode). split; reflexivity.
  - unfold writeGPIO, _writeRegisterWord. run. rewrite Hi. run.
    cbn [isInitialized set_GPIOA set_GPIOB]. rewrite Hi. run.
    rewrite _writeRegister_unassigned by assumption. split; reflexivity.
  - unfold readGPIO, _readRegisterWord. run. rewrite Hi. run. rewrite Hi. run.
    rewrite _readRegister_unassigned by assumption. split; reflexivity.
  - unfold _readRegisterWord. run. rewrite Hi. run.
    rewrite _readRegister_unassigned by assumption. split; reflexivity.
  - unfold _writeRegisterWord. run. rewrite Hi. run.
    rewrite _writeRegister_unassigned by assumption. split; reflexivity.
  - unfold bind.
    rewrite _readRegister_unassigned by assumption. split; reflexivity.
  - unfold bind.
    rewrite _writeRegister_unassigned by assumption. split; reflexivity.
Qed.

End Unassigned.

(** C4. [open] on the handle the constructor builds (lock free, bus
    recorded): the IOCON write reads [_spimode], which nothing has
    assigned, and raises [AttributeError]; the loop over the pins is not
    reached, the four direction and pull-up bytes are 0 as the constructor
    left them, no pin from 0 to 14 has its bit set, and the bus has seen
    no call. *)
Theorem open_on_a_built_handle :
  MCP23S17.open built_recorded_handle
    = (Raise AttributeError, half_opened_handle) /\
  MCP23S17.isInitialized half_opened_handle = true /\
  MCP23S17._IODIRA half_opened_handle = 0 /\
  MCP23S17._IODIRB half_opened_handle = 0 /\
  MCP23S17._GPPUA half_opened_handle = 0 /\
  MCP23S17._GPPUB half_opened_handle = 0 /\
  calls (MCP23S17._spi half_opened_handle) = [].
Proof. vm_compute. repeat split. Qed.

(** C2. On the handle the constructor builds, over the echoing device and
    left initialized by [open]: [writeGPIO 0xBEEF] raises
    [AttributeError] at the first byte transaction, and [readGPIO] called
    next raises the same: it does not return [0xBEEF]. *)
Theorem write_then_read_on_a_built_handle :
  MCP23S17.isInitialized stalled_handle = true /\
  MCP23S17.lock stalled_handle = Some Unlocked /\
  fst (MCP23S17.writeGPIO 0xBEEF stalled_handle) = Raise AttributeError /\
  fst (MCP23S17.readGPIO (snd (MCP23S17.writeGPIO 0xBEEF stalled_handle)))
    = Raise AttributeError.
Proof. vm_compute. repeat split. Qed.

(** C6. On the handle the constructor builds, left initialized by [open]:
    [digitalWrite 3 LEVEL_HIGH] raises [AttributeError] at the register
    write, the handle is as it was, bit 3 of bank A's cached data byte is
    still 0 and no byte has been sent. *)
Theorem digitalWrite_on_a_built_handle :
  MCP23S17.digitalWrite 3 MCP23S17.LEVEL_HIGH half_opened_handle
    = (Raise AttributeError, half_opened_handle) /\
  Z.testbit (cached Data (bank 3) half_opened_handle) (offset 3) = false /\
  calls (MCP23S17._spi half_opened_handle) = [].
Proof. vm_compute. repeat split. Qed.

(** C8. On the handle the constructor builds, left initialized by [open],
    its bus in mode 3: [_writeRegister] and [_readRegister] raise
    [AttributeError] when they read [_spimode], before [_setSpiMode] is
    called: the mode of the bus is not assigned, no dummy byte and no
    frame is exchanged. *)
Theorem register_transaction_on_a_built_handle :
  MCP23S17.isInitialized half_opened_handle = true /\
  spi_mode (MCP23S17._spi half_opened_handle) = 3 /\
  MCP23S17._writeRegister 0x12 0xA5 half_opened_handle
    = (Raise AttributeError, half_opened_handle) /\
  calls (MCP23S17._spi
           (snd (MCP23S17._writeRegister 0x12 0xA5 half_opened_handle))) = [] /\
  MCP23S17._readRegister 0x12 half_opened_handle
    = (Raise AttributeError, half_opened_handle) /\
  calls (MCP23S17._spi
           (snd (MCP23S17._readRegister 0x12 half_opened_handle))) = [].
Proof. vm_compute. repeat split. Qed.

(** ** The theorems at work *)

Lemma bit_mutators_witness :
  MCP23S17.isInitialized opened_handle = true /\
  0 <= 11 <= 15 /\
  (0 <= 11 <= 7 -> bank 11 = BankA /\ offset 11 = 11) /\
  (8 <= 11 <= 15 -> bank 11 = BankB /\ offset 11 = Z.land 11 0x07) /\
  mutator Data 11 1 opened_handle = mapped_mutator Data 11 1 opened_handle.
Proof.
  split; [reflexivity|]. split; [lia|].
  apply (bit_mutators_share_the_mapping Data 11 1 opened_handle).
  - reflexivity.
  - lia.
  - right; reflexivity.
Defined.

Lemma open_witness :
  MCP23S17.lock tuned_handle = Some Unlocked /\
  MCP23S17._spimode tuned_handle = Some 0 /\
  exists d',
    MCP23S17.open tuned_handle = (Ok tt, d') /\
    MCP23S17._IODIRA d' = Z.lor (MCP23S17._IODIRA tuned_handle) 0xFF /\
    MCP23S17._IODIRB d' = Z.lor (MCP23S17._IODIRB tuned_handle) 0x7F /\
    MCP23S17._GPPUA d' = Z.lor (MCP23S17._GPPUA tuned_handle) 0xFF /\
    MCP23S17._GPPUB d' = Z.lor (MCP23S17._GPPUB tuned_handle) 0x7F /\
    (forall pin, 0 <= pin <= 14 ->
       Z.testbit (cached Direction (bank pin) d') (offset pin) = true /\
       Z.testbit (cached Pullup (bank pin) d') (offset pin) = true) /\
    Z.testbit (cached Direction (bank 15) d') (offset 15) =
      Z.testbit (cached Direction (bank 15) tuned_handle) (offset 15) /\
    Z.testbit (cached Pullup (bank 15) d') (offset 15) =
      Z.testbit (cached Pullup (bank 15) tuned_handle) (offset 15).
Proof.
  split; [reflexivity|]. split; [reflexivity|].
  apply (open_initializes_pins_0_to_14 (sm := 0) tuned_handle
           EchoChip_reliable).
  - reflexivity.
  - reflexivity.
Defined.

(** On a fresh handle with the mode assigned, the four bytes after [open]. *)
Example open_fresh_bytes :
  MCP23S17._IODIRA opened_handle = 0xFF /\
  MCP23S17._IODIRB opened_handle = 0x7F /\
  MCP23S17._GPPUA opened_handle = 0xFF /\
  MCP23S17._GPPUB opened_handle = 0x7F.
Proof. vm_compute. repeat split. Qed.

Lemma digitalWrite_witness :
  MCP23S17.isInitialized opened_recorded_handle = true /\
  MCP23S17.lock opened_recorded_handle = Some Unlocked /\
  MCP23S17._spimode opened_recorded_handle = Some 0 /\
  0 <= 11 <= 15 /\
  exists d' earlier,
    MCP23S17.digitalWrite 11 MCP23S17.LEVEL_HIGH opened_recorded_handle
      = (Ok tt, d') /\
    (forall i, 0 <= i ->
       Z.testbit (cached Data (bank 11) d') i =
         if i =? offset 11 then MCP23S17.LEVEL_HIGH =? MCP23S17.LEVEL_HIGH
         else Z.testbit (cached Data (bank 11) opened_recorded_handle) i) /\
    cached Data (other (bank 11)) d' =
      cached Data (other (bank 11)) opened_recorded_handle /\
    calls (MCP23S17._spi d') =
      earlier ++
        [Xfer2 [write_command opened_recorded_handle;
                register Data (bank 11); cached Data (bank 11) d']].
Proof.
  split; [vm_compute; reflexivity|]. split; [vm_compute; reflexivity|].
  split; [vm_compute; reflexivity|]. split; [lia|].
  apply (digitalWrite_changes_one_bit opened_recorded_handle 0 11
           MCP23S17.LEVEL_HIGH EchoChip_reliable).
  - vm_compute; reflexivity.
  - vm_compute; reflexivity.
  - vm_compute; reflexivity.
  - lia.
  - left; reflexivity.
Defined.

Lemma mode_settling_witness :
  (* a bus left in mode 3, a device that requires mode 0 *)
  (calls (MCP23S17._spi (snd (MCP23S17._writeRegister 0x12 0xA5
            (MCP23S17.set_isInitialized true recorded_handle)))) =
     [SetMode 0; Xfer2 [0]; Xfer2 [0x44; 0x12; 0xA5]] /\
   calls (MCP23S17._spi (snd (MCP23S17._readRegister 0x12
            (MCP23S17.set_isInitialized true recorded_handle)))) =
     [SetMode 0; Xfer2 [0]; Xfer2 [0x45; 0x12; 0]]) /\
  (* the bus in mode 0 already *)
  (calls (MCP23S17._spi (snd (MCP23S17._writeRegister 0x12 0xA5
            opened_recorded_handle))) =
     calls (MCP23S17._spi opened_recorded_handle)
       ++ [Xfer2 [0x44; 0x12; 0xA5]] /\
   calls (MCP23S17._spi (snd (MCP23S17._readRegister 0x12
            opened_recorded_handle))) =
     calls (MCP23S17._spi opened_recorded_handle)
       ++ [Xfer2 [0x45; 0x12; 0]]).
Proof.
  split.
  - apply (mode_is_settled_before_each_transaction
             (MCP23S17.set_isInitialized true recorded_handle) 0 0x12 0xA5).
    + reflexivity.
    + reflexivity.
    + reflexivity.
    + cbn. discriminate.
    + eexists; eexists; reflexivity.
  - apply (mode_is_settled_before_each_transaction
             opened_recorded_handle 0 0x12 0xA5).
    + vm_compute; reflexivity.
    + vm_compute; reflexivity.
    + vm_compute; reflexivity.
    + vm_compute; reflexivity.
Defined.

(** * Beyond the claims *)

(** ** Reading a pin *)

Section Reading.
Import MCP23S17.
Context {B : Type} `{SpiDev B}.
Implicit Types d : handle B.

Lemma land_one_hot v off :
  0 <= off -> (Z.land v (Z.shiftl 1 off) =? 0) = negb (Z.testbit v off).
Proof.
  intros Hoff. destruct (Z.testbit v off) eqn:Hbit; cbn [negb].
  - apply Z.eqb_neq. intros E.
    apply (f_equal (fun z => Z.testbit z off)) in E.
    rewrite Z.land_spec, Hbit, testbit_one_hot, Z.eqb_refl, Z.bits_0 in E
      by assumption.
    discriminate.
  - apply Z.eqb_eq. apply Z.bits_inj'. intros i Hi.
    rewrite Z.land_spec, testbit_one_hot, Z.bits_0 by assumption.
    destruct (Z.eqb_spec i off) as [-> | _];
      [rewrite Hbit; reflexivity | apply andb_false_r].
Qed.

Lemma digitalRead_run :
  forall d sm pin resp b' v,
    isInitialized d = true ->
    lock d = Some Unlocked ->
    _spimode d = Some sm ->
    0 <= pin <= 15 ->
    transact sm [read_command d; register Data (bank pin); 0]
      (_spi d) = (Bytes resp, b') ->
    nth_error resp 2 = Some v ->
    digitalRead pin d =
      (Ok (if Z.testbit v (offset pin) then LEVEL_HIGH else LEVEL_LOW),
       store Data (bank pin) v (set_spi b' d)).
Proof.
  intros d sm pin resp b' v Hi Hl Hsm Hp Ht Hv.
  assert (Hlt : (pin <? 16) = true) by (apply Z.ltb_lt; lia).
  pose proof (offset_nonneg pin (proj1 Hp)) as Hoff.
  unfold digitalRead, bank, offset in *. run. rewrite Hi, Hlt.
  destruct (pin <? 8); cbn [register] in Ht;
    rewrite (_readRegister_run _ d Hi Hl Hsm), Ht, Hv; run;
    rewrite lshift_run by assumption;
    cbn [_GPIOA _GPIOB set_GPIOA set_GPIOB];
    rewrite land_one_hot by assumption;
    destruct (Z.testbit v _); reflexivity.
Qed.

(** X1. Once [_spimode] has been assigned, [digitalRead] answers with the
    bit, at the pin's offset, of the byte the bus returned for the data
    register of the pin's bank, and that byte replaces the cached byte of
    the bank. *)
Theorem digitalRead_returns_the_bit :
  forall d sm pin resp b' v,
    isInitialized d = true ->
    lock d = Some Unlocked ->
    _spimode d = Some sm ->
    0 <= pin <= 15 ->
    transact sm [read_command d; register Data (bank pin); 0]
      (_spi d) = (Bytes resp, b') ->
    nth_error resp 2 = Some v ->
    digitalRead pin d =
      (Ok (if Z.testbit v (offset pin) then LEVEL_HIGH else LEVEL_LOW),
       store Data (bank pin) v (set_spi b' d)).
Proof. exact digitalRead_run. Qed.

(** X2. Once [_spimode] has been assigned, a response shorter than three
    bytes: [digitalRead] raises [IndexError] and the cached bytes are what
    they were. *)
Theorem digitalRead_short_response :
  forall d sm pin resp b',
    isInitialized d = true ->
    lock d = Some Unlocked ->
    _spimode d = Some sm ->
    pin < 16 ->
    transact sm [read_command d; register Data (bank pin); 0]
      (_spi d) = (Bytes resp, b') ->
    (length resp < 3)%nat ->
    digitalRead pin d = (Raise IndexError, set_spi b' d).
Proof.
  intros d sm pin resp b' Hi Hl Hsm Hp Ht Hlen.
  assert (Hlt : (pin <? 16) = true) by (apply Z.ltb_lt; lia).
  assert (Hv : nth_error resp 2 = None) by (apply nth_error_None; lia).
  unfold digitalRead, bank in *. run. rewrite Hi, Hlt.
  destruct (pin <? 8); cbn [register] in Ht;
    rewrite (_readRegister_run _ d Hi Hl Hsm), Ht, Hv; reflexivity.
Qed.

End Reading.

(** ** The bit-level mutators, one bit at a time *)

Section OneBit.
Import MCP23S17.
Context {B : Type} `{SpiDev B}.
Implicit Types d : handle B.

Lemma cached_store g k f k' v d :
  cached g k (store f k' v d) =
    if (Family_eqb g f && Bank_eqb k k')%bool then v else cached g k d.
Proof. destruct g, k, f, k'; reflexivity. Qed.

Lemma cached_set_spi g k (b : B) d : cached g k (set_spi b d) = cached g k d.
Proof. destruct g, k; reflexivity. Qed.

Lemma Family_eqb_eq f f' : Family_eqb f f' = true <-> f = f'.
Proof. destruct f, f'; cbn; split; congruence. Qed.

Lemma Bank_eqb_eq k k' : Bank_eqb k k' = true <-> k = k'.
Proof. destruct k, k'; cbn; split; congruence. Qed.

Lemma Family_eqb_refl f : Family_eqb f f = true.
Proof. destruct f; reflexivity. Qed.

Lemma Bank_eqb_refl k : Bank_eqb k k = true.
Proof. destruct k; reflexivity. Qed.

Lemma Family_eqb_sym f f' : Family_eqb f f' = Family_eqb f' f.
Proof. destruct f, f'; reflexivity. Qed.

Lemma Bank_eqb_sym k k' : Bank_eqb k k' = Bank_eqb k' k.
Proof. destruct k, k'; reflexivity. Qed.

Lemma offset_high pin : 8 <= pin <= 15 -> offset pin = pin - 8.
Proof.
  intros Hp. unfold offset. destruct (Z.ltb_spec pin 8); [lia|].
  change 7 with (Z.ones 3). rewrite Z.land_ones by lia.
  change (2 ^ 3) with 8.
  rewrite <- (Z.mod_unique pin 8 1 (pin - 8)); [reflexivity|lia|lia].
Qed.

Lemma offset_range pin : 0 <= pin <= 15 -> 0 <= offset pin <= 7.
Proof.
  intros Hp. destruct (Z.ltb_spec pin 8) as [Hlt | Hge].
  - unfold offset. apply Z.ltb_lt in Hlt. rewrite Hlt. lia.
  - rewrite offset_high by lia. lia.
Qed.

(** X3. Once [_spimode] has been assigned, over a reliable transport, on
    an initialized handle whose lock is free, a bit-level mutator of any
    family, for a pin from 0 to 15 and a mode of the family, returns and
    changes one bit of one cached byte: the byte of its family and of the pin's bank, at the pin's
    offset, set by the family's setting mode and cleared by the other; the
    five other cached bytes are as before. *)
Theorem bit_mutator_changes_one_bit :
  forall (f : Family) d sm pin mode,
    Reliable ->
    isInitialized d = true ->
    lock d = Some Unlocked ->
    _spimode d = Some sm ->
    0 <= pin <= 15 ->
    mode = 0 \/ mode = 1 ->
    exists d',
      mutator f pin mode d = (Ok tt, d') /\
      (forall i, 0 <= i ->
         Z.testbit (cached f (bank pin) d') i =
           if i =? offset pin then mode =? setting f
           else Z.testbit (cached f (bank pin) d) i) /\
      (forall g k, g <> f \/ k <> bank pin ->
         cached g k d' = cached g k d).
Proof.
  intros f d sm pin mode HR Hi Hl Hsm Hp Hm.
  destruct (mutator_ok (sm := sm) f pin mode d HR (conj Hi (conj Hl Hsm))
              Hp Hm) as (b' & E).
  eexists. split; [exact E|]. split.
  - intros i Hi0. rewrite cached_store, cached_set_spi.
    replace (Family_eqb f f) with true by (destruct f; reflexivity).
    replace (Bank_eqb (bank pin) (bank pin)) with true
      by (destruct (bank pin); reflexivity).
    cbn [andb]. apply with_bit_spec; [apply offset_nonneg; lia | assumption].
  - intros g k Hne. rewrite cached_store, cached_set_spi.
    destruct (Family_eqb g f) eqn:Ef; [|reflexivity].
    destruct (Bank_eqb k (bank pin)) eqn:Ek; [|reflexivity].
    apply Family_eqb_eq in Ef. apply Bank_eqb_eq in Ek.
    destruct Hne; contradiction.
Qed.

(** X4. A pin index of 16 or more, or a mode that is neither constant of
    the family, fails an assertion in every state, before the cache and
    the bus are touched. *)
Theorem bit_mutator_rejects_bad_arguments :
  forall (f : Family) d pin mode,
    16 <= pin \/ (mode <> 0 /\ mode <> 1) ->
    mutator f pin mode d = (Raise AssertionError, d).
Proof.
  intros f d pin mode Hbad.
  assert (Hcase : (pin <? 16) = false \/
                  ((mode =? 0) || (mode =? 1) = false /\
                   (mode =? 1) || (mode =? 0) = false)%bool).
  { destruct Hbad as [Hp | [H0 H1]].
    - left. apply Z.ltb_ge. exact Hp.
    - right. apply Z.eqb_neq in H0, H1. rewrite H0, H1. split; reflexivity. }
  destruct f; unfold mutator, setDirection, setPullupMode, digitalWrite,
    DIR_INPUT, DIR_OUTPUT, PULLUP_ENABLED, PULLUP_DISABLED,
    LEVEL_HIGH, LEVEL_LOW; run.
  - destruct Hcase as [-> | [-> _]]; [reflexivity|].
    destruct (pin <? 16); reflexivity.
  - destruct Hcase as [-> | [-> _]]; [reflexivity|].
    destruct (pin <? 16); reflexivity.
  - destruct (isInitialized d); [|reflexivity]. run.
    destruct Hcase as [-> | [_ ->]]; [reflexivity|].
    destruct (pin <? 16); reflexivity.
Qed.


End OneBit.

(** ** How the mutators compose *)

Section Composition.
Import MCP23S17.
Context {B : Type} `{SpiDev B}.
Context {sm : Z}.
Implicit Types d : handle B.

Lemma with_bit_idem s byte off :
  0 <= off -> with_bit s (with_bit s byte off) off = with_bit s byte off.
Proof.
  intros Hoff. apply Z.bits_inj'. intros i Hi.
  rewrite !with_bit_spec by assumption.
  destruct (i =? off); reflexivity.
Qed.

Lemma with_bit_comm s1 s2 byte o1 o2 :
  0 <= o1 -> 0 <= o2 -> o1 <> o2 ->
  with_bit s2 (with_bit s1 byte o1) o2 = with_bit s1 (with_bit s2 byte o2) o1.
Proof.
  intros H1 H2 Hne. apply Z.bits_inj'. intros i Hi.
  rewrite !with_bit_spec by assumption.
  destruct (Z.eqb_spec i o1), (Z.eqb_spec i o2); try reflexivity.
  congruence.
Qed.

Lemma offsets_differ p q :
  0 <= p <= 15 -> 0 <= q <= 15 -> p <> q -> bank p = bank q ->
  offset p <> offset q.
Proof.
  intros Hp Hq Hne Hb. unfold bank in Hb.
  destruct (Z.ltb_spec p 8), (Z.ltb_spec q 8); try discriminate.
  - unfold offset.
    destruct (Z.ltb_spec p 8), (Z.ltb_spec q 8); lia.
  - rewrite !offset_high by lia. lia.
Qed.

(** The cached bytes after two mutators in a row. *)
Lemma two_mutators f p m f' q m' d :
  Reliable -> ready sm d ->
  0 <= p <= 15 -> m = 0 \/ m = 1 ->
  0 <= q <= 15 -> m' = 0 \/ m' = 1 ->
  exists d2,
    (mutator f p m ;; mutator f' q m') d = (Ok tt, d2) /\
    ready sm d2 /\
    forall g k,
      cached g k d2 =
        let byte1 g k :=
          if (Family_eqb g f && Bank_eqb k (bank p))%bool
          then with_bit (m =? setting f) (cached f (bank p) d) (offset p)
          else cached g k d in
        if (Family_eqb g f' && Bank_eqb k (bank q))%bool
        then with_bit (m' =? setting f') (byte1 f' (bank q)) (offset q)
        else byte1 g k.
Proof.
  intros HR Hr Hp Hm Hq Hm'.
  destruct (mutator_ok f p m d HR Hr Hp Hm) as (b1 & E1).
  unfold bind. rewrite E1.
  match type of E1 with _ = (_, ?s) => set (d1 := s) in * end.
  assert (Hr1 : ready sm d1) by (apply ready_store, ready_set_spi, Hr).
  destruct (mutator_ok f' q m' d1 HR Hr1 Hq Hm') as (b2 & E2).
  rewrite E2. eexists. split; [reflexivity|]. split.
  - apply ready_store, ready_set_spi, Hr1.
  - intros g k. cbv zeta. rewrite cached_store, cached_set_spi.
    subst d1. rewrite !cached_store, !cached_set_spi. reflexivity.
Qed.

(** X6. Once [_spimode] has been assigned, over a reliable transport, on
    an initialized handle whose lock is free: two bit-level mutators on
    different pins, or of different families, each with a pin from 0 to 15
    and a mode of its family, return in either order and leave the same
    six cached bytes. *)
Theorem bit_mutators_commute :
  forall (f f' : Family) d p m q m',
    Reliable ->
    isInitialized d = true ->
    lock d = Some Unlocked ->
    _spimode d = Some sm ->
    0 <= p <= 15 -> m = 0 \/ m = 1 ->
    0 <= q <= 15 -> m' = 0 \/ m' = 1 ->
    f <> f' \/ p <> q ->
    exists d1 d2,
      (mutator f p m ;; mutator f' q m') d = (Ok tt, d1) /\
      (mutator f' q m' ;; mutator f p m) d = (Ok tt, d2) /\
      forall g k, cached g k d1 = cached g k d2.
Proof.
  intros f f' d p m q m' HR Hi Hl Hsm Hp Hm Hq Hm' Hne.
  assert (Hr : ready sm d) by (repeat split; assumption).
  destruct (two_mutators f p m f' q m' d HR Hr Hp Hm Hq Hm')
    as (d1 & E1 & _ & C1).
  destruct (two_mutators f' q m' f p m d HR Hr Hq Hm' Hp Hm)
    as (d2 & E2 & _ & C2).
  exists d1, d2. split; [exact E1|]. split; [exact E2|].
  intros g k. rewrite C1, C2. cbv zeta.
  pose proof (offset_nonneg p (proj1 Hp)) as Hop.
  pose proof (offset_nonneg q (proj1 Hq)) as Hoq.
  destruct (Family_eqb f f' && Bank_eqb (bank p) (bank q))%bool eqn:Esame.
  - (* the same byte: the two offsets differ *)
    apply andb_true_iff in Esame. destruct Esame as [Ef Ek].
    apply Family_eqb_eq in Ef. apply Bank_eqb_eq in Ek. subst f'.
    rewrite <- Ek. rewrite !Family_eqb_refl, !Bank_eqb_refl. cbn [andb].
    destruct (Family_eqb g f && Bank_eqb k (bank p))%bool; [|reflexivity].
    apply with_bit_comm; try assumption.
    apply offsets_differ; try assumption.
    destruct Hne as [Hne | Hne]; [congruence | exact Hne].
  - assert (Esame' : (Family_eqb f' f && Bank_eqb (bank q) (bank p))%bool
                     = false)
      by (rewrite Family_eqb_sym, Bank_eqb_sym; exact Esame).
    destruct (Family_eqb g f && Bank_eqb k (bank p))%bool eqn:EA,
      (Family_eqb g f' && Bank_eqb k (bank q))%bool eqn:EA';
      rewrite ?Esame, ?Esame'; try reflexivity.
    exfalso.
    apply andb_true_iff in EA, EA'.
    destruct EA as [E1g E1k], EA' as [E2g E2k].
    apply Family_eqb_eq in E1g, E2g. apply Bank_eqb_eq in E1k, E2k.
    subst g k f'. rewrite <- E2k in Esame.
    rewrite Family_eqb_refl, Bank_eqb_refl in Esame. discriminate.
Qed.

(** X7. Once [_spimode] has been assigned, over a reliable transport, on
    an initialized handle whose lock is free: a bit-level mutator, for a
    pin from 0 to 15 and a mode of its family, done twice returns and
    leaves the cached bytes it leaves when done once. *)
Theorem bit_mutator_idempotent :
  forall (f : Family) d pin mode,
    Reliable ->
    isInitialized d = true ->
    lock d = Some Unlocked ->
    _spimode d = Some sm ->
    0 <= pin <= 15 ->
    mode = 0 \/ mode = 1 ->
    exists d1 d2,
      mutator f pin mode d = (Ok tt, d1) /\
      (mutator f pin mode ;; mutator f pin mode) d = (Ok tt, d2) /\
      forall g k, cached g k d2 = cached g k d1.
Proof.
  intros f d pin mode HR Hi Hl Hsm Hp Hm.
  assert (Hr : ready sm d) by (repeat split; assumption).
  destruct (mutator_ok f pin mode d HR Hr Hp Hm) as (b1 & E1).
  destruct (two_mutators f pin mode f pin mode d HR Hr Hp Hm Hp Hm)
    as (d2 & E2 & _ & C2).
  eexists; exists d2. split; [exact E1|]. split; [exact E2|].
  intros g k. rewrite C2, cached_store, cached_set_spi. cbv beta zeta.
  rewrite !Family_eqb_refl, !Bank_eqb_refl. cbn [andb].
  destruct (Family_eqb g f && Bank_eqb k (bank pin))%bool; [|reflexivity].
  apply with_bit_idem, offset_nonneg. lia.
Qed.

End Composition.

(** ** Reading: the edges and the port *)

Section ReadingMore.
Import MCP23S17.
Context {B : Type} `{SpiDev B}.
Implicit Types d : handle B.

(** X8. Once [_spimode] has been assigned, a negative pin index passes
    [assert pin < 16] in [digitalRead] too: bank A's data register is read and its byte cached, and only then
    the shift raises [ValueError]. *)
Theorem digitalRead_negative_pin :
  forall d sm pin resp b' v,
    isInitialized d = true ->
    lock d = Some Unlocked ->
    _spimode d = Some sm ->
    pin < 0 ->
    transact sm [read_command d; MCP23S17_GPIOA; 0] (_spi d)
      = (Bytes resp, b') ->
    nth_error resp 2 = Some v ->
    digitalRead pin d = (Raise ValueError, set_GPIOA v (set_spi b' d)).
Proof.
  intros d sm pin resp b' v Hi Hl Hsm Hp Ht Hv.
  assert (Hlt : (pin <? 16) = true) by (apply Z.ltb_lt; lia).
  assert (Hlt8 : (pin <? 8) = true) by (apply Z.ltb_lt; lia).
  assert (Hneg : (pin <? 0) = true) by (apply Z.ltb_lt; lia).
  unfold digitalRead. run. rewrite Hi, Hlt, Hlt8.
  rewrite (_readRegister_run _ d Hi Hl Hsm), Ht, Hv. run.
  unfold lshift. rewrite Hneg. reflexivity.
Qed.

Lemma is_byte_land v : is_byte v <-> Z.land v 255 = v.
Proof.
  unfold is_byte. change 255 with (Z.ones 8).
  rewrite Z.land_ones by lia. change (2 ^ 8) with 256. split.
  - intros Hv. apply Z.mod_small. exact Hv.
  - intros E. rewrite <- E. apply Z.mod_pos_bound. reflexivity.
Qed.

Lemma word_low hi lo :
  is_byte lo -> Z.land (Z.lor (Z.shiftl hi 8) lo) 255 = lo.
Proof.
  intros Hlo. apply is_byte_land in Hlo.
  rewrite Z.land_lor_distr_l, Hlo.
  replace (Z.land (Z.shiftl hi 8) 255) with 0; [reflexivity|].
  symmetry. apply Z.bits_inj'. intros i Hi.
  rewrite Z.land_spec, Z.bits_0. change 255 with (Z.ones 8).
  destruct (Z.ltb_spec i 8).
  - rewrite Z.shiftl_spec_low by lia. reflexivity.
  - rewrite Z.ones_spec_high by lia. apply andb_false_r.
Qed.

Lemma word_high hi lo :
  is_byte lo -> Z.shiftr (Z.lor (Z.shiftl hi 8) lo) 8 = hi.
Proof.
  intros Hlo. rewrite Z.shiftr_lor, Z.shiftr_shiftl_l by lia.
  change (8 - 8) with 0. rewrite Z.shiftl_0_r.
  replace (Z.shiftr lo 8) with 0; [apply Z.lor_0_r|].
  symmetry. rewrite Z.shiftr_div_pow2 by lia.
  apply Z.div_small. exact Hlo.
Qed.

(** X9. Once [_spimode] has been assigned, [readGPIO] reads bank A's data
    register, then bank B's, answers
    with [(high << 8) | low] and caches the two bytes read, the low one
    being a byte. *)
Theorem readGPIO_refreshes_cache :
  forall d sm resp0 b0 lo resp1 b1 hi,
    isInitialized d = true ->
    lock d = Some Unlocked ->
    _spimode d = Some sm ->
    transact sm [read_command d; MCP23S17_GPIOA; 0] (_spi d)
      = (Bytes resp0, b0) ->
    nth_error resp0 2 = Some lo ->
    transact sm [read_command d; MCP23S17_GPIOB; 0] b0
      = (Bytes resp1, b1) ->
    nth_error resp1 2 = Some hi ->
    is_byte lo ->
    readGPIO d =
      (Ok (Z.lor (Z.shiftl hi 8) lo),
       set_GPIOB hi (set_GPIOA lo (set_spi b1 d))).
Proof.
  intros d sm resp0 b0 lo resp1 b1 hi Hi Hl Hsm Ht0 Hv0 Ht1 Hv1 Hlo.
  unfold readGPIO, _readRegisterWord. run. rewrite Hi. run. rewrite Hi. run.
  rewrite (_readRegister_run _ d Hi Hl Hsm), Ht0, Hv0. run.
  change (MCP23S17_GPIOA + 1) with MCP23S17_GPIOB.
  rewrite (_readRegister_run (sm := sm) _ (set_spi b0 d) Hi Hl Hsm).
  change (read_command (set_spi b0 d)) with (read_command d).
  change (_spi (set_spi b0 d)) with b0.
  rewrite Ht1, Hv1. run.
  rewrite word_low, word_high by assumption. reflexivity.
Qed.

End ReadingMore.

(** ** The cache and the device, over an echoing transport *)

Section Coherence.
Import MCP23S17.
Context {B : Type} `{SpiDev B}.
Context {sm : Z}.
Variable stored : B -> Z -> Z.
Hypothesis echo : Echoes stored.
Implicit Types d : handle B.

Lemma with_bit_byte s byte off :
  is_byte byte -> 0 <= off <= 7 -> is_byte (with_bit s byte off).
Proof.
  intros Hb Hoff. apply is_byte_land. apply is_byte_land in Hb.
  apply Z.bits_inj'. intros i Hi.
  rewrite Z.land_spec, with_bit_spec by lia.
  change 255 with (Z.ones 8).
  destruct (Z.ltb_spec i 8).
  - rewrite Z.ones_spec_low by lia. apply andb_true_r.
  - rewrite Z.ones_spec_high by lia. rewrite andb_false_r.
    destruct (Z.eqb_spec i off); [lia|].
    rewrite <- Hb, Z.land_spec. change 255 with (Z.ones 8).
    rewrite Z.ones_spec_high by lia. symmetry. apply andb_false_r.
Qed.

Lemma register_injective f k g k' :
  register f k = register g k' -> f = g /\ k = k'.
Proof. destruct f, k, g, k'; cbn; intros E; try discriminate; split; reflexivity. Qed.

(** A mutator over an echoing transport. *)
Lemma mutator_echo f pin mode d :
  ready sm d -> 0 <= pin <= 15 -> mode = 0 \/ mode = 1 ->
  is_byte (cached f (bank pin) d) ->
  exists b',
    let byte' :=
      with_bit (mode =? setting f) (cached f (bank pin) d) (offset pin) in
    mutator f pin mode d
      = (Ok tt, store f (bank pin) byte' (set_spi b' d)) /\
    is_byte byte' /\
    stored b' (register f (bank pin)) = byte' /\
    forall r, r <> register f (bank pin) -> stored b' r = stored (_spi d) r.
Proof.
  intros Hr Hp Hm Hb. cbv zeta.
  assert (Hb' : is_byte (with_bit (mode =? setting f)
                           (cached f (bank pin) d) (offset pin)))
    by (apply with_bit_byte; [exact Hb | apply offset_range, Hp]).
  rewrite mutator_is_mapped by (assumption || apply Hr).
  unfold mapped_mutator; run.
  destruct (_writeRegister_echo stored echo (register f (bank pin)) _ d Hr Hb')
    as (b' & E & Hreg & Hrest).
  rewrite E. exists b'. repeat split; try assumption; apply Hb'.
Qed.

(** X10. Once [_spimode] has been assigned, over an echoing transport, on
    an initialized handle whose lock is free, for a pin from 0 to 15 and a
    mode of the family, the cached byte of the pin's bank being a byte
    (0 to 255): a bit-level mutator returns, leaves the register it wrote
    equal to the cached byte, and keeps every family whose registers
    agreed with the cache in agreement. *)
Theorem bit_mutator_keeps_cache_coherent :
  forall (f : Family) d pin mode,
    isInitialized d = true ->
    lock d = Some Unlocked ->
    _spimode d = Some sm ->
    0 <= pin <= 15 ->
    mode = 0 \/ mode = 1 ->
    is_byte (cached f (bank pin) d) ->
    exists d',
      mutator f pin mode d = (Ok tt, d') /\
      stored (_spi d') (register f (bank pin)) = cached f (bank pin) d' /\
      forall g, coherent stored g d -> coherent stored g d'.
Proof.
  intros f d pin mode Hi Hl Hsm Hp Hm Hb.
  destruct (mutator_echo f pin mode d (conj Hi (conj Hl Hsm)) Hp Hm Hb)
    as (b' & E & _ & Hreg & Hrest).
  cbv zeta in *. eexists. split; [exact E|].
  assert (Hspi : forall v, _spi (store f (bank pin) v (set_spi b' d)) = b')
    by (intros v; destruct f, (bank pin); reflexivity).
  split.
  - rewrite Hspi, cached_store, Family_eqb_refl, Bank_eqb_refl. exact Hreg.
  - intros g Hg k. rewrite Hspi, cached_store, cached_set_spi.
    destruct (Family_eqb g f && Bank_eqb k (bank pin))%bool eqn:Esame.
    + apply andb_true_iff in Esame. destruct Esame as [Ef Ek].
      apply Family_eqb_eq in Ef. apply Bank_eqb_eq in Ek. subst. exact Hreg.
    + rewrite Hrest; [apply Hg|].
      intros E'. apply register_injective in E'. destruct E' as [-> ->].
      rewrite Family_eqb_refl, Bank_eqb_refl in Esame. discriminate.
Qed.

(** X11. Once [_spimode] has been assigned, over an echoing transport, on
    an initialized handle whose lock is free, for a pin from 0 to 15, the
    cached data byte of the pin's bank being a byte (0 to 255):
    [digitalWrite] of a level followed by [digitalRead] of the same pin
    answers with that level and leaves the cached bytes as the write left
    them. *)
Theorem digitalWrite_then_digitalRead :
  forall d pin level,
    isInitialized d = true ->
    lock d = Some Unlocked ->
    _spimode d = Some sm ->
    0 <= pin <= 15 ->
    level = LEVEL_LOW \/ level = LEVEL_HIGH ->
    is_byte (cached Data (bank pin) d) ->
    exists d1 d2,
      digitalWrite pin level d = (Ok tt, d1) /\
      digitalRead pin d1 = (Ok level, d2) /\
      forall g k, cached g k d2 = cached g k d1.
Proof.
  intros d pin level Hi Hl Hsm Hp Hlevel Hb.
  destruct (mutator_echo Data pin level d (conj Hi (conj Hl Hsm)) Hp Hlevel Hb)
    as (b1 & E1 & _ & Hreg & _).
  cbv zeta in *. cbn [mutator] in E1.
  set (byte' := with_bit (level =? setting Data) (cached Data (bank pin) d)
                  (offset pin)) in *.
  set (d1 := store Data (bank pin) byte' (set_spi b1 d)) in *.
  assert (Hspi : _spi d1 = b1) by (subst d1; destruct (bank pin); reflexivity).
  assert (Hi1 : isInitialized d1 = true)
    by (subst d1; destruct (bank pin); exact Hi).
  assert (Hl1 : lock d1 = Some Unlocked)
    by (subst d1; destruct (bank pin); exact Hl).
  assert (Hsm1 : _spimode d1 = Some sm)
    by (subst d1; destruct (bank pin); exact Hsm).
  destruct (transact_echo_read stored echo sm (read_command d1)
              (register Data (bank pin)) (_spi d1) (read_command_bit0 d1))
    as (x & y & b2 & E2 & _).
  pose proof (digitalRead_run d1 sm pin _ b2 _ Hi1 Hl1 Hsm1 Hp E2 eq_refl)
    as Hread.
  rewrite Hspi, Hreg in Hread.
  exists d1. eexists. split; [exact E1|]. split.
  - rewrite Hread. f_equal. f_equal. unfold byte'.
    rewrite with_bit_spec, Z.eqb_refl
      by (apply offset_nonneg || apply Z.le_refl; lia).
    destruct Hlevel as [-> | ->]; reflexivity.
  - intros g k. rewrite cached_store, cached_set_spi.
    destruct (Family_eqb g Data && Bank_eqb k (bank pin))%bool eqn:Esame;
      [|reflexivity].
    apply andb_true_iff in Esame. destruct Esame as [Ef Ek].
    apply Family_eqb_eq in Ef. apply Bank_eqb_eq in Ek. subst g k.
    subst d1. rewrite cached_store, Family_eqb_refl, Bank_eqb_refl.
    reflexivity.
Qed.

End Coherence.

Section OpenOnTheDevice.
Import MCP23S17.
Context {B : Type} `{SpiDev B}.
Context {sm : Z}.
Variable stored : B -> Z -> Z.
Hypothesis echo : Echoes stored.
Implicit Types d : handle B.

Lemma mutator_echo_step f pin mode d :
  ready sm d -> 0 <= pin <= 15 -> mode = 0 \/ mode = 1 ->
  is_byte (cached f (bank pin) d) ->
  exists d',
    mutator f pin mode d = (Ok tt, d') /\ ready sm d' /\
    (forall g k,
       cached g k d' =
         if (Family_eqb g f && Bank_eqb k (bank pin))%bool
         then with_bit (mode =? setting f) (cached f (bank pin) d)
                (offset pin)
         else cached g k d) /\
    (forall g k,
       stored (_spi d) (register g k) = cached g k d \/
       (g = f /\ k = bank pin) ->
       stored (_spi d') (register g k) = cached g k d').
Proof.
  intros Hr Hp Hm Hb.
  destruct (mutator_echo stored echo f pin mode d Hr Hp Hm Hb)
    as (b' & E & _ & Hreg & Hrest).
  cbv zeta in *. eexists. split; [exact E|].
  assert (Hspi : forall v, _spi (store f (bank pin) v (set_spi b' d)) = b')
    by (intros v; destruct f, (bank pin); reflexivity).
  split; [apply ready_store, ready_set_spi, Hr|]. split.
  - intros g k. rewrite cached_store, cached_set_spi. reflexivity.
  - intros g k Hg. rewrite Hspi, cached_store, cached_set_spi.
    destruct (Family_eqb g f && Bank_eqb k (bank pin))%bool eqn:Esame.
    + apply andb_true_iff in Esame. destruct Esame as [Ef Ek].
      apply Family_eqb_eq in Ef. apply Bank_eqb_eq in Ek. subst. exact Hreg.
    + destruct Hg as [Hg | [-> ->]].
      * rewrite Hrest; [exact Hg|].
        intros E'. apply register_injective in E'. destruct E' as [-> ->].
        rewrite Family_eqb_refl, Bank_eqb_refl in Esame. discriminate.
      * rewrite Family_eqb_refl, Bank_eqb_refl in Esame. discriminate.
Qed.

(** The configuration bytes: those of the direction and pull-up
    families. *)
Lemma bring_up_pin_echo index d :
  ready sm d -> 0 <= index <= 15 ->
  (forall f k, f <> Data -> is_byte (cached f k d)) ->
  exists d',
    (setDirection index DIR_INPUT ;; setPullupMode index PULLUP_ENABLED) d
      = (Ok tt, d') /\
    ready sm d' /\
    (forall f k, f <> Data -> is_byte (cached f k d')) /\
    (forall f k, f <> Data ->
       cached f k d' =
         if Bank_eqb (bank index) k
         then Z.lor (cached f k d) (Z.shiftl 1 (offset index))
         else cached f k d) /\
    (forall f k, f <> Data ->
       stored (_spi d) (register f k) = cached f k d \/ k = bank index ->
       stored (_spi d') (register f k) = cached f k d').
Proof.
  intros Hr Hp Hbytes.
  destruct (mutator_echo_step Direction index DIR_INPUT d Hr Hp)
    as (d1 & E1 & Hr1 & C1 & S1);
    [left; reflexivity | apply Hbytes; discriminate |].
  assert (Hb1 : is_byte (cached Pullup (bank index) d1)).
  { rewrite C1. cbn [Family_eqb andb]. apply Hbytes. discriminate. }
  destruct (mutator_echo_step Pullup index PULLUP_ENABLED d1 Hr1 Hp)
    as (d2 & E2 & Hr2 & C2 & S2); [left; reflexivity | exact Hb1 |].
  cbn [mutator] in E1, E2.
  exists d2. split; [unfold bind; rewrite E1; exact E2|].
  split; [exact Hr2|].
  assert (Hcache : forall f k, f <> Data ->
            cached f k d2 =
              if Bank_eqb (bank index) k
              then Z.lor (cached f k d) (Z.shiftl 1 (offset index))
              else cached f k d).
  { intros f k Hf. rewrite C2, !C1. rewrite (Bank_eqb_sym (bank index) k).
    destruct f; [| |contradiction Hf; reflexivity]; cbn [Family_eqb andb];
      destruct (Bank_eqb k (bank index)) eqn:Ek; try reflexivity;
      apply Bank_eqb_eq in Ek; subst k; reflexivity. }
  split; [|split; [exact Hcache|]].
  - intros f k Hf. rewrite Hcache by assumption.
    destruct (Bank_eqb (bank index) k); [|apply Hbytes; assumption].
    apply (with_bit_byte true); [apply Hbytes; assumption|].
    apply offset_range, Hp.
  - intros f k Hf Hs. apply S2.
    destruct f; [| |contradiction Hf; reflexivity].
    + left. apply S1. destruct Hs as [Hs | ->]; [left; exact Hs|].
      right. split; reflexivity.
    + destruct Hs as [Hs | ->]; [|right; split; reflexivity].
      left. apply S1. left. exact Hs.
Qed.

Lemma bring_up_pins_echo pins :
  (forall pin, In pin pins -> 0 <= pin <= 15) ->
  forall d, ready sm d ->
  (forall f k, f <> Data -> is_byte (cached f k d)) ->
  exists d',
    for_each pins (fun index =>
      setDirection index DIR_INPUT ;; setPullupMode index PULLUP_ENABLED) d
      = (Ok tt, d') /\
    ready sm d' /\
    (forall f k, f <> Data ->
       cached f k d' = Z.lor (cached f k d) (mask pins k)) /\
    (forall f k, f <> Data ->
       stored (_spi d) (register f k) = cached f k d \/
       (exists pin, In pin pins /\ bank pin = k) ->
       stored (_spi d') (register f k) = cached f k d').
Proof.
  induction pins as [|pin pins IH]; intros Hin d Hr Hbytes.
  - exists d. split; [reflexivity|]. split; [exact Hr|]. split.
    + intros f k _. cbn [mask fold_right]. symmetry. apply Z.lor_0_r.
    + intros f k _ [Hs | (p & [] & _)]. exact Hs.
  - destruct (bring_up_pin_echo pin d Hr (Hin pin (or_introl eq_refl)) Hbytes)
      as (d1 & E1 & Hr1 & Hb1 & C1 & S1).
    destruct (IH (fun q Hq => Hin q (or_intror Hq)) d1 Hr1 Hb1)
      as (d' & E & Hr' & C & S).
    exists d'. split.
    { cbn [for_each]. unfold bind at 1. rewrite E1. exact E. }
    split; [exact Hr'|]. split.
    + intros f k Hf. rewrite C, C1, mask_cons by assumption.
      destruct (Bank_eqb (bank pin) k); rewrite ?Z.lor_assoc; reflexivity.
    + intros f k Hf Hs. apply S; [exact Hf|].
      destruct Hs as [Hs | (p & [-> | Hp] & Hk)].
      * left. apply S1; [exact Hf | left; exact Hs].
      * left. apply S1; [exact Hf | right; symmetry; exact Hk].
      * right. exists p. split; assumption.
Qed.

(** X12. Once [_spimode] has been assigned, over an echoing transport, the
    lock being free and the four cached direction and pull-up bytes being
    bytes (0 to 255): [open] returns and leaves on the device what it
    leaves in the cache: the four direction and pull-up registers hold the
    cached bytes, bank B's with bit 7 as it was cached before [open],
    whatever the registers held. *)
Theorem open_writes_the_cache_to_the_device :
  forall d,
    lock d = Some Unlocked ->
    _spimode d = Some sm ->
    (forall f k, f <> Data -> is_byte (cached f k d)) ->
    exists d',
      open d = (Ok tt, d') /\
      (forall f k, f <> Data ->
         stored (_spi d') (register f k) = cached f k d') /\
      (forall f, f <> Data ->
         cached f BankA d' = Z.lor (cached f BankA d) 0xFF /\
         cached f BankB d' = Z.lor (cached f BankB d) 0x7F).
Proof.
  intros d Hl Hsm Hbytes. unfold open, _setupGPIO. run.
  match goal with
  | |- context [_writeRegister _ _ ?s] => set (d0 := s)
  end.
  assert (Hr0 : ready sm d0)
    by (split; [reflexivity | split; [exact Hl | exact Hsm]]).
  destruct (_writeRegister_echo stored echo MCP23S17_IOCON IOCON_INIT d0 Hr0)
    as (b0 & E0 & _); [unfold is_byte, IOCON_INIT; lia|].
  rewrite E0.
  destruct (bring_up_pins_echo (range 0 15) range_0_15_pins (set_spi b0 d0))
    as (d' & E & _ & C & S).
  { apply ready_set_spi, Hr0. }
  { intros f k Hf. rewrite cached_set_spi.
    replace (cached f k d0) with (cached f k d) by (destruct f, k; reflexivity).
    apply Hbytes, Hf. }
  exists d'. split; [exact E|]. split.
  - intros f k Hf. apply S; [exact Hf|]. right.
    destruct k; [exists 0 | exists 8]; split; try reflexivity;
      cbv [range seq map Z.to_nat Z.sub Z.opp Z.add Pos.to_nat Pos.iter_op
           Nat.add Z.of_nat Pos.of_succ_nat Pos.succ In]; tauto.
  - intros f Hf. rewrite !C by assumption. rewrite !cached_set_spi.
    replace (cached f BankA d0) with (cached f BankA d)
      by (destruct f; reflexivity).
    replace (cached f BankB d0) with (cached f BankB d)
      by (destruct f; reflexivity).
    split; reflexivity.
Qed.

End OpenOnTheDevice.

(** ** The lock *)

Section LockDiscipline.
Import MCP23S17.
Context {B : Type} `{SpiDev B}.
Implicit Types d : handle B.

Lemma rl_ret {A} (a : A) : releases_lock (ret a : M (handle B) A).
Proof. intros d Hl. split; [exact Hl | discriminate]. Qed.

Lemma rl_raise {A} e : releases_lock (raise e : M (handle B) A).
Proof. intros d Hl. split; [exact Hl | discriminate]. Qed.

Lemma rl_gets {A} (f : handle B -> A) : releases_lock (gets f).
Proof. intros d Hl. split; [exact Hl | discriminate]. Qed.

Lemma rl_modify (f : handle B -> handle B) :
  (forall d, lock (f d) = lock d) -> releases_lock (modify f).
Proof. intros Hf d Hl. split; [cbn; rewrite Hf; exact Hl | discriminate]. Qed.

Lemma rl_assert (c : bool) : releases_lock (assert c : M (handle B) unit).
Proof. destruct c; [apply rl_ret | apply rl_raise]. Qed.

Lemma rl_lshift (a n : Z) : releases_lock (lshift a n : M (handle B) Z).
Proof. unfold lshift. destruct (n <? 0); [apply rl_raise | apply rl_ret]. Qed.

Lemma rl_bind {A C} (m : M (handle B) A) (k : A -> M (handle B) C) :
  releases_lock m -> (forall a, releases_lock (k a)) ->
  releases_lock (bind m k).
Proof.
  intros Hm Hk d Hl. unfold bind. destruct (Hm d Hl) as [H1 H2].
  destruct (m d) as [[a|e|] d1]; simpl in *.
  - apply Hk, H1.
  - split; [assumption | discriminate].
  - contradiction H2. reflexivity.
Qed.

Lemma rl_for_each (pins : list Z) (body : Z -> M (handle B) unit) :
  (forall pin, releases_lock (body pin)) ->
  releases_lock (for_each pins body).
Proof.
  intros Hb. induction pins as [|pin pins IH]; cbn [for_each].
  - apply rl_ret.
  - apply rl_bind; [apply Hb | intros _; exact IH].
Qed.

(** The decorated function: its body does not wait on the lock, and the
    lock it took is given back when the body returns and when it raises. *)
Lemma rl_locked {A} (body : M (handle B) A) :
  (forall d0, fst (body d0) <> Blocked) ->
  releases_lock (locked body).
Proof.
  intros Hbody d Hl. unfold locked, bind, gets.
  destruct (isInitialized d); cbv beta iota delta [negb];
    [|split; [exact Hl | cbn; discriminate]].
  unfold with_lock. rewrite Hl.
  pose proof (Hbody (set_lock (Some Locked) d)) as Hr.
  destruct (body (set_lock (Some Locked) d)) as [[a|e|] d1];
    cbn [fst snd ret] in *;
    [split; [reflexivity | discriminate] ..|].
  contradiction Hr. reflexivity.
Qed.

Lemma rl__writeRegister register value :
  releases_lock (_writeRegister register value).
Proof.
  unfold _writeRegister. apply rl_locked. intros d0.
  rewrite write_body_run.
  destruct (_spimode d0); [|discriminate].
  destruct (transact _ _ _) as [[resp|code] b]; discriminate.
Qed.

Lemma rl__readRegister register : releases_lock (_readRegister register).
Proof.
  unfold _readRegister. apply rl_locked. intros d0.
  rewrite read_body_run.
  destruct (_spimode d0); [|discriminate].
  destruct (transact _ _ _) as [[resp|code] b];
    [destruct (nth_error resp 2)|]; discriminate.
Qed.

End LockDiscipline.

Ltac rl_step :=
  first
    [ apply rl__writeRegister
    | apply rl__readRegister
    | apply rl_lshift
    | apply rl_ret
    | apply rl_raise
    | apply rl_gets
    | apply rl_assert
    | apply rl_modify; intros ?; reflexivity
    | apply rl_bind; [|intros ?]
    | match goal with
      | |- releases_lock (if ?c then _ else _) => destruct c
      | |- releases_lock (match ?x with _ => _ end) => destruct x
      end ].

Section LockClaims.
Import MCP23S17.
Context {B : Type} `{SpiDev B}.
Implicit Types d : handle B.

Lemma rl_perform (o : operation) : releases_lock (perform (B := B) o).
Proof.
  destruct o; unfold perform, setDirection, setPullupMode, digitalRead,
    digitalWrite, writeGPIO, readGPIO, _readRegisterWord,
    _writeRegisterWord; repeat rl_step.
Qed.

Lemma rl_open : releases_lock (open (B := B)).
Proof.
  unfold open, _setupGPIO.
  do 3 (apply rl_bind; [solve [repeat rl_step] | intros ?]).
  apply rl_for_each. intros pin.
  unfold setDirection, setPullupMode. repeat rl_step.
Qed.

(** X13. Every operation, [open] included, that starts with the lock free
    ends with the lock free, when it returns and when it raises, and never
    waits on the lock it holds. *)
Theorem operations_release_the_lock :
  forall d (o : operation),
    lock d = Some Unlocked ->
    (lock (snd (perform o d)) = Some Unlocked /\
     fst (perform o d) <> Blocked) /\
    (lock (snd (open d)) = Some Unlocked /\ fst (open d) <> Blocked).
Proof.
  intros d o Hl. split; [apply rl_perform | apply rl_open]; exact Hl.
Qed.

(** X14. On a handle built without a lock (the constructor's default) a
    register transaction raises at the [with] statement, past the check of
    initialization and before the bus is used: [open] fails, the handle is
    left initialized, the bus and the cached bytes untouched. *)
Theorem open_without_a_lock :
  forall d,
    lock d = None ->
    exists e d',
      open d = (Raise e, d') /\
      e <> NotInitialized /\
      isInitialized d' = true /\
      _spi d' = _spi d /\
      forall f k, cached f k d' = cached f k d.
Proof.
  intros d Hl. unfold open, _setupGPIO. run.
  unfold _writeRegister, locked, with_lock. run.
  cbn [isInitialized set_isInitialized lock set_int_pins set_reset_pin].
  rewrite Hl. eexists; eexists. split; [reflexivity|].
  split; [discriminate|]. split; [reflexivity|]. split; [reflexivity|].
  intros f k; destruct f, k; reflexivity.
Qed.

End LockClaims.

(** ** Closing the transport *)

Section OnlyCloseCloses.
Import MCP23S17.
Context {B : Type} `{SpiDev B}.
Implicit Types d : handle (Recorder B).

Lemma bo_nothing {A} (m : M (handle (Recorder B)) A) :
  (forall d, _spi (snd (m d)) = _spi d) -> bus_only m.
Proof.
  intros Hm d. exists []. rewrite Hm, app_nil_r. split; [reflexivity|].
  intros [].
Qed.

Lemma bo_ret {A} (a : A) : bus_only (ret a : M (handle (Recorder B)) A).
Proof. apply bo_nothing. reflexivity. Qed.

Lemma bo_raise {A} e : bus_only (raise e : M (handle (Recorder B)) A).
Proof. apply bo_nothing. reflexivity. Qed.

Lemma bo_gets {A} (f : handle (Recorder B) -> A) : bus_only (gets f).
Proof. apply bo_nothing. reflexivity. Qed.

Lemma bo_modify (f : handle (Recorder B) -> handle (Recorder B)) :
  (forall d, _spi (f d) = _spi d) -> bus_only (modify f).
Proof. intros Hf. apply bo_nothing. exact Hf. Qed.

Lemma bo_assert (c : bool) :
  bus_only (assert c : M (handle (Recorder B)) unit).
Proof. destruct c; [apply bo_ret | apply bo_raise]. Qed.

Lemma bo_lshift (a n : Z) :
  bus_only (lshift a n : M (handle (Recorder B)) Z).
Proof. unfold lshift. destruct (n <? 0); [apply bo_raise | apply bo_ret]. Qed.

Lemma bo_bind {A C} (m : M (handle (Recorder B)) A)
    (k : A -> M (handle (Recorder B)) C) :
  bus_only m -> (forall a, bus_only (k a)) -> bus_only (bind m k).
Proof.
  intros Hm Hk d. unfold bind. destruct (Hm d) as (l1 & E1 & N1).
  destruct (m d) as [[a|e|] d1]; cbn [fst snd] in *.
  - destruct (Hk a d1) as (l2 & E2 & N2). exists (l1 ++ l2).
    rewrite E2, E1, app_assoc. split; [reflexivity|].
    intros Hin. apply in_app_or in Hin. tauto.
  - exists l1. split; assumption.
  - exists l1. split; assumption.
Qed.

Lemma bo_for_each (pins : list Z)
    (body : Z -> M (handle (Recorder B)) unit) :
  (forall pin, bus_only (body pin)) -> bus_only (for_each pins body).
Proof.
  intros Hb. induction pins as [|pin pins IH]; cbn [for_each].
  - apply bo_ret.
  - apply bo_bind; [apply Hb | intros _; exact IH].
Qed.

Lemma transact_no_close mode frame (r : Recorder B) :
  exists added,
    calls (snd (transact mode frame r)) = calls r ++ added /\
    ~ In Close added.
Proof.
  rewrite transact_recorded. eexists. split; [reflexivity|].
  destruct (spi_mode (rec_inner r) =? mode); cbn [In].
  - intros [E | []]. discriminate.
  - destruct (fst (spi_xfer2 [0] (spi_set_mode mode (rec_inner r))));
      cbn [In]; intuition discriminate.
Qed.

(** The decorated function: its body stops before the bus is used, or
    carries one register transaction out. *)
Lemma bo_locked {A} (body : M (handle (Recorder B)) A) :
  (forall d0,
      (exists r, body d0 = (r, d0)) \/
      exists r mode frame,
        body d0 = (r, set_spi (snd (transact mode frame (_spi d0))) d0)) ->
  bus_only (locked body).
Proof.
  intros Hbody d. unfold locked, bind, gets.
  destruct (isInitialized d); cbv beta iota delta [negb];
    [|exists []; rewrite app_nil_r; split; [reflexivity | intros []]].
  unfold with_lock. destruct (lock d) as [[|]|];
    try (exists []; rewrite app_nil_r; split; [reflexivity | intros []]).
  destruct (Hbody (set_lock (Some Locked) d))
    as [(r & E) | (r & mode & frame & E)]; rewrite E.
  - exists []. rewrite app_nil_r. split; [|intros []].
    destruct r as [a|e|]; reflexivity.
  - change (_spi (set_lock (Some Locked) d)) with (_spi d).
    destruct (transact_no_close mode frame (_spi d)) as (added & Ea & Ha).
    exists added. split; [|exact Ha].
    destruct r as [a|e|]; exact Ea.
Qed.

Lemma bo__writeRegister register value :
  bus_only (_writeRegister (B := Recorder B) register value).
Proof.
  unfold _writeRegister. apply bo_locked. intros d0.
  rewrite write_body_run.
  destruct (_spimode d0); [right | left; eexists; reflexivity].
  destruct (transact _ _ _) as [[resp|code] b] eqn:E;
    eexists; eexists; eexists; rewrite E; reflexivity.
Qed.

Lemma bo__readRegister register :
  bus_only (_readRegister (B := Recorder B) register).
Proof.
  unfold _readRegister. apply bo_locked. intros d0.
  rewrite read_body_run.
  destruct (_spimode d0); [right | left; eexists; reflexivity].
  destruct (transact _ _ _) as [[resp|code] b] eqn:E;
    [destruct (nth_error resp 2)|];
    eexists; eexists; eexists; rewrite E; reflexivity.
Qed.

End OnlyCloseCloses.

Ltac bo_step :=
  first
    [ apply bo__writeRegister
    | apply bo__readRegister
    | apply bo_lshift
    | apply bo_ret
    | apply bo_raise
    | apply bo_gets
    | apply bo_assert
    | apply bo_modify; intros ?; reflexivity
    | apply bo_bind; [|intros ?]
    | match goal with
      | |- bus_only (if ?c then _ else _) => destruct c
      | |- bus_only (match ?x with _ => _ end) => destruct x
      end ].

Section CloseClaims.
Import MCP23S17.
Context {B : Type} `{SpiDev B}.
Implicit Types d : handle (Recorder B).

Lemma bo_perform (o : operation) : bus_only (perform (B := Recorder B) o).
Proof.
  destruct o; unfold perform, setDirection, setPullupMode, digitalRead,
    digitalWrite, writeGPIO, readGPIO, _readRegisterWord,
    _writeRegisterWord; repeat bo_step.
Qed.

Lemma bo_open : bus_only (open (B := Recorder B)).
Proof.
  unfold open, _setupGPIO.
  do 3 (apply bo_bind; [solve [repeat bo_step] | intros ?]).
  apply bo_for_each. intros pin.
  unfold setDirection, setPullupMode. repeat bo_step.
Qed.

(** X15. Only [close] closes the transport: whatever their arguments and
    outcome, the operations and [open] add calls to the bus none of which
    is [close], and [close] adds that one call. *)
Theorem only_close_closes_the_transport :
  forall d (o : operation),
    (exists added,
       calls (_spi (snd (perform o d))) = calls (_spi d) ++ added /\
       ~ In Close added) /\
    (exists added,
       calls (_spi (snd (open d))) = calls (_spi d) ++ added /\
       ~ In Close added) /\
    calls (_spi (snd (close d))) = calls (_spi d) ++ [Close].
Proof.
  intros d o. split; [apply bo_perform|]. split; [apply bo_open|].
  reflexivity.
Qed.

(** X16. [with mcp: body].  When [open] has returned, [close] is called
    whether the body returns or raises: the outcome is the body's, the
    handle ends uninitialized and the last call on the bus is [close].
    When [open] raises, [close] is not called: the handle stays
    initialized and no call on the bus is [close]. *)
Theorem scoped_use :
  forall {A} (body : M (handle (Recorder B)) A) d,
    (forall d1 d2 r,
       __enter__ d = (Ok tt, d1) -> body d1 = (r, d2) -> r <> Blocked ->
       exists d3,
         scoped body d = (r, d3) /\
         isInitialized d3 = false /\
         calls (_spi d3) = calls (_spi d2) ++ [Close]) /\
    (forall e d1,
       __enter__ d = (Raise e, d1) ->
       scoped body d = (Raise e, d1) /\
       isInitialized d1 = true /\
       exists added,
         calls (_spi d1) = calls (_spi d) ++ added /\ ~ In Close added).
Proof.
  intros A body d. split.
  - intros d1 d2 r E1 E2 Hr. unfold scoped. rewrite E1, E2.
    unfold __exit__. rewrite close_run.
    eexists. destruct r as [a|e|]; [| |contradiction Hr; reflexivity];
      (split; [reflexivity|]); split; reflexivity.
  - intros e d1 E1. unfold scoped. rewrite E1. split; [reflexivity|].
    unfold __enter__ in E1. split.
    + pose proof (open_leaves_initialized d) as Hi. rewrite E1 in Hi.
      exact Hi.
    + pose proof (bo_open d) as Hb. rewrite E1 in Hb. exact Hb.
Qed.

End CloseClaims.

(** ** Words on the bus *)

Section Words.
Import MCP23S17.
Context {B : Type} `{SpiDev B}.

Lemma transact_mode {C} `{SpiDev C} mode frame (b : C) :
  KeepsMode (B := C) -> spi_mode (snd (transact mode frame b)) = mode.
Proof.
  intros [Hset Hkeep]. unfold transact.
  destruct (Z.eqb_spec (spi_mode b) mode) as [E | _].
  - rewrite Hkeep. exact E.
  - pose proof (Hkeep [0] (spi_set_mode mode b)) as Hdummy.
    destruct (spi_xfer2 [0] (spi_set_mode mode b)) as [[resp|code] b0];
      cbn [snd] in *.
    + rewrite Hkeep, Hdummy. apply Hset.
    + rewrite Hdummy. apply Hset.
Qed.

Lemma transact_recorded_reliable mode frame (r : Recorder B) :
  Reliable (B := B) ->
  calls (snd (transact mode frame r)) =
    calls r ++ settling mode r ++ [Xfer2 frame].
Proof.
  intros HR. rewrite transact_recorded. unfold settling.
  change (spi_mode r) with (spi_mode (rec_inner r)).
  destruct (spi_mode (rec_inner r) =? mode); [reflexivity|].
  destruct (HR [0] (spi_set_mode mode (rec_inner r))) as (resp & b & E & _).
  rewrite E. reflexivity.
Qed.

Lemma Recorder_keeps_mode :
  KeepsMode (B := B) -> KeepsMode (B := Recorder B).
Proof.
  intros [Hset Hkeep]. split.
  - intros m r. apply Hset.
  - intros frame r. cbn [spi_mode spi_xfer2 Recorder_SpiDev].
    pose proof (Hkeep frame (rec_inner r)) as Hk.
    destruct (spi_xfer2 frame (rec_inner r)) as [rep b]. exact Hk.
Qed.

(** X17. Once [_spimode] has been assigned the mode [sm], on an
    initialized handle whose lock is free, over a reliable transport that
    keeps its mode: a word operation is two byte transactions at
    [register] and [register + 1], the low byte first, and the bus sees
    the mode settled once at most, then the two frames. *)
Theorem word_operations_on_the_bus :
  forall (d : handle (Recorder B)) sm register data,
    Reliable (B := B) ->
    KeepsMode (B := B) ->
    isInitialized d = true ->
    lock d = Some Unlocked ->
    _spimode d = Some sm ->
    calls (_spi (snd (_writeRegisterWord register data d))) =
      calls (_spi d) ++ settling sm (_spi d) ++
        [Xfer2 [write_command d; register; Z.land data 0xFF];
         Xfer2 [write_command d; register + 1; Z.shiftr data 8]] /\
    calls (_spi (snd (_readRegisterWord register d))) =
      calls (_spi d) ++ settling sm (_spi d) ++
        [Xfer2 [read_command d; register; 0];
         Xfer2 [read_command d; register + 1; 0]].
Proof.
  intros d sm register data HR HK Hi Hl Hsm.
  pose proof (Recorder_reliable HR) as HRR.
  pose proof (Recorder_keeps_mode HK) as HKR.
  assert (Hr : ready sm d) by (repeat split; assumption).
  assert (Hsettled : forall frame,
            settling sm (snd (transact sm frame (_spi d))) = []).
  { intros frame. unfold settling.
    rewrite (transact_mode _ _ _ HKR), Z.eqb_refl. reflexivity. }
  split.
  - unfold _writeRegisterWord, bind, gets, assert. rewrite Hi.
    cbv beta iota delta [ret].
    pose proof (_writeRegister_bus sm register (Z.land data 255) d Hi Hl Hsm)
      as E1.
    destruct (_writeRegister_ok register (Z.land data 255) d HRR Hr)
      as (b1 & R1).
    rewrite R1 in E1 |- *. cbn [snd] in E1.
    change (_spi (set_spi b1 d)) with b1 in E1.
    pose proof (_writeRegister_bus sm (register + 1) (Z.shiftr data 8)
                  (set_spi b1 d) Hi Hl Hsm) as E2.
    change (write_command (set_spi b1 d)) with (write_command d) in E2.
    change (_spi (set_spi b1 d)) with b1 in E2.
    cbv beta iota. rewrite E2, E1, !transact_recorded_reliable, Hsettled by assumption.
    rewrite <- !app_assoc. reflexivity.
  - unfold _readRegisterWord, bind, gets, assert. rewrite Hi.
    cbv beta iota delta [ret].
    pose proof (_readRegister_bus sm register d Hi Hl Hsm) as E1.
    destruct (_readRegister_ok register d HRR Hr)
      as (v1 & b1 & R1).
    rewrite R1 in E1 |- *. cbn [snd] in E1.
    change (_spi (set_spi b1 d)) with b1 in E1.
    pose proof (_readRegister_bus sm (register + 1) (set_spi b1 d) Hi Hl Hsm)
      as E2.
    change (read_command (set_spi b1 d)) with (read_command d) in E2.
    change (_spi (set_spi b1 d)) with b1 in E2.
    destruct (_readRegister_ok (register + 1) (set_spi b1 d) HRR
                (ready_set_spi d b1 Hr)) as (v2 & b2 & R2).
    cbv beta iota. rewrite R2 in E2 |- *. cbn [snd] in E2 |- *.
    change (_spi (set_spi b2 (set_spi b1 d))) with b2 in *.
    rewrite E2, E1, !transact_recorded_reliable, Hsettled by assumption.
    rewrite <- !app_assoc. reflexivity.
Qed.

End Words.

Section WordFailure.
Import MCP23S17.
Context {B : Type} `{SpiDev B}.
Implicit Types d : handle B.

(** X18. Once [_spimode] has been assigned: when the low-byte
    transaction of a word write raises, the word write raises the same and
    the bus is left as that transaction left it: the high byte is not
    sent.  When the high-byte transaction raises, the low byte has been
    exchanged and nothing undoes it. *)
Theorem word_write_stops_at_the_failure :
  forall d sm register data,
    isInitialized d = true ->
    lock d = Some Unlocked ->
    _spimode d = Some sm ->
    (forall code b0,
       transact sm
         [write_command d; register; Z.land data 0xFF] (_spi d)
         = (Fault code, b0) ->
       _writeRegisterWord register data d
         = (Raise (TransportError code), set_spi b0 d)) /\
    (forall resp b0 code b1,
       transact sm
         [write_command d; register; Z.land data 0xFF] (_spi d)
         = (Bytes resp, b0) ->
       transact sm
         [write_command d; register + 1; Z.shiftr data 8] b0
         = (Fault code, b1) ->
       _writeRegisterWord register data d
         = (Raise (TransportError code), set_spi b1 d)).
Proof.
  intros d sm register data Hi Hl Hsm. split.
  - intros code b0 E. unfold _writeRegisterWord. run. rewrite Hi. run.
    rewrite (_writeRegister_run _ _ d Hi Hl Hsm), E. reflexivity.
  - intros resp b0 code b1 E0 E1.
    unfold _writeRegisterWord. run. rewrite Hi. run.
    rewrite (_writeRegister_run _ _ d Hi Hl Hsm), E0.
    rewrite (_writeRegister_run (sm := sm) _ _ (set_spi b0 d) Hi Hl Hsm).
    change (write_command (set_spi b0 d)) with (write_command d).
    change (_spi (set_spi b0 d)) with b0.
    rewrite E1. reflexivity.
Qed.

Lemma command_bytes id :
  0 <= id <= 7 ->
  Z.lor MCP23S17_CMD_WRITE (Z.shiftl id 1) = 0x40 + 2 * id /\
  Z.lor MCP23S17_CMD_READ (Z.shiftl id 1) = 0x41 + 2 * id.
Proof.
  intros Hid.
  assert (Hc : id = 0 \/ id = 1 \/ id = 2 \/ id = 3 \/ id = 4 \/ id = 5 \/
               id = 6 \/ id = 7) by lia.
  repeat destruct Hc as [-> | Hc]; try subst id; split; reflexivity.
Qed.

(** X19. The command byte.  Once [_spimode] has been assigned the mode
    [sm], on an initialized handle whose lock is free, for a device
    address from 0 to 7: a register write is the transaction of the frame
    [0x40 + 2 * address, register, value], returning when the transport
    answers and raising its error when it faults; a register read is the
    transaction of the frame [0x41 + 2 * address, register, 0], whose
    third response byte is the value read, [IndexError] being raised when
    the response has no third byte. *)
Theorem register_frames :
  forall d sm register value,
    isInitialized d = true ->
    lock d = Some Unlocked ->
    _spimode d = Some sm ->
    0 <= device_id d <= 7 ->
    _writeRegister register value d =
      match transact sm
              [0x40 + 2 * device_id d; register; value] (_spi d) with
      | (Bytes _, b) => (Ok tt, set_spi b d)
      | (Fault code, b) => (Raise (TransportError code), set_spi b d)
      end /\
    _readRegister register d =
      match transact sm
              [0x41 + 2 * device_id d; register; 0] (_spi d) with
      | (Bytes resp, b) =>
          match nth_error resp 2 with
          | Some v => (Ok v, set_spi b d)
          | None => (Raise IndexError, set_spi b d)
          end
      | (Fault code, b) => (Raise (TransportError code), set_spi b d)
      end.
Proof.
  intros d sm register value Hi Hl Hsm Hid.
  destruct (command_bytes (device_id d) Hid) as [Hw Hr].
  rewrite (_writeRegister_run _ _ d Hi Hl Hsm),
          (_readRegister_run _ d Hi Hl Hsm).
  unfold write_command, read_command. rewrite Hw, Hr. split; reflexivity.
Qed.

End WordFailure.

(** ** The auxiliary pins *)

Section AuxiliaryPins.
Import MCP23S17.
Context {B : Type} `{SpiDev B}.
Implicit Types d : handle B.

Lemma kp_bind {A C} (m : M (handle B) A) (k : A -> M (handle B) C) :
  keeps_pins m -> (forall a, keeps_pins (k a)) -> keeps_pins (bind m k).
Proof.
  intros Hm Hk d. unfold bind. destruct (Hm d) as [H1 H2].
  destruct (m d) as [[a|e|] d1]; cbn [fst snd] in *;
    try (split; assumption).
  destruct (Hk a d1) as [H3 H4]. split; congruence.
Qed.

Lemma kp_for_each (pins : list Z) (body : Z -> M (handle B) unit) :
  (forall pin, keeps_pins (body pin)) -> keeps_pins (for_each pins body).
Proof.
  intros Hb. induction pins as [|pin pins IH]; cbn [for_each].
  - intros d. split; reflexivity.
  - apply kp_bind; [apply Hb | intros _; exact IH].
Qed.

Lemma kp__writeRegister register value :
  keeps_pins (_writeRegister (B := B) register value).
Proof.
  intros d. pose proof (_writeRegister_agree register value d) as Ha.
  destruct Ha as (_&_&_&_&_&_&_&Hr&Hp&_). split; assumption.
Qed.

Lemma kp_mutator f pin mode : keeps_pins (mutator (B := B) f pin mode).
Proof.
  intros d.
  destruct (mutator_cases f pin mode d) as (d0 & Ha & [[_ [v E]] | [_ E]]);
    rewrite E; destruct Ha as (_&_&_&_&_&_&_&Hr&Hp&_).
  - destruct f, (bank pin); split; assumption.
  - split; assumption.
Qed.

(** X20. [open] configures the auxiliary lines before it uses the bus, and
    they stay so whatever becomes of the bring-up: the reset line, when
    there is one, is an output driven high; each interrupt line that is
    there is an input with a callback attached to the edge [int_level]. *)
Theorem open_sets_up_the_auxiliary_pins :
  forall d intA intB,
    int_pins d = [intA; intB] ->
    reset_pin (snd (open d)) =
      option_map (fun p => Pin_set_value true (Pin_set_output p))
        (reset_pin d) /\
    int_pins (snd (open d)) =
      [option_map (fun p => Pin_on_interrupt (int_level d) (Pin_set_input p))
         intA;
       option_map (fun p => Pin_on_interrupt (int_level d) (Pin_set_input p))
         intB].
Proof.
  intros d intA intB Hpins.
  set (d0 := set_isInitialized true
               (set_int_pins
                  (setup_int_pins [65; 66] (int_pins d) (int_level d))
                  (set_reset_pin
                     (option_map
                        (fun p => Pin_set_value true (Pin_set_output p))
                        (reset_pin d)) d))).
  set (rest := _writeRegister MCP23S17_IOCON IOCON_INIT ;;
               for_each (range 0 15) (fun index =>
                 setDirection index DIR_INPUT ;;
                 setPullupMode index PULLUP_ENABLED)).
  assert (E : open d = rest d0) by reflexivity.
  assert (Hk : keeps_pins rest).
  { apply kp_bind; [apply kp__writeRegister | intros _].
    apply kp_for_each. intros pin.
    apply kp_bind; [apply (kp_mutator Direction) | intros _].
    apply (kp_mutator Pullup). }
  destruct (Hk d0) as [Hr Hp]. rewrite E, Hr, Hp. subst d0.
  cbn [reset_pin int_pins set_isInitialized set_int_pins set_reset_pin
       int_level].
  rewrite Hpins. split; reflexivity.
Qed.

End AuxiliaryPins.

(** ** The port written, the handle reopened *)

Section PortAndReopen.
Import MCP23S17.
Context {B : Type} `{SpiDev B}.
Context {sm : Z}.
Implicit Types d : handle B.

(** X21. [writeGPIO] masks the low byte and not the high one: on an
    initialized handle the byte it caches for bank A is always a byte, and
    the one it caches for bank B is a byte exactly when the data is a
    16-bit value. *)
Theorem writeGPIO_high_byte_is_not_masked :
  forall d data,
    isInitialized d = true ->
    is_byte (_GPIOA (snd (writeGPIO data d))) /\
    (is_byte (_GPIOB (snd (writeGPIO data d))) <-> 0 <= data < 65536).
Proof.
  intros d data Hi.
  destruct (writeGPIO_caches_first data d Hi) as [Ea Eb].
  rewrite Ea, Eb. split; [apply low_byte_range|].
  unfold is_byte. rewrite Z.shiftr_div_pow2 by lia. change (2 ^ 8) with 256.
  split.
  - intros [Hlo Hhi]. split.
    + destruct (Z.le_gt_cases 0 data) as [Hd | Hd]; [exact Hd|].
      exfalso. assert (data / 256 < 0) by (apply Z.div_lt_upper_bound; lia).
      lia.
    + destruct (Z.lt_ge_cases data 65536) as [Hd | Hd]; [exact Hd|].
      exfalso. assert (256 <= data / 256)
        by (apply Z.div_le_lower_bound; lia).
      lia.
  - intros Hd. split.
    + apply Z.div_pos; lia.
    + apply Z.div_lt_upper_bound; lia.
Qed.

(** X22. Reopening.  Once [_spimode] has been assigned, over a reliable
    transport, the lock being free: [open] returns, [open], [close],
    [open] again returns, and leaves the handle initialized with the six
    cached bytes that the first [open] left. *)
Theorem reopen_keeps_the_cache :
  forall d,
    Reliable ->
    lock d = Some Unlocked ->
    _spimode d = Some sm ->
    exists d1 d3,
      open d = (Ok tt, d1) /\
      (open ;; close ;; open) d = (Ok tt, d3) /\
      isInitialized d3 = true /\
      forall f k, cached f k d3 = cached f k d1.
Proof.
  intros d HR Hl Hsm.
  destruct (open_ok (sm := sm) d HR Hl Hsm) as (d1 & E1 & Hr1 & C1).
  set (d2 := set_isInitialized false (set_spi (spi_close (_spi d1)) d1)).
  assert (Hl2 : lock d2 = Some Unlocked) by apply Hr1.
  assert (Hsm2 : _spimode d2 = Some sm) by apply Hr1.
  destruct (open_ok (sm := sm) d2 HR Hl2 Hsm2) as (d3 & E3 & Hr3 & C3).
  exists d1, d3. split; [exact E1|]. split.
  - unfold bind at 1. rewrite E1. unfold bind at 1. rewrite close_run.
    exact E3.
  - split; [apply Hr3|]. intros f k.
    assert (C2 : forall g, cached g k d2 = cached g k d1)
      by (intros g; destruct g, k; reflexivity).
    destruct (C1 k) as (Hd1 & Hu1 & Hg1), (C3 k) as (Hd3 & Hu3 & Hg3).
    rewrite !C2 in *.
    assert (Hidem : forall a m, Z.lor (Z.lor a m) m = Z.lor a m)
      by (intros a m; rewrite <- Z.lor_assoc, Z.lor_diag; reflexivity).
    destruct f.
    + rewrite Hd3, Hd1. apply Hidem.
    + rewrite Hu3, Hu1. apply Hidem.
    + exact Hg3.
Qed.

End PortAndReopen.

(** ** The attribute no method assigns *)

Section NoAssignment.
Import MCP23S17.
Context {B : Type} `{SpiDev B}.
Implicit Types d : handle B.

Lemma ks_ret {A} (a : A) : keeps_spimode (ret a : M (handle B) A).
Proof. intros d. reflexivity. Qed.

Lemma ks_raise {A} e : keeps_spimode (raise e : M (handle B) A).
Proof. intros d. reflexivity. Qed.

Lemma ks_gets {A} (f : handle B -> A) : keeps_spimode (gets f).
Proof. intros d. reflexivity. Qed.

Lemma ks_modify (f : handle B -> handle B) :
  (forall d, _spimode (f d) = _spimode d) -> keeps_spimode (modify f).
Proof. intros Hf d. apply Hf. Qed.

Lemma ks_assert (c : bool) : keeps_spimode (assert c : M (handle B) unit).
Proof. destruct c; [apply ks_ret | apply ks_raise]. Qed.

Lemma ks_lshift (a n : Z) : keeps_spimode (lshift a n : M (handle B) Z).
Proof. unfold lshift. destruct (n <? 0); [apply ks_raise | apply ks_ret]. Qed.

Lemma ks_bind {A C} (m : M (handle B) A) (k : A -> M (handle B) C) :
  keeps_spimode m -> (forall a, keeps_spimode (k a)) ->
  keeps_spimode (bind m k).
Proof.
  intros Hm Hk d. unfold bind. pose proof (Hm d) as H1.
  destruct (m d) as [[a|e|] d1]; cbn [fst snd] in *; try exact H1.
  rewrite (Hk a d1). exact H1.
Qed.

Lemma ks_for_each (pins : list Z) (body : Z -> M (handle B) unit) :
  (forall pin, keeps_spimode (body pin)) ->
  keeps_spimode (for_each pins body).
Proof.
  intros Hb. induction pins as [|pin pins IH]; cbn [for_each].
  - apply ks_ret.
  - apply ks_bind; [apply Hb | intros _; exact IH].
Qed.

Lemma ks__writeRegister register value :
  keeps_spimode (_writeRegister (B := B) register value).
Proof.
  intros d. pose proof (_writeRegister_agree register value d) as Ha.
  destruct Ha as (_&_&_&_&_&_&_&_&_&_&Hm&_). exact Hm.
Qed.

Lemma ks__readRegister register :
  keeps_spimode (_readRegister (B := B) register).
Proof.
  intros d. pose proof (_readRegister_agree register d) as Ha.
  destruct Ha as (_&_&_&_&_&_&_&_&_&_&Hm&_). exact Hm.
Qed.

End NoAssignment.

Ltac ks_step :=
  first
    [ apply ks__writeRegister
    | apply ks__readRegister
    | apply ks_lshift
    | apply ks_ret
    | apply ks_raise
    | apply ks_gets
    | apply ks_assert
    | apply ks_modify; intros ?; reflexivity
    | apply ks_bind; [|intros ?]
    | match goal with
      | |- keeps_spimode (if ?c then _ else _) => destruct c
      | |- keeps_spimode (match ?x with _ => _ end) => destruct x
      end ].

Section NoAssignmentClaims.
Import MCP23S17.
Context {B : Type} `{SpiDev B}.
Implicit Types d : handle B.

Lemma ks_perform (o : operation) : keeps_spimode (perform (B := B) o).
Proof.
  destruct o; unfold perform, setDirection, setPullupMode, digitalRead,
    digitalWrite, writeGPIO, readGPIO, _readRegisterWord,
    _writeRegisterWord; repeat ks_step.
Qed.

Lemma ks_open : keeps_spimode (open (B := B)).
Proof.
  unfold open, _setupGPIO.
  do 3 (apply ks_bind; [solve [repeat ks_step] | intros ?]).
  apply ks_for_each. intros pin.
  unfold setDirection, setPullupMode. repeat ks_step.
Qed.

(** X23. The constructor leaves [_spimode] unassigned whatever its
    arguments, and no method assigns it: after any operation, after
    [open] and after [close], whatever the arguments, the state and the
    outcome, the attribute is what it was. *)
Theorem no_method_assigns_spimode :
  (forall (spi : B) reset intA intB level lk id,
     _spimode (__init__ spi reset intA intB level lk id) = None) /\
  forall d (o : operation),
    _spimode (snd (perform o d)) = _spimode d /\
    _spimode (snd (open d)) = _spimode d /\
    _spimode (snd (close d)) = _spimode d.
Proof.
  split; [reflexivity|]. intros d o.
  split; [apply ks_perform|]. split; [apply ks_open | reflexivity].
Qed.

(** X24. A handle built by the constructor with a free lock and used
    through its methods alone never reaches the bus: [open] raises
    [AttributeError] and leaves the handle initialized with the six cached
    bytes at 0, and every operation with well-formed arguments called
    after it raises [AttributeError] too; the transport is the one the
    constructor was given. *)
Theorem built_handle_never_reaches_the_bus :
  forall (spi : B) reset intA intB level id (o : operation),
    well_formed o ->
    exists d',
      open (__init__ spi reset intA intB level (Some Unlocked) id)
        = (Raise AttributeError, d') /\
      isInitialized d' = true /\
      _spi d' = spi /\
      (forall f k, cached f k d' = 0) /\
      fst (perform o d') = Raise AttributeError /\
      _spi (snd (perform o d')) = spi.
Proof.
  intros spi reset intA intB level id o Hwf.
  destruct (open_unassigned
              (__init__ spi reset intA intB level (Some Unlocked) id)
              eq_refl eq_refl) as (d' & E & Hi & Hl & Hm & Hs & Hc).
  exists d'. split; [exact E|]. split; [exact Hi|]. split; [exact Hs|].
  split; [intros f k; rewrite Hc; destruct f, k; reflexivity|].
  destruct (perform_unassigned o d' Hi Hl Hm Hwf) as [Ef Es].
  split; [exact Ef | rewrite Es; exact Hs].
Qed.

End NoAssignmentClaims.

(** ** The further theorems at work *)

Lemma EchoChip_keeps_mode : KeepsMode (B := EchoChip).
Proof.
  split; [reflexivity|]. intros frame c. cbn [spi_xfer2 EchoChip_SpiDev].
  unfold chip_xfer2.
  destruct frame as [|cmd [|reg [|v [|w rest]]]]; try reflexivity.
  destruct (Z.testbit cmd 0); reflexivity.
Qed.

Lemma digitalRead_witness :
  MCP23S17.isInitialized opened_handle = true /\
  MCP23S17.lock opened_handle = Some Unlocked /\
  MCP23S17._spimode opened_handle = Some 0 /\
  0 <= 3 <= 15 /\
  MCP23S17.digitalRead 3 opened_handle =
    (Ok (if Z.testbit 0 (offset 3)
         then MCP23S17.LEVEL_HIGH else MCP23S17.LEVEL_LOW),
     store Data (bank 3) 0
       (MCP23S17.set_spi
          (snd (transact 0
                  [read_command opened_handle; register Data (bank 3); 0]
                  (MCP23S17._spi opened_handle)))
          opened_handle)).
Proof.
  split; [vm_compute; reflexivity|]. split; [vm_compute; reflexivity|].
  split; [vm_compute; reflexivity|]. split; [lia|].
  apply (digitalRead_returns_the_bit opened_handle 0 3 [0; 0; 0]).
  - vm_compute; reflexivity.
  - vm_compute; reflexivity.
  - vm_compute; reflexivity.
  - lia.
  - vm_compute; reflexivity.
  - vm_compute; reflexivity.
Defined.

Lemma digitalRead_short_witness :
  MCP23S17.isInitialized short_handle = true /\
  MCP23S17.lock short_handle = Some Unlocked /\
  MCP23S17._spimode short_handle = Some 0 /\
  3 < 16 /\
  MCP23S17.digitalRead 3 short_handle
    = (Raise IndexError,
       MCP23S17.set_spi {| short_mode := 0 |} short_handle).
Proof.
  split; [vm_compute; reflexivity|]. split; [vm_compute; reflexivity|].
  split; [vm_compute; reflexivity|]. split; [lia|].
  apply (digitalRead_short_response short_handle 0 3 []).
  - vm_compute; reflexivity.
  - vm_compute; reflexivity.
  - vm_compute; reflexivity.
  - lia.
  - vm_compute; reflexivity.
  - cbn. lia.
Defined.

Lemma one_bit_witness :
  MCP23S17.isInitialized opened_handle = true /\
  MCP23S17.lock opened_handle = Some Unlocked /\
  MCP23S17._spimode opened_handle = Some 0 /\
  0 <= 9 <= 15 /\
  exists d',
    mutator Direction 9 MCP23S17.DIR_OUTPUT opened_handle = (Ok tt, d') /\
    (forall i, 0 <= i ->
       Z.testbit (cached Direction (bank 9) d') i =
         if i =? offset 9 then MCP23S17.DIR_OUTPUT =? setting Direction
         else Z.testbit (cached Direction (bank 9) opened_handle) i) /\
    (forall g k, g <> Direction \/ k <> bank 9 ->
       cached g k d' = cached g k opened_handle).
Proof.
  split; [vm_compute; reflexivity|]. split; [vm_compute; reflexivity|].
  split; [vm_compute; reflexivity|]. split; [lia|].
  apply (bit_mutator_changes_one_bit Direction opened_handle 0 9
           MCP23S17.DIR_OUTPUT EchoChip_reliable).
  - vm_compute; reflexivity.
  - vm_compute; reflexivity.
  - vm_compute; reflexivity.
  - lia.
  - right; reflexivity.
Defined.

Lemma bad_arguments_witness :
  16 <= 16 /\
  mutator Pullup 16 MCP23S17.PULLUP_ENABLED fresh_handle
    = (Raise AssertionError, fresh_handle).
Proof.
  split; [lia|].
  apply (bit_mutator_rejects_bad_arguments Pullup fresh_handle 16
           MCP23S17.PULLUP_ENABLED).
  left. lia.
Defined.


Lemma commute_witness :
  MCP23S17.isInitialized opened_handle = true /\
  MCP23S17.lock opened_handle = Some Unlocked /\
  MCP23S17._spimode opened_handle = Some 0 /\
  (Data <> Data \/ 3 <> 5) /\
  exists d1 d2,
    (mutator Data 3 1 ;; mutator Data 5 1) opened_handle = (Ok tt, d1) /\
    (mutator Data 5 1 ;; mutator Data 3 1) opened_handle = (Ok tt, d2) /\
    forall g k, cached g k d1 = cached g k d2.
Proof.
  split; [vm_compute; reflexivity|]. split; [vm_compute; reflexivity|].
  split; [vm_compute; reflexivity|]. split; [right; discriminate|].
  apply (bit_mutators_commute (sm := 0) Data Data opened_handle 3 1 5 1
           EchoChip_reliable).
  - vm_compute; reflexivity.
  - vm_compute; reflexivity.
  - vm_compute; reflexivity.
  - lia.
  - right; reflexivity.
  - lia.
  - right; reflexivity.
  - right; discriminate.
Defined.

Lemma idempotent_witness :
  MCP23S17.isInitialized opened_handle = true /\
  MCP23S17.lock opened_handle = Some Unlocked /\
  MCP23S17._spimode opened_handle = Some 0 /\
  exists d1 d2,
    mutator Pullup 14 1 opened_handle = (Ok tt, d1) /\
    (mutator Pullup 14 1 ;; mutator Pullup 14 1) opened_handle
      = (Ok tt, d2) /\
    forall g k, cached g k d2 = cached g k d1.
Proof.
  split; [vm_compute; reflexivity|]. split; [vm_compute; reflexivity|].
  split; [vm_compute; reflexivity|].
  apply (bit_mutator_idempotent (sm := 0) Pullup opened_handle 14 1
           EchoChip_reliable).
  - vm_compute; reflexivity.
  - vm_compute; reflexivity.
  - vm_compute; reflexivity.
  - lia.
  - right; reflexivity.
Defined.

Lemma digitalRead_negative_witness :
  MCP23S17.isInitialized opened_handle = true /\
  MCP23S17.lock opened_handle = Some Unlocked /\
  MCP23S17._spimode opened_handle = Some 0 /\
  -1 < 0 /\
  MCP23S17.digitalRead (-1) opened_handle
    = (Raise ValueError,
       MCP23S17.set_GPIOA 0
         (MCP23S17.set_spi
            (snd (transact 0
                    [read_command opened_handle; MCP23S17.MCP23S17_GPIOA; 0]
                    (MCP23S17._spi opened_handle)))
            opened_handle)).
Proof.
  split; [vm_compute; reflexivity|]. split; [vm_compute; reflexivity|].
  split; [vm_compute; reflexivity|]. split; [lia|].
  apply (digitalRead_negative_pin opened_handle 0 (-1) [0; 0; 0]).
  - vm_compute; reflexivity.
  - vm_compute; reflexivity.
  - vm_compute; reflexivity.
  - lia.
  - vm_compute; reflexivity.
  - vm_compute; reflexivity.
Defined.

Lemma readGPIO_witness :
  MCP23S17.isInitialized opened_handle = true /\
  MCP23S17.lock opened_handle = Some Unlocked /\
  MCP23S17._spimode opened_handle = Some 0 /\
  is_byte 0 /\
  fst (MCP23S17.readGPIO opened_handle) = Ok (Z.lor (Z.shiftl 0 8) 0).
Proof.
  split; [vm_compute; reflexivity|]. split; [vm_compute; reflexivity|].
  split; [vm_compute; reflexivity|]. split; [unfold is_byte; lia|].
  rewrite (readGPIO_refreshes_cache opened_handle 0 [0; 0; 0]
             (snd (transact 0
                     [read_command opened_handle; MCP23S17.MCP23S17_GPIOA; 0]
                     (MCP23S17._spi opened_handle)))
             0 [0; 0; 0]
             (snd (transact 0
                     [read_command opened_handle; MCP23S17.MCP23S17_GPIOB; 0]
                     (snd (transact 0
                             [read_command opened_handle;
                              MCP23S17.MCP23S17_GPIOA; 0]
                             (MCP23S17._spi opened_handle)))))
             0).
  - vm_compute; reflexivity.
  - vm_compute; reflexivity.
  - vm_compute; reflexivity.
  - vm_compute; reflexivity.
  - vm_compute; reflexivity.
  - vm_compute; reflexivity.
  - vm_compute; reflexivity.
  - vm_compute; reflexivity.
  - unfold is_byte; lia.
Defined.

Lemma coherent_witness :
  MCP23S17.isInitialized opened_handle = true /\
  MCP23S17.lock opened_handle = Some Unlocked /\
  MCP23S17._spimode opened_handle = Some 0 /\
  is_byte (cached Direction (bank 9) opened_handle) /\
  exists d',
    mutator Direction 9 1 opened_handle = (Ok tt, d') /\
    chip_regs (MCP23S17._spi d') (register Direction (bank 9))
      = cached Direction (bank 9) d' /\
    forall g, coherent chip_regs g opened_handle -> coherent chip_regs g d'.
Proof.
  split; [vm_compute; reflexivity|]. split; [vm_compute; reflexivity|].
  split; [vm_compute; reflexivity|].
  split; [vm_compute; split; [discriminate | reflexivity]|].
  apply (bit_mutator_keeps_cache_coherent (sm := 0) chip_regs EchoChip_echoes
           Direction opened_handle 9 1).
  - vm_compute; reflexivity.
  - vm_compute; reflexivity.
  - vm_compute; reflexivity.
  - lia.
  - right; reflexivity.
  - vm_compute; split; [discriminate | reflexivity].
Defined.

Lemma write_read_pin_witness :
  MCP23S17.isInitialized opened_handle = true /\
  MCP23S17.lock opened_handle = Some Unlocked /\
  MCP23S17._spimode opened_handle = Some 0 /\
  is_byte (cached Data (bank 12) opened_handle) /\
  exists d1 d2,
    MCP23S17.digitalWrite 12 1 opened_handle = (Ok tt, d1) /\
    MCP23S17.digitalRead 12 d1 = (Ok 1, d2) /\
    forall g k, cached g k d2 = cached g k d1.
Proof.
  split; [vm_compute; reflexivity|]. split; [vm_compute; reflexivity|].
  split; [vm_compute; reflexivity|].
  split; [vm_compute; split; [discriminate | reflexivity]|].
  apply (digitalWrite_then_digitalRead (sm := 0) chip_regs EchoChip_echoes
           opened_handle 12 1).
  - vm_compute; reflexivity.
  - vm_compute; reflexivity.
  - vm_compute; reflexivity.
  - lia.
  - right; reflexivity.
  - vm_compute; split; [discriminate | reflexivity].
Defined.

Lemma tuned_bytes f k : f <> Data -> is_byte (cached f k tuned_handle).
Proof. intros _. destruct f, k; vm_compute; split; (discriminate || reflexivity). Qed.

Lemma open_device_witness :
  MCP23S17.lock tuned_handle = Some Unlocked /\
  MCP23S17._spimode tuned_handle = Some 0 /\
  (forall f k, f <> Data -> is_byte (cached f k tuned_handle)) /\
  exists d',
    MCP23S17.open tuned_handle = (Ok tt, d') /\
    (forall f k, f <> Data ->
       chip_regs (MCP23S17._spi d') (register f k) = cached f k d') /\
    (forall f, f <> Data ->
       cached f BankA d' = Z.lor (cached f BankA tuned_handle) 0xFF /\
       cached f BankB d' = Z.lor (cached f BankB tuned_handle) 0x7F).
Proof.
  split; [reflexivity|]. split; [reflexivity|]. split; [exact tuned_bytes|].
  apply (open_writes_the_cache_to_the_device (sm := 0) chip_regs
           EchoChip_echoes tuned_handle).
  - reflexivity.
  - reflexivity.
  - exact tuned_bytes.
Defined.

(** On the device of a fresh handle with the mode assigned, [open] leaves
    pin 15 an output
    without pull-up: bit 7 of the two bank-B registers is 0. *)
Example open_leaves_pin_15_an_output :
  chip_regs (MCP23S17._spi opened_handle) MCP23S17.MCP23S17_IODIRB = 0x7F /\
  chip_regs (MCP23S17._spi opened_handle) MCP23S17.MCP23S17_GPPUB = 0x7F.
Proof. vm_compute. split; reflexivity. Qed.

Lemma lock_witness :
  MCP23S17.lock broken_handle = Some Unlocked /\
  (MCP23S17.lock (snd (perform (DigitalWrite 3 1) broken_handle))
     = Some Unlocked /\
   fst (perform (DigitalWrite 3 1) broken_handle) <> Blocked) /\
  (MCP23S17.lock (snd (MCP23S17.open broken_handle)) = Some Unlocked /\
   fst (MCP23S17.open broken_handle) <> Blocked).
Proof.
  split; [reflexivity|].
  apply (operations_release_the_lock broken_handle (DigitalWrite 3 1)).
  reflexivity.
Defined.

Lemma lockless_witness :
  MCP23S17.lock lockless_handle = None /\
  exists e d',
    MCP23S17.open lockless_handle = (Raise e, d') /\
    e <> NotInitialized /\
    MCP23S17.isInitialized d' = true /\
    MCP23S17._spi d' = MCP23S17._spi lockless_handle /\
    forall f k, cached f k d' = cached f k lockless_handle.
Proof.
  split; [reflexivity|].
  apply (open_without_a_lock lockless_handle). reflexivity.
Defined.

Lemma scoped_witness :
  (* [open] returns, the body raises: [close] is called *)
  (exists d3,
     scoped (MCP23S17.digitalWrite 16 1) recorded_handle
       = (Raise AssertionError, d3) /\
     MCP23S17.isInitialized d3 = false /\
     calls (MCP23S17._spi d3) =
       calls (MCP23S17._spi opened_recorded_handle) ++ [Close]) /\
  (* [open] raises: [close] is not called *)
  (scoped (MCP23S17.digitalWrite 3 1) flaky_recorded_handle
     = (Raise (TransportError EIO),
        snd (MCP23S17.open flaky_recorded_handle)) /\
   MCP23S17.isInitialized (snd (MCP23S17.open flaky_recorded_handle))
     = true /\
   exists added,
     calls (MCP23S17._spi (snd (MCP23S17.open flaky_recorded_handle))) =
       calls (MCP23S17._spi flaky_recorded_handle) ++ added /\
     ~ In Close added).
Proof.
  split.
  - apply (proj1 (scoped_use (MCP23S17.digitalWrite 16 1) recorded_handle)
             opened_recorded_handle opened_recorded_handle
             (Raise AssertionError)).
    + vm_compute; reflexivity.
    + vm_compute; reflexivity.
    + discriminate.
  - apply (proj2 (scoped_use (MCP23S17.digitalWrite 3 1)
                    flaky_recorded_handle)).
    vm_compute; reflexivity.
Defined.

Lemma word_bus_witness :
  MCP23S17.isInitialized opened_recorded_handle = true /\
  MCP23S17.lock opened_recorded_handle = Some Unlocked /\
  MCP23S17._spimode opened_recorded_handle = Some 0 /\
  calls (MCP23S17._spi
           (snd (MCP23S17._writeRegisterWord 0x12 0xBEEF
                   opened_recorded_handle))) =
    calls (MCP23S17._spi opened_recorded_handle) ++
      settling 0 (MCP23S17._spi opened_recorded_handle) ++
      [Xfer2 [write_command opened_recorded_handle; 0x12;
              Z.land 0xBEEF 0xFF];
       Xfer2 [write_command opened_recorded_handle; 0x12 + 1;
              Z.shiftr 0xBEEF 8]] /\
  calls (MCP23S17._spi
           (snd (MCP23S17._readRegisterWord 0x12 opened_recorded_handle))) =
    calls (MCP23S17._spi opened_recorded_handle) ++
      settling 0 (MCP23S17._spi opened_recorded_handle) ++
      [Xfer2 [read_command opened_recorded_handle; 0x12; 0];
       Xfer2 [read_command opened_recorded_handle; 0x12 + 1; 0]].
Proof.
  split; [vm_compute; reflexivity|]. split; [vm_compute; reflexivity|].
  split; [vm_compute; reflexivity|].
  apply (word_operations_on_the_bus opened_recorded_handle 0 0x12 0xBEEF
           EchoChip_reliable EchoChip_keeps_mode).
  - vm_compute; reflexivity.
  - vm_compute; reflexivity.
  - vm_compute; reflexivity.
Defined.

Lemma word_failure_witness :
  MCP23S17.isInitialized broken_handle = true /\
  MCP23S17.lock broken_handle = Some Unlocked /\
  MCP23S17._spimode broken_handle = Some 0 /\
  fst (MCP23S17._writeRegisterWord 0x12 0xBEEF broken_handle)
    = Raise (TransportError EIO) /\
  fst (MCP23S17._writeRegisterWord 0x12 0xBEEF half_broken_handle)
    = Raise (TransportError EIO).
Proof.
  split; [reflexivity|]. split; [reflexivity|]. split; [reflexivity|]. split.
  - rewrite (proj1 (word_write_stops_at_the_failure broken_handle 0 0x12
                      0xBEEF eq_refl eq_refl eq_refl)
               EIO (mkFlaky (blank_chip 0) []));
      [reflexivity | vm_compute; reflexivity].
  - rewrite (proj2 (word_write_stops_at_the_failure half_broken_handle 0 0x12
                      0xBEEF eq_refl eq_refl eq_refl) [0; 0; 0]
               (mkFlaky (chip_store 0x12 0xEF (blank_chip 0)) [true]) EIO
               (mkFlaky (chip_store 0x12 0xEF (blank_chip 0)) []));
      [reflexivity | vm_compute; reflexivity | vm_compute; reflexivity].
Defined.

Lemma frames_witness :
  MCP23S17.isInitialized opened_handle = true /\
  MCP23S17.lock opened_handle = Some Unlocked /\
  MCP23S17._spimode opened_handle = Some 0 /\
  0 <= MCP23S17.device_id opened_handle <= 7 /\
  fst (MCP23S17._writeRegister 0x12 0xA5 opened_handle) = Ok tt /\
  fst (MCP23S17._readRegister 0x12 opened_handle) = Ok 0.
Proof.
  split; [vm_compute; reflexivity|]. split; [vm_compute; reflexivity|].
  split; [vm_compute; reflexivity|].
  assert (Hid : 0 <= MCP23S17.device_id opened_handle <= 7)
    by (vm_compute; split; discriminate).
  split; [exact Hid|].
  destruct (register_frames opened_handle 0 0x12 0xA5) as [Ew Er].
  - vm_compute; reflexivity.
  - vm_compute; reflexivity.
  - vm_compute; reflexivity.
  - exact Hid.
  - rewrite Ew, Er. vm_compute. split; reflexivity.
Defined.

Lemma auxiliary_pins_witness :
  MCP23S17.int_pins wired_handle = [Some idle_pin; None] /\
  MCP23S17.reset_pin (snd (MCP23S17.open wired_handle)) =
    option_map (fun p => Pin_set_value true (Pin_set_output p))
      (MCP23S17.reset_pin wired_handle) /\
  MCP23S17.int_pins (snd (MCP23S17.open wired_handle)) =
    [option_map
       (fun p => Pin_on_interrupt (MCP23S17.int_level wired_handle)
                   (Pin_set_input p)) (Some idle_pin);
     option_map
       (fun p => Pin_on_interrupt (MCP23S17.int_level wired_handle)
                   (Pin_set_input p)) None].
Proof.
  split; [reflexivity|].
  apply (open_sets_up_the_auxiliary_pins wired_handle (Some idle_pin) None).
  reflexivity.
Defined.

Lemma writeGPIO_range_witness :
  MCP23S17.isInitialized broken_handle = true /\
  is_byte (MCP23S17._GPIOA (snd (MCP23S17.writeGPIO 0x12345 broken_handle)))
  /\
  (is_byte (MCP23S17._GPIOB (snd (MCP23S17.writeGPIO 0x12345 broken_handle)))
   <-> 0 <= 0x12345 < 65536).
Proof.
  split; [reflexivity|].
  apply (writeGPIO_high_byte_is_not_masked broken_handle 0x12345).
  reflexivity.
Defined.

Lemma reopen_witness :
  MCP23S17.lock tuned_handle = Some Unlocked /\
  MCP23S17._spimode tuned_handle = Some 0 /\
  exists d1 d3,
    MCP23S17.open tuned_handle = (Ok tt, d1) /\
    (MCP23S17.open ;; MCP23S17.close ;; MCP23S17.open) tuned_handle
      = (Ok tt, d3) /\
    MCP23S17.isInitialized d3 = true /\
    forall f k, cached f k d3 = cached f k d1.
Proof.
  split; [reflexivity|]. split; [reflexivity|].
  apply (reopen_keeps_the_cache (sm := 0) tuned_handle EchoChip_reliable).
  - reflexivity.
  - reflexivity.
Defined.

Lemma built_handle_witness :
  well_formed (DigitalRead 3) /\
  exists d',
    MCP23S17.open
      (MCP23S17.__init__ (blank_chip 3) None None None 0 (Some Unlocked) 2)
      = (Raise AttributeError, d') /\
    MCP23S17.isInitialized d' = true /\
    MCP23S17._spi d' = blank_chip 3 /\
    (forall f k, cached f k d' = 0) /\
    fst (perform (DigitalRead 3) d') = Raise AttributeError /\
    MCP23S17._spi (snd (perform (DigitalRead 3) d')) = blank_chip 3.
Proof.
  split; [cbn; lia|].
  apply (built_handle_never_reaches_the_bus (blank_chip 3) None None None 0 2
           (DigitalRead 3)).
  cbn; lia.
Defined.
